(** * vertex-ai-mcp-server: the configuration resolver and the generative call layer

    A shallow embedding of
    - [src/config.ts]: [getAIProvider], [validateConfig], the safety tables;
    - [src/tools/tool_definition.ts]: [getToolsForApi];
    - the two-provider client: [callGenerativeAI];
    - the earlier Vertex-only client: [callVertexAIWithOptionalFunctionCalling];
    followed by the properties of the retry engine, of the response
    inspection and of the configuration checks.

    Conventions.  A JavaScript string is a [string] of 8-bit characters;
    only U+0000..U+007F are in the model, so [toLowerCase] acts on A..Z.
    [process.env] is a finite map from names to values.  Numbers that the
    configuration parses with [parseInt] are [Z]; durations in milliseconds
    are rationals ([Q]); where a backoff delay is computed with jitter, the
    products and the sum are rounded to IEEE doubles as JavaScript rounds
    them ([Double.round]; a magnitude beyond the largest double, which
    JavaScript turns into [Infinity], is outside the model).  Console output is modelled where a function's contract
    is its console output ([validateConfig]); inside the call layer the
    observable events are the provider invocations and the sleeps. *)

From Stdlib Require Import String Ascii List ZArith QArith Qround Qpower Bool Lia Lqa.
From stdpp Require Import base option gmap strings pretty.
From Equations Require Import Equations.
Import ListNotations.

Local Open Scope string_scope.
Local Open Scope Z_scope.

(* ===================================================================== *)
(** ** JavaScript strings *)
(* ===================================================================== *)

Module Js.

(** ['A' <= c <= 'Z'] *)
Definition isUpper (c : ascii) : bool :=
  let n := nat_of_ascii c in (Nat.leb 65 n && Nat.leb n 90)%bool.

Definition lowerChar (c : ascii) : ascii :=
  if isUpper c then ascii_of_nat (nat_of_ascii c + 32) else c.

(** [String.prototype.toLowerCase] *)
Fixpoint toLowerCase (s : string) : string :=
  match s with
  | EmptyString => EmptyString
  | String c s' => String (lowerChar c) (toLowerCase s')
  end.

(** [s.startsWith(p)] *)
Fixpoint startsWith (s p : string) {struct p} : bool :=
  match p, s with
  | EmptyString, _ => true
  | String _ _, EmptyString => false
  | String a p', String b s' => (Ascii.eqb a b && startsWith s' p')%bool
  end.

(** [String.prototype.includes]: some suffix of [s] starts with [sub]. *)
Fixpoint includes (s sub : string) : bool :=
  (startsWith s sub ||
   match s with
   | EmptyString => false
   | String _ s' => includes s' sub
   end)%bool.

(** Truthiness of a value that is a string or [undefined]. *)
Definition truthy (v : option string) : bool :=
  match v with
  | Some (String _ _) => true
  | _ => false
  end.

(** [a || b] on such values. *)
Definition orElse (v : option string) (d : string) : string :=
  match v with
  | Some (String c s) => String c s
  | _ => d
  end.

Fixpoint drop (n : nat) (s : string) : string :=
  match n, s with
  | O, _ => s
  | S n', String _ s' => drop n' s'
  | S _, EmptyString => EmptyString
  end.

End Js.

(* ===================================================================== *)
(** ** JavaScript numbers: rounding to a double *)
(* ===================================================================== *)

Module Double.

(** [2^k] as a rational, for an integer [k] of either sign. *)
Definition pow2 (k : Z) : Q := (2 ^ k)%Q.

(** The integer nearest to [s]; of the two nearest ones, the even one. *)
Definition roundHalfEven (s : Q) : Z :=
  let f := Qfloor s in
  match Qcompare (s - inject_Z f) (1 # 2) with
  | Lt => f
  | Gt => f + 1
  | Eq => if Z.even f then f else f + 1
  end.

(** The exponent of the leading bit of [a > 0]: the [e] with
    [2^e <= a < 2^(e+1)]. *)
Definition exponent (a : Q) : Z :=
  let e := Z.log2 (Qnum a) - Z.log2 (Zpos (Qden a)) in
  if Qle_bool (pow2 e) a then e else e - 1.

(** The exponent of the unit in the last place of the doubles around
    [a > 0]: 52 binary places below the leading bit (a double has 53
    significant bits), and never below [-1074]. *)
Definition ulpExponent (a : Q) : Z := Z.max (exponent a - 52) (-1074).

(** The double nearest to [a > 0], ties going to the even significand. *)
Definition roundPositive (a : Q) : Q :=
  let u := ulpExponent a in
  Qred (inject_Z (roundHalfEven (a / pow2 u)) * pow2 u).

(** The value of an arithmetic result [q] as a double (IEEE 754 binary64,
    round to nearest, ties to even). *)
Definition round (q : Q) : Q :=
  match Qnum q with
  | Z0 => 0
  | Zpos _ => roundPositive q
  | Zneg _ => Qred (- roundPositive (- q))
  end.

End Double.

(* ===================================================================== *)
(** ** src/config.ts *)
(* ===================================================================== *)

Module Config.

(** [type AIProvider = "vertex" | "gemini"] *)
Inductive AIProvider := vertex | gemini.

Definition AIProvider_eqb (a b : AIProvider) : bool :=
  match a, b with
  | vertex, vertex | gemini, gemini => true
  | _, _ => false
  end.

(** The provider as it is interpolated into messages. *)
Definition providerName (p : AIProvider) : string :=
  match p with vertex => "vertex" | gemini => "gemini" end.

(** [process.env] *)
Abbreviation Env := (gmap string string).

(** [process.env.AI_PROVIDER?.toLowerCase() === "gemini" ? "gemini" : "vertex"] *)
Definition getAIProvider (env : Env) : AIProvider :=
  match env !! "AI_PROVIDER" with
  | Some v => if String.eqb (Js.toLowerCase v) "gemini" then gemini else vertex
  | None => vertex
  end.

(** *** A process: console output and [process.exit] *)

Inductive Outcome (A : Type) :=
| Returns (a : A)
| Exits (code : Z).
Arguments Returns {A} a.
Arguments Exits {A} code.

(** A computation takes the lines already written to stderr and gives the
    lines afterwards, with its outcome. *)
Definition Proc (A : Type) : Type := list string -> list string * Outcome A.

#[global] Instance Proc_ret : MRet Proc := fun A a err => (err, Returns a).

#[global] Instance Proc_bind : MBind Proc := fun A B k m err =>
  match m err with
  | (err', Returns a) => k a err'
  | (err', Exits c) => (err', Exits c)
  end.

Definition console_error (line : string) : Proc unit :=
  fun err => ((err ++ [line])%list, Returns tt).

Definition process_exit {A} (code : Z) : Proc A :=
  fun err => (err, Exits code).

Definition when (b : bool) (m : Proc unit) : Proc unit :=
  if b then m else mret tt.

Definition msgNoProject : string :=
  "Error: AI_PROVIDER is 'vertex' but GOOGLE_CLOUD_PROJECT environment variable is not set.".
Definition msgNoApiKey : string :=
  "Error: AI_PROVIDER is 'gemini' but GEMINI_API_KEY environment variable is not set.".

Definition validateConfig (env : Env) : Proc unit :=
  let aiProvider := getAIProvider env in
  when (AIProvider_eqb aiProvider vertex
          && negb (Js.truthy (env !! "GOOGLE_CLOUD_PROJECT")))
       (console_error msgNoProject ;; process_exit 1) ;;
  when (AIProvider_eqb aiProvider gemini
          && negb (Js.truthy (env !! "GEMINI_API_KEY")))
       (console_error msgNoApiKey ;; process_exit 1).

(** *** Safety settings *)

Inductive HarmCategory :=
| HARM_CATEGORY_DANGEROUS_CONTENT
| HARM_CATEGORY_HARASSMENT
| HARM_CATEGORY_HATE_SPEECH
| HARM_CATEGORY_SEXUALLY_EXPLICIT.

Inductive HarmBlockThreshold := BLOCK_NONE.

Record SafetySetting := {
  category : HarmCategory;
  threshold : HarmBlockThreshold }.

Definition vertexSafetySettings : list SafetySetting :=
  [ {| category := HARM_CATEGORY_DANGEROUS_CONTENT; threshold := BLOCK_NONE |};
    {| category := HARM_CATEGORY_HARASSMENT; threshold := BLOCK_NONE |};
    {| category := HARM_CATEGORY_HATE_SPEECH; threshold := BLOCK_NONE |};
    {| category := HARM_CATEGORY_SEXUALLY_EXPLICIT; threshold := BLOCK_NONE |} ].

Definition geminiSafetySettings : list SafetySetting :=
  [ {| category := HARM_CATEGORY_DANGEROUS_CONTENT; threshold := BLOCK_NONE |};
    {| category := HARM_CATEGORY_HARASSMENT; threshold := BLOCK_NONE |};
    {| category := HARM_CATEGORY_HATE_SPEECH; threshold := BLOCK_NONE |};
    {| category := HARM_CATEGORY_SEXUALLY_EXPLICIT; threshold := BLOCK_NONE |} ].

(** The object returned by [getAIConfig]. *)
Record AIConfig := {
  provider : AIProvider;
  modelId : string;
  temperature : Q;
  useStreaming : bool;
  maxOutputTokens : Z;
  maxRetries : Z;
  retryDelayMs : Z;
  gcpProjectId : option string;
  gcpLocation : string;
  geminiApiKey : option string }.

End Config.

(* ===================================================================== *)
(** ** src/tools/tool_definition.ts *)
(* ===================================================================== *)

Module ToolDefinition.

Record GoogleSearchRetrieval := { disableAttribution : option bool }.

(** A [Tool] object of the SDK: each key is present or absent. *)
Record Tool := {
  functionDeclarations : option (list string);
  googleSearchRetrieval : option GoogleSearchRetrieval;
  googleSearch : option unit }.

(** [{ googleSearch: {} }] *)
Definition googleSearchTool : Tool :=
  {| functionDeclarations := None;
     googleSearchRetrieval := None;
     googleSearch := Some tt |}.

(** [return useWebSearch ? [{ googleSearch: {} }] : undefined] *)
Definition getToolsForApi (enableFunctionCalling useWebSearch : bool)
  : option (list Tool) :=
  if useWebSearch then Some [googleSearchTool] else None.

End ToolDefinition.

(* ===================================================================== *)
(** ** The provider SDKs, at their interface *)
(* ===================================================================== *)

Module Sdk.

(** A thrown [Error] object. *)
Record JsError := {
  name : string;
  message : string;
  status : option string }.

(** [new Error(msg)] *)
Definition newError (msg : string) : JsError :=
  {| name := "Error"; message := msg; status := None |}.

(** [String(error)], that is [Error.prototype.toString]. *)
Definition errorToString (e : JsError) : string :=
  match name e, message e with
  | EmptyString, m => m
  | n, EmptyString => n
  | n, m => n ++ ": " ++ m
  end.

(** How an evaluation completes: with a value, or by throwing. *)
Inductive Completion (A : Type) :=
| Normal (a : A)
| Throw (e : JsError).
Arguments Normal {A} a.
Arguments Throw {A} e.

Record Part := { text : option string }.

Record Content := {
  role : string;
  parts : option (list Part) }.

Record SafetyRating := {
  ratingCategory : string;
  probability : string }.

Record Candidate := {
  content : option Content;
  finishReason : option string;
  safetyRatings : option (list SafetyRating) }.

Record PromptFeedback := { blockReason : option string }.

(** A response, or a chunk of a stream.  [textAccessor] is what the
    [text()] helper of @google/generative-ai does on this response; the
    Vertex SDK has no such helper and the Vertex paths never read it. *)
Record GenerateContentResponse := {
  candidates : option (list Candidate);
  promptFeedback : option PromptFeedback;
  textAccessor : Completion string }.

Record GenerateContentResult := {
  response : option GenerateContentResponse }.

(** [stream] yields [chunks] and then completes, or throws [streamFailure];
    [aggregated] is what awaiting [streamResult.response] gives. *)
Record GenerateContentStreamResult := {
  chunks : list GenerateContentResponse;
  streamFailure : option JsError;
  aggregated : Completion (option GenerateContentResponse) }.

(** A model instance.  What the provider answers may change from one
    invocation to the next: the answers are indexed by the attempt that
    makes the invocation (each attempt makes one). *)
Record GenerativeModel := {
  generateContent : Z -> Completion GenerateContentResult;
  generateContentStream : Z -> Completion GenerateContentStreamResult }.

(** [VertexAI]: the default entry point and the preview one. *)
Record VertexAI := {
  getGenerativeModel : string -> GenerativeModel;
  preview_getGenerativeModel : string -> GenerativeModel }.

(** [GoogleGenerativeAI] *)
Record GoogleGenerativeAI := {
  genai_getGenerativeModel : string -> GenerativeModel }.

(** [ErrorCode] of the MCP SDK, as far as the client uses it. *)
Inductive ErrorCode := InternalError.

(** [new McpError(code, message)] *)
Record McpError := {
  mcpCode : ErrorCode;
  mcpMessage : string }.

(** [r?.candidates?.[0]] *)
Definition firstCandidate (r : option GenerateContentResponse) : option Candidate :=
  match r with
  | Some r' => match candidates r' with Some (c :: _) => Some c | _ => None end
  | None => None
  end.

(** [c?.content?.parts?.[0]?.text] *)
Definition firstPartText (c : option Candidate) : option string :=
  match c with
  | Some c' =>
      match content c' with
      | Some ct => match parts ct with Some (p :: _) => text p | _ => None end
      | None => None
      end
  | None => None
  end.

(** [r?.promptFeedback?.blockReason] *)
Definition blockReasonOf (r : option GenerateContentResponse) : option string :=
  match r with
  | Some r' => match promptFeedback r' with Some f => blockReason f | None => None end
  | None => None
  end.

(** [r?.candidates?.[0]?.finishReason] *)
Definition finishReasonOf (r : option GenerateContentResponse) : option string :=
  match firstCandidate r with
  | Some c => finishReason c
  | None => None
  end.

End Sdk.

(* ===================================================================== *)
(** ** The regular expressions of the error reports *)
(* ===================================================================== *)

Module Re.

(** [\s], within U+0000..U+007F: TAB, LF, VT, FF, CR, SPACE. *)
Definition isSpace (c : ascii) : bool :=
  let n := nat_of_ascii c in
  (Nat.leb 9 n && Nat.leb n 13 || Nat.eqb n 32)%bool.

(** The complement of [.]: LF and CR. *)
Definition isLineTerminator (c : ascii) : bool :=
  let n := nat_of_ascii c in (Nat.eqb n 10 || Nat.eqb n 13)%bool.

(** [\w] *)
Definition isWordChar (c : ascii) : bool :=
  let n := nat_of_ascii c in
  (Nat.leb 48 n && Nat.leb n 57 || Nat.leb 65 n && Nat.leb n 90
   || Nat.leb 97 n && Nat.leb n 122 || Nat.eqb n 95)%bool.

(** What a greedy [\s*] leaves. *)
Fixpoint skipSpaces (s : string) : string :=
  match s with
  | String c s' => if isSpace c then skipSpaces s' else s
  | EmptyString => EmptyString
  end.

(** What a greedy capture of [.*] takes. *)
Fixpoint takeLine (s : string) : string :=
  match s with
  | String c s' => if isLineTerminator c then EmptyString else String c (takeLine s')
  | EmptyString => EmptyString
  end.

(** [match[2]] of [/(Reason|Finish Reason):\s*G/i], where [G] is the
    capturing group around [.*]; [None] when the expression does not
    match.  The search is leftmost; at one position at most one alternative
    applies. *)
Fixpoint matchReason (s : string) : option string :=
  if Js.startsWith (Js.toLowerCase s) "reason:" then
    Some (takeLine (skipSpaces (Js.drop 7 s)))
  else if Js.startsWith (Js.toLowerCase s) "finish reason:" then
    Some (takeLine (skipSpaces (Js.drop 14 s)))
  else
    match s with
    | EmptyString => None
    | String _ s' => matchReason s'
    end.

(** A matcher for expressions without groups or assertions, by
    derivatives. *)
Inductive Regex :=
| Never
| Empty
| Class (p : ascii -> bool)
| Seq (r1 r2 : Regex)
| Alt (r1 r2 : Regex)
| Star (r : Regex).

Fixpoint nullable (r : Regex) : bool :=
  match r with
  | Never => false
  | Empty => true
  | Class _ => false
  | Seq r1 r2 => (nullable r1 && nullable r2)%bool
  | Alt r1 r2 => (nullable r1 || nullable r2)%bool
  | Star _ => true
  end.

Fixpoint deriv (c : ascii) (r : Regex) : Regex :=
  match r with
  | Never => Never
  | Empty => Never
  | Class p => if p c then Empty else Never
  | Seq r1 r2 =>
      if nullable r1 then Alt (Seq (deriv c r1) r2) (deriv c r2)
      else Seq (deriv c r1) r2
  | Alt r1 r2 => Alt (deriv c r1) (deriv c r2)
  | Star r' => Seq (deriv c r') (Star r')
  end.

Fixpoint matches (r : Regex) (s : string) : bool :=
  match s with
  | EmptyString => nullable r
  | String c s' => matches (deriv c r) s'
  end.

Definition anything : Regex := Star (Class (fun _ => true)).

(** [re.test(s)] for an expression without anchors. *)
Definition test (r : Regex) (s : string) : bool :=
  matches (Seq anything (Seq r anything)) s.

(** A literal under the [i] flag; [lit] is given in lower case. *)
Fixpoint literalCI (lit : string) : Regex :=
  match lit with
  | EmptyString => Empty
  | String a lit' => Seq (Class (fun c => Ascii.eqb (Js.lowerChar c) a)) (literalCI lit')
  end.

(** [.*] *)
Definition dotStar : Regex := Star (Class (fun c => negb (isLineTerminator c))).

(** [/prompt.*blocked.*\s*safety.*?setting/i] *)
Definition promptBlockedRegex : Regex :=
  Seq (literalCI "prompt")
   (Seq dotStar
    (Seq (literalCI "blocked")
     (Seq dotStar
      (Seq (Star (Class isSpace))
       (Seq (literalCI "safety")
        (Seq dotStar (literalCI "setting"))))))).

(** The token [t] stands at the head of [s] and is followed by [\b]. *)
Definition tokenHere (s t : string) : bool :=
  (Js.startsWith s t &&
   match Js.drop (String.length t) s with
   | String c _ => negb (isWordChar c)
   | EmptyString => true
   end)%bool.

(** [match[0]] of [/\b(t1|...|tn)\b/] for tokens made of word characters,
    none of which begins another (so at most one stands at a position):
    scan from the left, [prev] being the character before the position. *)
Fixpoint matchToken (tokens : list string) (prev : option ascii) (s : string)
  : option string :=
  let boundary :=
    match prev with Some c => negb (isWordChar c) | None => true end in
  match (if boundary then List.find (tokenHere s) tokens else None) with
  | Some t => Some t
  | None =>
      match s with
      | EmptyString => None
      | String c s' => matchToken tokens (Some c) s'
      end
  end.

End Re.

(* ===================================================================== *)
(** ** What a call does: provider invocations and sleeps *)
(* ===================================================================== *)

Module Runtime.
Import Config ToolDefinition Sdk.

Record GenerationConfig := {
  gc_temperature : Q;
  gc_maxOutputTokens : Z }.

(** The request object handed to [generateContent] and
    [generateContentStream]. *)
Record GenerateContentRequest := {
  contents : list Content;
  generationConfig : GenerationConfig;
  safetySettings : list SafetySetting;
  tools : option (list Tool) }.

Inductive EntryPoint := Default | Preview.

Inductive Event :=
| Generate (entry : EntryPoint) (attempt : Z) (req : GenerateContentRequest)
| GenerateStream (entry : EntryPoint) (attempt : Z) (req : GenerateContentRequest)
| Sleep (ms : Q).

(** A computation of the call layer: the events it causes, in order, and
    how it completes. *)
Record Run (A : Type) := mkRun {
  events : list Event;
  completion : Completion A }.
Arguments mkRun {A} events completion.
Arguments events {A} r.
Arguments completion {A} r.

#[global] Instance Run_ret : MRet Run := fun A a => mkRun [] (Normal a).

#[global] Instance Run_bind : MBind Run := fun A B k m =>
  match completion m with
  | Normal a => mkRun (events m ++ events (k a))%list (completion (k a))
  | Throw e => mkRun (events m) (Throw e)
  end.

Definition throw {A} (e : JsError) : Run A := mkRun [] (Throw e).

(** [try { m } catch (e) { h e }] *)
Definition tryCatch {A} (m : Run A) (h : JsError -> Run A) : Run A :=
  match completion m with
  | Normal a => m
  | Throw e => mkRun (events m ++ events (h e))%list (completion (h e))
  end.

(** Awaiting a value the provider has produced. *)
Definition await {A} (c : Completion A) : Run A := mkRun [] c.

(** A model instance, with the entry point it was obtained from. *)
Record ModelInstance := {
  entry : EntryPoint;
  model : GenerativeModel }.

Definition callGenerateContent (m : ModelInstance) (attempt : Z)
    (req : GenerateContentRequest) : Run GenerateContentResult :=
  mkRun [Generate (entry m) attempt req] (generateContent (model m) attempt).

Definition callGenerateContentStream (m : ModelInstance) (attempt : Z)
    (req : GenerateContentRequest) : Run GenerateContentStreamResult :=
  mkRun [GenerateStream (entry m) attempt req] (generateContentStream (model m) attempt).

(** Modelled from the spec: [sleep] of [./utils.js], which is not among the
    sources; the spec names it the backoff sleep, a suspension of the
    given number of milliseconds. *)
Definition sleep (ms : Q) : Run unit := mkRun [Sleep ms] (Normal tt).

(** [for await (const x of stream) body]: the chunks in order, then the
    failure of the stream if it has one. *)
Fixpoint forAwait {S} (body : S -> GenerateContentResponse -> Run S)
    (xs : list GenerateContentResponse) (failure : option JsError) (acc : S) : Run S :=
  match xs with
  | [] => match failure with Some e => throw e | None => mret acc end
  | x :: xs' => acc' ← body acc x; forAwait body xs' failure acc'
  end.

(** How a call ends. *)
Inductive CallResult :=
| Returned (text : string)
| Raised (e : McpError).

Definition isSleep (e : Event) : bool :=
  match e with Sleep _ => true | _ => false end.

Definition sleeps (evs : list Event) : list Q :=
  List.flat_map (fun e => match e with Sleep q => [q] | _ => [] end) evs.

Definition invocations (evs : list Event) : list Event :=
  List.filter (fun e => negb (isSleep e)) evs.

End Runtime.

(* ===================================================================== *)
(** ** The two-provider client: [callGenerativeAI] *)
(* ===================================================================== *)

Module GenerativeClient.
Import Config ToolDefinition Sdk Runtime.

(** What lies outside the function: the two SDK clients and
    [Math.random], whose value is indexed by the attempt that draws it
    (each retried attempt draws one). *)
Record World := {
  vertexClient : VertexAI;
  geminiClient : GoogleGenerativeAI;
  mathRandom : Z -> Q }.

(** Truthiness of [tool.googleSearchRetrieval]. *)
Definition isSearchTool (t : Tool) : bool :=
  match googleSearchRetrieval t with Some _ => true | None => false end.

(** [tools?.some(tool => tool.googleSearchRetrieval)]: [undefined] or a
    boolean. *)
Definition isGroundingRequested (tools : option (list Tool)) : option bool :=
  match tools with
  | Some ts => Some (List.existsb isSearchTool ts)
  | None => None
  end.

Definition truthyFlag (b : option bool) : bool :=
  match b with Some true => true | _ => false end.

Definition isDefined {A} (v : option A) : bool :=
  match v with Some _ => true | None => false end.

(** [v !== s] for [v] a string or [undefined]. *)
Definition strictNe (v : option string) (s : string) : bool :=
  match v with Some x => negb (String.eqb x s) | None => true end.

(** [v === s] *)
Definition strictEq (v : option string) (s : string) : bool :=
  negb (strictNe v s).

(** A value inside a template literal. *)
Definition interpolate (v : option string) : string :=
  match v with Some x => x | None => "undefined" end.

Definition filteredToolsForVertex (provider : AIProvider)
    (tools : option (list Tool)) : option (list Tool) :=
  if (AIProvider_eqb provider gemini && isDefined tools)%bool then None
  else if (AIProvider_eqb provider vertex
           && truthyFlag (isGroundingRequested tools)
           && isDefined tools
           && match tools with
              | Some ts => 1 <? Z.of_nat (List.length ts)
              | None => false
              end)%bool
  then match tools with
       | Some ts => Some (List.filter isSearchTool ts)
       | None => None
       end
  else tools.

(** [if (b && b !== 'BLOCK_REASON_UNSPECIFIED' && b !== 'OTHER')] *)
Definition vertexBlocks (b : option string) : bool :=
  (Js.truthy b && strictNe b "BLOCK_REASON_UNSPECIFIED" && strictNe b "OTHER")%bool.

(** [e.message?.toLowerCase().includes(needle)] *)
Definition messageIncludes (e : JsError) (needle : string) : bool :=
  Js.includes (Js.toLowerCase (message e)) needle.

(** [String(error.message || error || '').toLowerCase()] *)
Definition errorMessageString (error : JsError) : string :=
  Js.toLowerCase
    (match message error with
     | EmptyString => errorToString error
     | m => m
     end).

Definition isBlockingError (error : JsError) : bool :=
  let s := errorMessageString error in
  (Js.includes s "blocked" || Js.includes s "safety")%bool.

Definition isRetryable (error : JsError) : bool :=
  let s := errorMessageString error in
  (negb (isBlockingError error) &&
   (Js.includes s "429" ||
    Js.includes s "500" ||
    Js.includes s "503" ||
    Js.includes s "deadline_exceeded" ||
    Js.includes s "internal" ||
    Js.includes s "network error" ||
    Js.includes s "socket hang up" ||
    Js.includes s "unavailable" ||
    Js.includes s "could not connect"))%bool.

(** [/\b(429|500|503|internal|unavailable)\b/] *)
Definition statusTokens : list string :=
  ["429"; "500"; "503"; "internal"; "unavailable"].

(** [error.message || d] *)
Definition messageOr (error : JsError) (d : string) : string :=
  match message error with
  | EmptyString => d
  | m => m
  end.

(** The message of the [McpError] the call ends with. *)
Definition finalErrorMessage (provider : AIProvider) (error : JsError) : string :=
  let p := providerName provider in
  let finalErrorMessage := p ++ " AI API error: " ++ messageOr error "Unknown error" in
  if isBlockingError error then
    match Re.matchReason (message error) with
    | Some (String c r) =>
        "Content generation blocked by " ++ p ++ " safety filters. Reason: " ++ String c r
    | _ =>
        if Re.test Re.promptBlockedRegex (message error) then
          "Content generation blocked by Gemini safety filters."
        else
          "Content generation blocked by " ++ p ++ " safety filters. ("
            ++ messageOr error "No specific reason found" ++ ")"
    end
  else
    match Re.matchToken statusTokens None (errorMessageString error) with
    | Some tok => finalErrorMessage ++ " (Status: " ++ tok ++ ")"
    | None =>
        if Js.includes (errorMessageString error) "deadline_exceeded" then
          p ++ " AI API error: Operation timed out (deadline_exceeded)."
        else finalErrorMessage
    end.

Section Call.

Variable aiConfig : AIConfig.
Variable world : World.
Variable initialContents : list Content.
Variable tools : option (list Tool).

Definition vertexModelInstance : option ModelInstance :=
  match provider aiConfig with
  | vertex =>
      Some (if truthyFlag (isGroundingRequested tools)
            then {| entry := Preview;
                    model := preview_getGenerativeModel (vertexClient world) (modelId aiConfig) |}
            else {| entry := Default;
                    model := getGenerativeModel (vertexClient world) (modelId aiConfig) |})
  | gemini => None
  end.

Definition geminiModelInstance : option ModelInstance :=
  match provider aiConfig with
  | vertex => None
  | gemini =>
      Some {| entry := Default;
              model := genai_getGenerativeModel (geminiClient world) (modelId aiConfig) |}
  end.

Definition commonGenConfig : GenerationConfig :=
  {| gc_temperature := temperature aiConfig;
     gc_maxOutputTokens := maxOutputTokens aiConfig |}.

Definition vertexRequest : GenerateContentRequest :=
  {| contents := initialContents;
     generationConfig := commonGenConfig;
     safetySettings := vertexSafetySettings;
     Runtime.tools := filteredToolsForVertex (provider aiConfig) tools |}.

(** The argument of the Gemini calls; it carries no tools. *)
Definition geminiRequest : GenerateContentRequest :=
  {| contents := initialContents;
     generationConfig := commonGenConfig;
     safetySettings := geminiSafetySettings;
     Runtime.tools := None |}.

(** Streaming, Vertex: the accumulated text and the aggregated response. *)
Definition vertexStream (attempt : Z)
  : Run (string * option GenerateContentResponse) :=
  match vertexModelInstance with
  | None => throw (newError "Vertex model instance not initialized.")
  | Some inst =>
      streamResult ← callGenerateContentStream inst attempt vertexRequest;
      accumulatedText ←
        forAwait
          (fun acc item =>
             let candidate := firstCandidate (Some item) in
             match firstPartText candidate with
             | Some textPart => mret (acc ++ textPart)
             | None => mret acc
             end)
          (chunks streamResult) (streamFailure streamResult) "";
      finalAggregatedResponse ← await (aggregated streamResult);
      let blockReasonVertex := blockReasonOf finalAggregatedResponse in
      if vertexBlocks blockReasonVertex then
        throw (newError ("Vertex Content generation blocked. Reason: "
                           ++ interpolate blockReasonVertex))
      else mret (accumulatedText, finalAggregatedResponse)
  end.

(** Streaming, Gemini. *)
Definition geminiStream (attempt : Z)
  : Run (string * option GenerateContentResponse) :=
  match geminiModelInstance with
  | None => throw (newError "Gemini model instance not initialized.")
  | Some inst =>
      streamResult ← callGenerateContentStream inst attempt geminiRequest;
      accumulatedText ←
        forAwait
          (fun acc chunk =>
             tryCatch
               (t ← await (textAccessor chunk); mret (acc ++ t))
               (fun e =>
                  if messageIncludes e "safety" then
                    throw (newError ("Gemini Content generation blocked during stream. Reason: "
                                       ++ message e))
                  else mret acc))
          (chunks streamResult) (streamFailure streamResult) "";
      finalAggregatedResponse ←
        tryCatch (await (aggregated streamResult))
          (fun e =>
             if messageIncludes e "safety" then
               throw (newError ("Gemini Content generation blocked aggregating response. Reason: "
                                  ++ message e))
             else throw e);
      let blockReasonGemini := blockReasonOf finalAggregatedResponse in
      if Js.truthy blockReasonGemini then
        throw (newError ("Gemini Content generation blocked. Aggregated Reason: "
                           ++ interpolate blockReasonGemini))
      else
        let finishReasonGemini := finishReasonOf finalAggregatedResponse in
        if strictEq finishReasonGemini "SAFETY" then
          throw (newError "Gemini Content generation blocked. Aggregated Finish Reason: SAFETY")
        else mret (accumulatedText, finalAggregatedResponse)
  end.

(** [if (!accumulatedText && finalAggregatedResponse) { try ... catch ... }]:
    one more extraction, from the aggregated response; an exception of the
    extraction is swallowed. *)
Definition extractFromAggregate (accumulatedText : string)
    (finalAggregatedResponse : option GenerateContentResponse) : string :=
  match accumulatedText, finalAggregatedResponse with
  | EmptyString, Some r =>
      match provider aiConfig with
      | vertex =>
          match firstPartText (firstCandidate finalAggregatedResponse) with
          | Some aggregatedTextVertex => aggregatedTextVertex
          | None => accumulatedText
          end
      | gemini =>
          match textAccessor r with
          | Normal aggregatedTextGemini => aggregatedTextGemini
          | Throw _ => accumulatedText
          end
      end
  | _, _ => accumulatedText
  end.

Definition streaming (attempt : Z) : Run (option string) :=
  '(accumulatedText, finalAggregatedResponse) ←
    match provider aiConfig with
    | vertex => vertexStream attempt
    | gemini => geminiStream attempt
    end;
  let responseText := extractFromAggregate accumulatedText finalAggregatedResponse in
  match responseText with
  | EmptyString =>
      throw (newError ("Received empty or non-text response from "
                         ++ providerName (provider aiConfig) ++ " AI stream."))
  | _ => mret (Some responseText)
  end.

(** Non-streaming, Vertex: [responseText], possibly [undefined]. *)
Definition vertexSingle (attempt : Z) : Run (option string) :=
  match vertexModelInstance with
  | None => throw (newError "Vertex model instance not initialized.")
  | Some inst =>
      result ← callGenerateContent inst attempt vertexRequest;
      let candidate := firstCandidate (response result) in
      let responseText := firstPartText candidate in
      let blockReasonVertex := blockReasonOf (response result) in
      if vertexBlocks blockReasonVertex then
        throw (newError ("Vertex Content generation blocked. Reason: "
                           ++ interpolate blockReasonVertex))
      else mret responseText
  end.

(** Non-streaming, Gemini. *)
Definition geminiSingle (attempt : Z) : Run (option string) :=
  match geminiModelInstance with
  | None => throw (newError "Gemini model instance not initialized.")
  | Some inst =>
      result ←
        tryCatch (callGenerateContent inst attempt geminiRequest)
          (fun e =>
             if (messageIncludes e "safety" || messageIncludes e "prompt blocked"
                 || strictEq (status e) "BLOCKED")%bool then
               throw (newError ("Gemini Content generation blocked. Call Reason: "
                                  ++ message e))
             else throw e);
      let responseText :=
        match response result with
        | Some r => match textAccessor r with Normal t => Some t | Throw _ => None end
        | None => None
        end in
      let blockReasonGemini := blockReasonOf (response result) in
      if Js.truthy blockReasonGemini then
        throw (newError ("Gemini Content generation blocked. Response Reason: "
                           ++ interpolate blockReasonGemini))
      else
        let finishReasonGemini := finishReasonOf (response result) in
        if strictEq finishReasonGemini "SAFETY" then
          throw (newError "Gemini Content generation blocked. Response Finish Reason: SAFETY")
        else mret responseText
  end.

Definition nonStreaming (attempt : Z) : Run (option string) :=
  responseText ←
    match provider aiConfig with
    | vertex => vertexSingle attempt
    | gemini => geminiSingle attempt
    end;
  if Js.truthy responseText then mret responseText
  else throw (newError ("Failed to extract valid text response from "
                          ++ providerName (provider aiConfig) ++ " AI (non-streaming).")).

(** The body of the [try] of one attempt. *)
Definition executeAttempt (attempt : Z) : Run string :=
  responseText ← (if useStreaming aiConfig then streaming attempt else nonStreaming attempt);
  match responseText with
  | Some t => mret t
  | None =>
      throw (newError ("Invalid state: No valid text response obtained from "
                         ++ providerName (provider aiConfig) ++ " AI."))
  end.

(** [(retryDelayMs * Math.pow(2, attempt)) + jitter], with
    [jitter = Math.random() * 500]; the two products and the sum are each
    rounded to a double. *)
Definition retryDelay (attempt : Z) : Q :=
  let jitter := Double.round (mathRandom world attempt * 500)%Q in
  Double.round
    (Double.round (inject_Z (retryDelayMs aiConfig * 2 ^ attempt)) + jitter)%Q.

Definition maxRetriesReached : McpError :=
  {| mcpCode := InternalError;
     mcpMessage := "Max retries (" ++ pretty (maxRetries aiConfig + 1) ++ ") reached for "
                     ++ providerName (provider aiConfig) ++ " LLM call without success." |}.

(** [for (let attempt = 0; attempt <= maxRetries; attempt++) { try ... catch ... }],
    from the given value of [attempt] on. *)
Equations? retryLoop (attempt : Z) : list Event * CallResult
  by wf (Z.to_nat (maxRetries aiConfig + 1 - attempt)) lt :=
retryLoop attempt with Z_le_gt_dec attempt (maxRetries aiConfig) := {
  | right _ => ([], Raised maxRetriesReached)
  | left _ with executeAttempt attempt := {
    | mkRun evs (Normal responseText) => (evs, Returned responseText)
    | mkRun evs (Throw error)
        with (isRetryable error && (attempt <? maxRetries aiConfig))%bool := {
      | true =>
          let delay := retryDelay attempt in
          let rest := retryLoop (attempt + 1) in
          ((evs ++ [Sleep delay] ++ fst rest)%list, snd rest)
      | false =>
          (evs, Raised {| mcpCode := InternalError;
                          mcpMessage := finalErrorMessage (provider aiConfig) error |})
      }
    }
  }.
Proof. lia. Qed.

Definition callGenerativeAI : list Event * CallResult := retryLoop 0.

End Call.

End GenerativeClient.

(* ===================================================================== *)
(** ** The Vertex-only client: [callVertexAIWithOptionalFunctionCalling] *)
(* ===================================================================== *)

Module VertexClient.
Import Config ToolDefinition Sdk Runtime.

(** ['googleSearch' in tool] *)
Definition hasGoogleSearch (t : Tool) : bool :=
  match googleSearch t with Some _ => true | None => false end.

(** [tools && tools.some(tool => 'googleSearch' in tool)] *)
Definition isGrounding (tools : option (list Tool)) : option bool :=
  match tools with
  | Some ts => Some (List.existsb hasGoogleSearch ts)
  | None => None
  end.

(** [String(error.message || '').toLowerCase()] *)
Definition errorMessageString (error : JsError) : string :=
  Js.toLowerCase (message error).

Definition isBlockingError (error : JsError) : bool :=
  Js.includes (errorMessageString error) "content generation blocked".

Definition isRetryable (error : JsError) : bool :=
  let s := errorMessageString error in
  (negb (isBlockingError error) &&
   (Js.includes s "429" || Js.includes s "500" || Js.includes s "503"))%bool.

(** [/\b(429|500|503)\b/] *)
Definition statusCodes : list string := ["429"; "500"; "503"].

Definition errorMessage (error : JsError) : string :=
  let errorMessage :=
    "Vertex AI API error: " ++ GenerativeClient.messageOr error "Unknown error" in
  match Re.matchToken statusCodes None (errorMessageString error) with
  | Some tok => errorMessage ++ " (Status Code: " ++ tok ++ ")"
  | None => errorMessage
  end.

Section Call.

(** The module's client, and the [safetySettings] table that this file
    imports from the configuration module of its time (a constant that is
    not among the sources). *)
Variable vertexAI : VertexAI.
Variable safetySettings : list SafetySetting.

Variable initialContents : list Content.
Variable tools : option (list Tool).
Variable modelId : string.
Variable temperature : Q.
Variable useStreaming : bool.
Variable maxOutputTokens : Z.
Variable maxRetries : Z.
Variable retryDelayMs : Z.

Definition generativeModel : ModelInstance :=
  if GenerativeClient.truthyFlag (isGrounding tools)
  then {| entry := Preview; model := preview_getGenerativeModel vertexAI modelId |}
  else {| entry := Default; model := getGenerativeModel vertexAI modelId |}.

Definition req : GenerateContentRequest :=
  {| contents := initialContents;
     generationConfig := {| gc_temperature := temperature;
                            gc_maxOutputTokens := maxOutputTokens |};
     Runtime.safetySettings := safetySettings;
     Runtime.tools := tools |}.

Definition streaming (attempt : Z) : Run (option string) :=
  streamResult ← callGenerateContentStream generativeModel attempt req;
  accumulatedText ←
    forAwait
      (fun acc item =>
         let candidate := firstCandidate (Some item) in
         match firstPartText candidate with
         | Some textPart => mret (acc ++ textPart)
         | None => mret acc
         end)
      (chunks streamResult) (streamFailure streamResult) "";
  finalAggregatedResponse ← await (aggregated streamResult);
  let accumulatedText :=
    match accumulatedText with
    | EmptyString =>
        match firstPartText (firstCandidate finalAggregatedResponse) with
        | Some aggregatedText => aggregatedText
        | None => accumulatedText
        end
    | _ => accumulatedText
    end in
  let responseText := accumulatedText in
  let blockReason := blockReasonOf finalAggregatedResponse in
  if GenerativeClient.vertexBlocks blockReason then
    throw (newError ("Content generation blocked. Reason: "
                       ++ GenerativeClient.interpolate blockReason))
  else
    match responseText with
    | EmptyString =>
        throw (newError "Received empty or non-text response from Vertex AI stream.")
    | _ => mret (Some responseText)
    end.

Definition nonStreaming (attempt : Z) : Run (option string) :=
  result ← callGenerateContent generativeModel attempt req;
  let candidate := firstCandidate (response result) in
  let responseText := firstPartText candidate in
  let blockReason := blockReasonOf (response result) in
  if GenerativeClient.vertexBlocks blockReason then
    throw (newError ("Content generation blocked. Reason: "
                       ++ GenerativeClient.interpolate blockReason))
  else if Js.truthy responseText then mret responseText
  else throw (newError "Failed to extract valid text response from Vertex AI (non-streaming).").

Definition executeAttempt (attempt : Z) : Run string :=
  responseText ← (if useStreaming then streaming attempt else nonStreaming attempt);
  match responseText with
  | Some t => mret t
  | None => throw (newError "Invalid state: No text response received from Vertex AI.")
  end.

(** [retryDelayMs * Math.pow(2, attempt)]; the product of an integer that
    a double holds by a power of two is exact. *)
Definition retryDelay (attempt : Z) : Q :=
  inject_Z (retryDelayMs * 2 ^ attempt).

Definition maxRetriesReached : McpError :=
  {| mcpCode := InternalError;
     mcpMessage := "Max retries (" ++ pretty (maxRetries + 1)
                     ++ ") reached for LLM call without success." |}.

Equations? vertexRetryLoop (attempt : Z) : list Event * CallResult
  by wf (Z.to_nat (maxRetries + 1 - attempt)) lt :=
vertexRetryLoop attempt with Z_le_gt_dec attempt maxRetries := {
  | right _ => ([], Raised maxRetriesReached)
  | left _ with executeAttempt attempt := {
    | mkRun evs (Normal responseText) => (evs, Returned responseText)
    | mkRun evs (Throw error)
        with (isRetryable error && (attempt <? maxRetries))%bool := {
      | true =>
          let delay := retryDelay attempt in
          let rest := vertexRetryLoop (attempt + 1) in
          ((evs ++ [Sleep delay] ++ fst rest)%list, snd rest)
      | false =>
          (evs, Raised {| mcpCode := InternalError; mcpMessage := errorMessage error |})
      }
    }
  }.
Proof. lia. Qed.

Definition callVertexAIWithOptionalFunctionCalling : list Event * CallResult :=
  vertexRetryLoop 0.

End Call.

End VertexClient.

(* ===================================================================== *)
(** ** src/config.ts: [getAIConfig], and the start of the client module *)
(* ===================================================================== *)

Module ConfigResolver.
Import Config Sdk.

(** A JavaScript number, as far as the resolver looks at one. *)
Inductive JsNumber :=
| NaN
| Infinite (negative : bool)
| Finite (q : Q).

(** [parseFloat] and [parseInt(_, 10)], which belong to the language and
    not to the repository.  [parseInt] answers [NaN] ([None]) or an
    integer; a digit run so long that JavaScript answers [Infinity] is
    outside the model. *)
Record Builtins := {
  parseFloat : string -> JsNumber;
  parseInt : string -> option Z }.

Definition isNaN (x : JsNumber) : bool :=
  match x with NaN => true | _ => false end.

(** [x >= 0.0] *)
Definition geZero (x : JsNumber) : bool :=
  match x with
  | NaN => false
  | Infinite negative => negb negative
  | Finite q => Qle_bool 0 q
  end.

(** [x <= 2.0] *)
Definition leTwo (x : JsNumber) : bool :=
  match x with
  | NaN => false
  | Infinite negative => negative
  | Finite q => Qle_bool q 2
  end.

(** [a !== b] on numbers. *)
Definition numNe (a b : JsNumber) : bool :=
  match a, b with
  | Finite p, Finite q => negb (Qeq_bool p q)
  | Infinite m, Infinite n => negb (Bool.eqb m n)
  | _, _ => true
  end.

(** [a !== b] for an integer [a] and the answer [b] of [parseInt]. *)
Definition intNe (a : Z) (b : option Z) : bool :=
  match b with
  | Some n => negb (a =? n)
  | None => true
  end.

Definition DEFAULT_VERTEX_MODEL_ID : string := "gemini-2.5-pro-exp-03-25".
Definition DEFAULT_GEMINI_MODEL_ID : string := "gemini-2.5-pro-exp-03-25".
Definition DEFAULT_TEMPERATURE : Q := 0.
Definition DEFAULT_USE_STREAMING : bool := true.
Definition DEFAULT_MAX_OUTPUT_TOKENS : Z := 8192.
Definition DEFAULT_MAX_RETRIES : Z := 3.
Definition DEFAULT_RETRY_DELAY_MS : Z := 1000.

(** [console.warn], which writes to stderr as [console.error] does. *)
Definition console_warn (line : string) : Proc unit := console_error line.

(** The double-quote character, for the messages that quote a value. *)
Definition quote : string := String "034"%char EmptyString.

(** The warning of an invalid value: the name of the variable, its value
    between double quotes, and the default that is used instead. *)
Definition invalidValue (name value shown : string) : string :=
  "Invalid " ++ name ++ " value " ++ quote ++ value ++ quote
    ++ ". Using default: " ++ shown.

(** The value of a validated number; a number that passed the range test
    is finite. *)
Definition valueOr (x : JsNumber) (d : Q) : Q :=
  match x with
  | Finite q => q
  | _ => d
  end.

Section Resolve.

Variable builtins : Builtins.
Variable env : Env.

Definition resolveTemperature : Proc Q :=
  let tempEnv := env !! "AI_TEMPERATURE" in
  if Js.truthy tempEnv then
    let parsedTemp := parseFloat builtins (GenerativeClient.interpolate tempEnv) in
    let temperature :=
      if (negb (isNaN parsedTemp) && geZero parsedTemp && leTwo parsedTemp)%bool
      then valueOr parsedTemp DEFAULT_TEMPERATURE
      else DEFAULT_TEMPERATURE in
    when (numNe (Finite temperature) parsedTemp)
         (console_warn (invalidValue "AI_TEMPERATURE"
                          (GenerativeClient.interpolate tempEnv) "0")) ;;
    mret temperature
  else mret DEFAULT_TEMPERATURE.

Definition resolveUseStreaming : Proc bool :=
  let streamEnv := Js.toLowerCase <$> env !! "AI_USE_STREAMING" in
  if GenerativeClient.strictEq streamEnv "false" then mret false
  else
    when (Js.truthy streamEnv && GenerativeClient.strictNe streamEnv "true")
         (console_warn (invalidValue "AI_USE_STREAMING"
                          (GenerativeClient.interpolate streamEnv) "true")) ;;
    mret DEFAULT_USE_STREAMING.

Definition resolveMaxOutputTokens : Proc Z :=
  let tokensEnv := env !! "AI_MAX_OUTPUT_TOKENS" in
  if Js.truthy tokensEnv then
    let parsedTokens := parseInt builtins (GenerativeClient.interpolate tokensEnv) in
    let maxOutputTokens :=
      match parsedTokens with
      | Some n => if 0 <? n then n else DEFAULT_MAX_OUTPUT_TOKENS
      | None => DEFAULT_MAX_OUTPUT_TOKENS
      end in
    when (intNe maxOutputTokens parsedTokens)
         (console_warn (invalidValue "AI_MAX_OUTPUT_TOKENS"
                          (GenerativeClient.interpolate tokensEnv) "8192")) ;;
    mret maxOutputTokens
  else mret DEFAULT_MAX_OUTPUT_TOKENS.

Definition resolveMaxRetries : Proc Z :=
  let retriesEnv := env !! "AI_MAX_RETRIES" in
  if Js.truthy retriesEnv then
    let parsedRetries := parseInt builtins (GenerativeClient.interpolate retriesEnv) in
    let maxRetries :=
      match parsedRetries with
      | Some n => if 0 <=? n then n else DEFAULT_MAX_RETRIES
      | None => DEFAULT_MAX_RETRIES
      end in
    when (intNe maxRetries parsedRetries)
         (console_warn (invalidValue "AI_MAX_RETRIES"
                          (GenerativeClient.interpolate retriesEnv) "3")) ;;
    mret maxRetries
  else mret DEFAULT_MAX_RETRIES.

Definition resolveRetryDelayMs : Proc Z :=
  let delayEnv := env !! "AI_RETRY_DELAY_MS" in
  if Js.truthy delayEnv then
    let parsedDelay := parseInt builtins (GenerativeClient.interpolate delayEnv) in
    let retryDelayMs :=
      match parsedDelay with
      | Some n => if 0 <=? n then n else DEFAULT_RETRY_DELAY_MS
      | None => DEFAULT_RETRY_DELAY_MS
      end in
    when (intNe retryDelayMs parsedDelay)
         (console_warn (invalidValue "AI_RETRY_DELAY_MS"
                          (GenerativeClient.interpolate delayEnv) "1000")) ;;
    mret retryDelayMs
  else mret DEFAULT_RETRY_DELAY_MS.

(** The five blocks of [getAIConfig], in the order of the source, then the
    model id of the selected provider and the object it returns. *)
Definition getAIConfig : Proc AIConfig :=
  temperature ← resolveTemperature;
  useStreaming ← resolveUseStreaming;
  maxOutputTokens ← resolveMaxOutputTokens;
  maxRetries ← resolveMaxRetries;
  retryDelayMs ← resolveRetryDelayMs;
  let aiProvider := getAIProvider env in
  let modelId :=
    match aiProvider with
    | vertex => Js.orElse (env !! "VERTEX_MODEL_ID") DEFAULT_VERTEX_MODEL_ID
    | gemini => Js.orElse (env !! "GEMINI_MODEL_ID") DEFAULT_GEMINI_MODEL_ID
    end in
  mret {| provider := aiProvider;
          modelId := modelId;
          temperature := temperature;
          useStreaming := useStreaming;
          maxOutputTokens := maxOutputTokens;
          maxRetries := maxRetries;
          retryDelayMs := retryDelayMs;
          gcpProjectId := env !! "GOOGLE_CLOUD_PROJECT";
          gcpLocation := Js.orElse (env !! "GOOGLE_CLOUD_LOCATION") "us-central1";
          geminiApiKey := env !! "GEMINI_API_KEY" |}.

End Resolve.

(** The [try ... catch] that opens the two-provider client module: the
    credential test of the selected provider, then the construction of the
    SDK client, whose failure, if any, is [construction]; a failure is
    written to stderr and ends the process.  (What [console.log] writes
    goes to stdout and is not part of the model.) *)
Definition initializeClient (aiConfig : AIConfig) (construction : option JsError)
  : Proc unit :=
  let thrown :=
    match provider aiConfig with
    | vertex =>
        if (negb (Js.truthy (gcpProjectId aiConfig))
            || negb (Js.truthy (Some (gcpLocation aiConfig))))%bool
        then Some (newError
               "Missing GOOGLE_CLOUD_PROJECT or GOOGLE_CLOUD_LOCATION for Vertex AI provider.")
        else construction
    | gemini =>
        if negb (Js.truthy (geminiApiKey aiConfig))
        then Some (newError "Missing GEMINI_API_KEY for Gemini provider.")
        else construction
    end in
  match thrown with
  | Some error =>
      console_error ("Error initializing " ++ providerName (provider aiConfig)
                       ++ " AI client: " ++ message error) ;;
      process_exit 1
  | None => mret tt
  end.

(** The statements at the top of the client module, in order: the
    configuration is resolved, then the client is initialised. *)
Definition moduleStart (builtins : Builtins) (env : Env)
    (construction : option JsError) : Proc AIConfig :=
  aiConfig ← getAIConfig builtins env;
  initializeClient aiConfig construction ;;
  mret aiConfig.

End ConfigResolver.

(* ===================================================================== *)
(** ** More of JavaScript's strings and arrays *)
(* ===================================================================== *)

Module JsText.

Definition CR : ascii := "013"%char.
Definition LF : ascii := "010"%char.

(** The white space and line terminators of JavaScript below U+0080: what
    [trim] removes and what the class [\s] of a regular expression
    matches. *)
Definition isWhiteSpace (c : ascii) : bool :=
  let n := nat_of_ascii c in
  ((Nat.leb 9 n && Nat.leb n 13) || Nat.eqb n 32)%bool.

(** [s.trimStart()] *)
Fixpoint trimStart (s : string) : string :=
  match s with
  | EmptyString => EmptyString
  | String c s' => if isWhiteSpace c then trimStart s' else s
  end.

(** [s.trimEnd()] *)
Fixpoint trimEnd (s : string) : string :=
  match s with
  | EmptyString => EmptyString
  | String c s' =>
      match trimEnd s' with
      | EmptyString => if isWhiteSpace c then EmptyString else String c EmptyString
      | t => String c t
      end
  end.

(** [s.trim()] *)
Definition trim (s : string) : string := trimEnd (trimStart s).

(** The match of [/^\s*/] on [s], which always exists. *)
Fixpoint leadingWhiteSpace (s : string) : string :=
  match s with
  | EmptyString => EmptyString
  | String c s' => if isWhiteSpace c then String c (leadingWhiteSpace s') else EmptyString
  end.

(** [s.split('\n')] *)
Fixpoint splitLines (s : string) : list string :=
  match s with
  | EmptyString => [EmptyString]
  | String c s' =>
      if Ascii.eqb c LF then EmptyString :: splitLines s'
      else match splitLines s' with
           | l :: ls => String c l :: ls
           | [] => [String c EmptyString]
           end
  end.

(** [lines.join(sep)] *)
Fixpoint join (sep : string) (lines : list string) : string :=
  match lines with
  | [] => EmptyString
  | l :: ls =>
      match ls with
      | [] => l
      | _ :: _ => l ++ sep ++ join sep ls
      end
  end.

(** [s.repeat(n)] *)
Fixpoint repeat (s : string) (n : nat) : string :=
  match n with
  | O => EmptyString
  | S n' => s ++ repeat s n'
  end.

(** [s.indexOf(sub)], with [None] for -1. *)
Fixpoint indexOf (s sub : string) : option nat :=
  if Js.startsWith s sub then Some O
  else match s with
       | EmptyString => None
       | String _ s' => S <$> indexOf s' sub
       end.

(** The expansion of a replacement template when the pattern is a string,
    so that there are no captures: [$$] stands for a dollar sign, [$&] for
    the matched text, [$`] for the text before the match and [$'] for the
    text after it; every other character, a dollar sign before a digit
    included, stands for itself. *)
Fixpoint getSubstitution (matched before after template : string) : string :=
  match template with
  | EmptyString => EmptyString
  | String c rest =>
      if Ascii.eqb c "$" then
        match rest with
        | String d rest' =>
            if Ascii.eqb d "$" then
              "$" ++ getSubstitution matched before after rest'
            else if Ascii.eqb d "&" then
              matched ++ getSubstitution matched before after rest'
            else if Ascii.eqb d "`" then
              before ++ getSubstitution matched before after rest'
            else if Ascii.eqb d "'" then
              after ++ getSubstitution matched before after rest'
            else String c (getSubstitution matched before after rest)
        | EmptyString => String c EmptyString
        end
      else String c (getSubstitution matched before after rest)
  end.

(** [s.replace(pattern, replacement)] for a string pattern: the first
    occurrence only, the replacement read as a template. *)
Definition replace (s pattern replacement : string) : string :=
  match indexOf s pattern with
  | None => s
  | Some position =>
      let before := String.substring 0 position s in
      let after := Js.drop (position + String.length pattern) s in
      before ++ getSubstitution pattern before after replacement ++ after
  end.

(** [xs.slice(i, i + n)] *)
Definition slice {A} (i n : nat) (xs : list A) : list A :=
  List.firstn n (List.skipn i xs).

(** [xs.splice(i, n, ...ys)], as the array afterwards. *)
Definition splice {A} (i n : nat) (ys xs : list A) : list A :=
  (List.firstn i xs ++ ys ++ List.skipn (i + n) xs)%list.

(** Is a string not empty, as a condition tests it. *)
Definition nonEmpty (s : string) : bool :=
  match s with
  | EmptyString => false
  | String _ _ => true
  end.

End JsText.

(* ===================================================================== *)
(** ** src/index.ts: the file editing utilities *)
(* ===================================================================== *)

Module FileEdits.
Import Sdk JsText.

(** [text.replace(/\r\n/g, '\n')] *)
Fixpoint normalizeLineEndings (text : string) : string :=
  match text with
  | EmptyString => EmptyString
  | String c rest =>
      match rest with
      | String d rest' =>
          if (Ascii.eqb c CR && Ascii.eqb d LF)%bool
          then String LF (normalizeLineEndings rest')
          else String c (normalizeLineEndings rest)
      | EmptyString => String c EmptyString
      end
  end.

(** What the utilities take from the platform: the file system, [path],
    the working directory and [createTwoFilesPatch] of the package
    [diff]. *)
Record Platform := {
  readFile : string -> Completion string;
  writeFile : string -> string -> Completion unit;
  relative : string -> string -> string;
  cwd : string;
  createTwoFilesPatch : string -> string -> string -> string -> string -> string -> string }.

(** An access to the file system. *)
Inductive Access :=
| Read (path : string)
| Write (path content : string).

(** A computation on files: its accesses, in order, and how it completes. *)
Record IO (A : Type) := mkIO {
  accesses : list Access;
  outcome : Completion A }.
Arguments mkIO {A} accesses outcome.
Arguments accesses {A} i.
Arguments outcome {A} i.

#[global] Instance IO_ret : MRet IO := fun A a => mkIO [] (Normal a).

#[global] Instance IO_bind : MBind IO := fun A B k m =>
  match outcome m with
  | Normal a => mkIO (accesses m ++ accesses (k a))%list (outcome (k a))
  | Throw e => mkIO (accesses m) (Throw e)
  end.

Definition fs_readFile (p : Platform) (path : string) : IO string :=
  mkIO [Read path] (readFile p path).

Definition fs_writeFile (p : Platform) (path content : string) : IO unit :=
  mkIO [Write path content] (writeFile p path content).

(** A step that touches no file. *)
Definition pure {A} (c : Completion A) : IO A := mkIO [] c.

Definition createUnifiedDiff (p : Platform)
    (originalContent newContent filepath : string) : string :=
  let normalizedOriginal := normalizeLineEndings originalContent in
  let normalizedNew := normalizeLineEndings newContent in
  createTwoFilesPatch p filepath filepath normalizedOriginal normalizedNew
    "original" "modified".

(** An element of the [edits] array. *)
Record EditOperation := {
  oldText : string;
  newText : string }.

(** [oldLines.every((oldLine, j) => oldLine.trim() === potentialMatch[j].trim())];
    the bound of the loop keeps [potentialMatch] as long as [oldLines], so
    that the last case is not reached. *)
Fixpoint isMatch (oldLines potentialMatch : list string) : bool :=
  match oldLines, potentialMatch with
  | [], _ => true
  | oldLine :: oldLines', line :: potentialMatch' =>
      (String.eqb (trim oldLine) (trim line) && isMatch oldLines' potentialMatch')%bool
  | _ :: _, [] => false
  end.

(** The loop over [i], from [i] on with [steps] values of [i] left: the
    first index whose window matches. *)
Fixpoint scan (oldLines contentLines : list string) (i steps : nat) : option nat :=
  match steps with
  | O => None
  | S steps' =>
      let potentialMatch := slice i (List.length oldLines) contentLines in
      if isMatch oldLines potentialMatch then Some i
      else scan oldLines contentLines (S i) steps'
  end.

(** [for (let i = 0; i <= contentLines.length - oldLines.length; i++)] *)
Definition firstMatch (oldLines contentLines : list string) : option nat :=
  scan oldLines contentLines 0 (S (List.length contentLines) - List.length oldLines).

(** The callback that maps the lines of the new text. *)
Definition reindent (originalIndent : string) (oldLines : list string)
    (j : nat) (line : string) : string :=
  match j with
  | O => originalIndent ++ trimStart line
  | S _ =>
      let oldIndent :=
        match oldLines !! j with
        | Some oldLine => leadingWhiteSpace oldLine
        | None => EmptyString
        end in
      let newIndent := leadingWhiteSpace line in
      if (nonEmpty oldIndent && nonEmpty newIndent)%bool then
        let relativeIndent :=
          (Z.of_nat (String.length newIndent) - Z.of_nat (String.length oldIndent))%Z in
        originalIndent ++ repeat " " (Z.to_nat (Z.max 0 relativeIndent)) ++ trimStart line
      else line
  end.

Definition noMatch (edit : EditOperation) : JsError :=
  newError ("Could not find exact or whitespace-insensitive match for edit:"
              ++ String LF (oldText edit)).

(** The body of the loop over the edits: the content after one edit. *)
Definition applyEdit (modifiedContent : string) (edit : EditOperation)
  : Completion string :=
  let normalizedOld := normalizeLineEndings (oldText edit) in
  let normalizedNew := normalizeLineEndings (newText edit) in
  if Js.includes modifiedContent normalizedOld then
    Normal (replace modifiedContent normalizedOld normalizedNew)
  else
    let oldLines := splitLines normalizedOld in
    let contentLines := splitLines modifiedContent in
    match firstMatch oldLines contentLines with
    | Some i =>
        let originalIndent :=
          match contentLines !! i with
          | Some line => leadingWhiteSpace line
          | None => EmptyString
          end in
        let newLines := imap (reindent originalIndent oldLines) (splitLines normalizedNew) in
        Normal (join (String LF EmptyString)
                  (splice i (List.length oldLines) newLines contentLines))
    | None => Throw (noMatch edit)
    end.

(** [for (const edit of edits)] *)
Fixpoint applyEdits (modifiedContent : string) (edits : list EditOperation)
  : Completion string :=
  match edits with
  | [] => Normal modifiedContent
  | edit :: edits' =>
      match applyEdit modifiedContent edit with
      | Normal modifiedContent' => applyEdits modifiedContent' edits'
      | Throw e => Throw e
      end
  end.

Definition backticks (n : nat) : string := repeat "`" n.

(** A value together with the fact that it is the value of [a]. *)
Definition inspect {A} (a : A) : {b : A | a = b} := exist _ a eq_refl.

(** [while (diff.includes('`'.repeat(numBackticks))) numBackticks++]: a run
    of backticks that occurs in [diff] is no longer than [diff], which
    bounds the loop. *)
Equations? fence (diff : string) (numBackticks : nat) : nat
  by wf (S (String.length diff) - numBackticks)%nat lt :=
fence diff numBackticks with inspect (Js.includes diff (backticks numBackticks)) := {
  | exist _ true occurs => fence diff (S numBackticks)
  | exist _ false _ => numBackticks }.
Proof.
  assert (forall s t, Js.includes s t = true -> (String.length t <= String.length s)%nat)
    as bound.
  { assert (forall t s, Js.startsWith s t = true
                        -> (String.length t <= String.length s)%nat) as prefix.
    { induction t as [|a t IH]; intros [|c s] H; simpl in *;
        try lia; try discriminate.
      apply andb_prop in H as [_ H]. apply IH in H. lia. }
    induction s as [|c s IH]; intros t H; simpl in H;
      apply orb_prop in H as [H|H]; try discriminate.
    - apply prefix in H. exact H.
    - apply prefix in H. exact H.
    - apply IH in H. simpl. lia. }
  assert (forall n, String.length (backticks n) = n) as len.
  { unfold backticks. induction n as [|n IH]; [reflexivity|].
    change (S (String.length (repeat "`" n)) = S n). f_equal. exact IH. }
  apply bound in occurs. rewrite len in occurs. lia.
Qed.

(** [applyFileEdits]: the file is read, the edits are applied in order, the
    diff is built, the file is written unless [dryRun], and the diff is
    returned inside a fence of backticks. *)
Definition applyFileEdits (p : Platform) (filePath : string)
    (edits : list EditOperation) (dryRun : bool) : IO string :=
  raw ← fs_readFile p filePath;
  let content := normalizeLineEndings raw in
  modifiedContent ← pure (applyEdits content edits);
  let diff := createUnifiedDiff p content modifiedContent (relative p (cwd p) filePath) in
  (if dryRun then mret tt else fs_writeFile p filePath modifiedContent) ;;
  let numBackticks := fence diff 3 in
  mret (backticks numBackticks ++ "diff" ++ String LF diff
          ++ String LF (backticks numBackticks)).

End FileEdits.

(* ===================================================================== *)
(** ** The single-SDK client: [initializeAI] and its [callGenerativeAI] *)
(* ===================================================================== *)

Module GenAIClient.
Import Config ToolDefinition Sdk.

(** A response of @google/genai, or a chunk of its stream; [text] is a
    getter, which may throw and may answer [undefined]. *)
Record Response := {
  text : Completion (option string);
  promptFeedback : option PromptFeedback;
  candidates : option (list Candidate) }.

(** The argument of [ai.models.generateContent] and of
    [ai.models.generateContentStream]; [config] holds [config.tools] when
    the call passes a [config]. *)
Record GenerateContentParameters := {
  model : string;
  contents : list Content;
  config : option (list Tool) }.

(** The stream yields [chunks] and then completes, or throws
    [streamFailure]. *)
Record StreamResult := {
  chunks : list Response;
  streamFailure : option JsError }.

(** [ai.models]; as before the answers are indexed by the attempt. *)
Record GoogleGenAI := {
  generateContent : Z -> Completion (option Response);
  generateContentStream : Z -> Completion StreamResult }.

(** The options [new GoogleGenAI] is given. *)
Inductive GoogleGenAIOptions :=
| ApiKey (apiKey : string)
| VertexAIOptions (project location : string).

(** The variables [ai] and [aiConfig] of the module. *)
Record Module := {
  ai : option GoogleGenAI;
  aiConfig : option AIConfig }.

Definition notInitialized : Module := {| ai := None; aiConfig := None |}.

Definition initializeAI (builtins : ConfigResolver.Builtins) (env : Env)
    (construct : GoogleGenAIOptions -> Completion GoogleGenAI) : Proc Module :=
  resolved ← ConfigResolver.getAIConfig builtins env;
  let created :=
    if Js.truthy (geminiApiKey resolved) then
      construct (ApiKey (GenerativeClient.interpolate (geminiApiKey resolved)))
    else if (Js.truthy (gcpProjectId resolved)
             && Js.truthy (Some (gcpLocation resolved)))%bool then
      construct (VertexAIOptions (GenerativeClient.interpolate (gcpProjectId resolved))
                   (gcpLocation resolved))
    else Throw (newError "Missing Gemini API key or Vertex AI project/location configuration.") in
  match created with
  | Normal client => mret {| ai := Some client; aiConfig := Some resolved |}
  | Throw error =>
      console_error ("Error initializing GoogleGenAI: " ++ message error) ;;
      process_exit 1
  end.

(** The events of a call: the invocations of the SDK and the sleeps. *)
Inductive Event :=
| Generate (attempt : Z) (params : GenerateContentParameters)
| GenerateStream (attempt : Z) (params : GenerateContentParameters)
| Sleep (ms : Q).

Record Run (A : Type) := mkRun {
  events : list Event;
  completion : Completion A }.
Arguments mkRun {A} events completion.
Arguments events {A} r.
Arguments completion {A} r.

#[global] Instance Run_ret : MRet Run := fun A a => mkRun [] (Normal a).

#[global] Instance Run_bind : MBind Run := fun A B k m =>
  match completion m with
  | Normal a => mkRun (events m ++ events (k a))%list (completion (k a))
  | Throw e => mkRun (events m) (Throw e)
  end.

Definition throw {A} (e : JsError) : Run A := mkRun [] (Throw e).

(** [try { m } catch (e) { h e }] *)
Definition tryCatch {A} (m : Run A) (h : JsError -> Run A) : Run A :=
  match completion m with
  | Normal a => m
  | Throw e => mkRun (events m ++ events (h e))%list (completion (h e))
  end.

Definition await {A} (c : Completion A) : Run A := mkRun [] c.

Definition callGenerateContent (client : GoogleGenAI) (attempt : Z)
    (params : GenerateContentParameters) : Run (option Response) :=
  mkRun [Generate attempt params] (generateContent client attempt).

Definition callGenerateContentStream (client : GoogleGenAI) (attempt : Z)
    (params : GenerateContentParameters) : Run StreamResult :=
  mkRun [GenerateStream attempt params] (generateContentStream client attempt).

(** [for await (const chunk of stream) body] *)
Fixpoint forAwait {S} (body : S -> Response -> Run S)
    (xs : list Response) (failure : option JsError) (acc : S) : Run S :=
  match xs with
  | [] => match failure with Some e => throw e | None => mret acc end
  | x :: xs' => acc' ← body acc x; forAwait body xs' failure acc'
  end.

(** How a call of this client ends: the uninitialised client throws a
    plain [Error], every other failure is an [McpError]. *)
Inductive CallOutcome :=
| Returned (text : string)
| Raised (e : McpError)
| Failed (e : JsError).

(** [r?.promptFeedback?.blockReason] *)
Definition blockReasonOf (r : option Response) : option string :=
  match r with
  | Some r' => match promptFeedback r' with Some f => blockReason f | None => None end
  | None => None
  end.

(** [r?.candidates?.[0]?.finishReason] *)
Definition finishReasonOf (r : option Response) : option string :=
  match r with
  | Some r' =>
      match candidates r' with
      | Some (c :: _) => finishReason c
      | _ => None
      end
  | None => None
  end.

Section Call.

Variable client : GoogleGenAI.
Variable resolved : AIConfig.
Variable mathRandom : Z -> Q.
Variable initialContents : list Content.
Variable tools : option (list Tool).

(** [{ model, contents, ...(tools && tools.length > 0 ? { config: { tools } } : {}) }] *)
Definition parameters : GenerateContentParameters :=
  {| model := modelId resolved;
     contents := initialContents;
     config := match tools with
               | Some (t :: ts) => Some (t :: ts)
               | _ => None
               end |}.

(** The body of the loop over the chunks, on [accumulatedText] and
    [lastChunk]. *)
Definition chunkStep (state : string * option Response) (chunk : Response)
  : Run (string * option Response) :=
  let accumulatedText := fst state in
  accumulatedText' ←
    tryCatch
      (t ← await (text chunk);
       mret (if Js.truthy t then accumulatedText ++ GenerativeClient.interpolate t
             else accumulatedText))
      (fun e =>
         if GenerativeClient.messageIncludes e "safety" then
           throw (newError ("Content generation blocked during stream. Reason: "
                              ++ message e))
         else mret accumulatedText);
  mret (accumulatedText', Some chunk).

Definition streaming (attempt : Z) : Run (option string) :=
  stream ← callGenerateContentStream client attempt parameters;
  '(accumulatedText, lastChunk) ←
    forAwait chunkStep (chunks stream) (streamFailure stream) (EmptyString, None);
  let blockReason := blockReasonOf lastChunk in
  if Js.truthy blockReason then
    throw (newError ("Content generation blocked. Aggregated Reason: "
                       ++ GenerativeClient.interpolate blockReason))
  else
    let finishReason := finishReasonOf lastChunk in
    if GenerativeClient.strictEq finishReason "SAFETY" then
      throw (newError "Content generation blocked. Aggregated Finish Reason: SAFETY")
    else
      let responseText := accumulatedText in
      match responseText with
      | EmptyString => throw (newError "Received empty or non-text response from AI stream.")
      | _ => mret (Some responseText)
      end.

Definition nonStreaming (attempt : Z) : Run (option string) :=
  result ←
    tryCatch (callGenerateContent client attempt parameters)
      (fun e =>
         if (GenerativeClient.messageIncludes e "safety"
             || GenerativeClient.messageIncludes e "prompt blocked"
             || GenerativeClient.strictEq (status e) "BLOCKED")%bool then
           throw (newError ("Content generation blocked. Call Reason: " ++ message e))
         else throw e);
  let responseText :=
    match result with
    | Some r => match text r with Normal t => t | Throw _ => None end
    | None => None
    end in
  let blockReason := blockReasonOf result in
  if Js.truthy blockReason then
    throw (newError ("Content generation blocked. Response Reason: "
                       ++ GenerativeClient.interpolate blockReason))
  else
    let finishReason := finishReasonOf result in
    if GenerativeClient.strictEq finishReason "SAFETY" then
      throw (newError "Content generation blocked. Response Finish Reason: SAFETY")
    else if Js.truthy responseText then mret responseText
    else throw (newError "Failed to extract valid text response from AI (non-streaming).").

(** The body of the [try] of one attempt. *)
Definition executeAttempt (attempt : Z) : Run string :=
  responseText ← (if useStreaming resolved then streaming attempt else nonStreaming attempt);
  match responseText with
  | Some t => mret t
  | None =>
      throw (newError ("Invalid state: No valid text response obtained from "
                         ++ providerName (provider resolved) ++ " AI."))
  end.

(** [(retryDelayMs * Math.pow(2, attempt)) + jitter], with
    [jitter = Math.random() * 500]; the two products and the sum are each
    rounded to a double. *)
Definition retryDelay (attempt : Z) : Q :=
  let jitter := Double.round (mathRandom attempt * 500)%Q in
  Double.round
    (Double.round (inject_Z (retryDelayMs resolved * 2 ^ attempt)) + jitter)%Q.

Definition maxRetriesReached : McpError :=
  {| mcpCode := InternalError;
     mcpMessage := "Max retries (" ++ pretty (maxRetries resolved + 1) ++ ") reached for "
                     ++ providerName (provider resolved) ++ " LLM call without success." |}.

(** The retry loop, from the given value of [attempt] on; its [catch] is
    the one of the two-provider client. *)
Equations? genaiRetryLoop (attempt : Z) : list Event * CallOutcome
  by wf (Z.to_nat (maxRetries resolved + 1 - attempt)) lt :=
genaiRetryLoop attempt with Z_le_gt_dec attempt (maxRetries resolved) := {
  | right _ => ([], Raised maxRetriesReached)
  | left _ with executeAttempt attempt := {
    | mkRun evs (Normal responseText) => (evs, Returned responseText)
    | mkRun evs (Throw error)
        with (GenerativeClient.isRetryable error
              && (attempt <? maxRetries resolved))%bool := {
      | true =>
          let delay := retryDelay attempt in
          let rest := genaiRetryLoop (attempt + 1) in
          ((evs ++ [Sleep delay] ++ fst rest)%list, snd rest)
      | false =>
          (evs, Raised {| mcpCode := InternalError;
                          mcpMessage :=
                            GenerativeClient.finalErrorMessage (provider resolved) error |})
      }
    }
  }.
Proof. lia. Qed.

End Call.

(** [callGenerativeAI], on the variables of the module as they are when it
    is called. *)
Definition callGenerativeAI (state : Module) (mathRandom : Z -> Q)
    (initialContents : list Content) (tools : option (list Tool))
  : list Event * CallOutcome :=
  match ai state, aiConfig state with
  | Some client, Some resolved =>
      genaiRetryLoop client resolved mathRandom initialContents tools 0
  | _, _ => ([], Failed (newError "AI client not initialized. Call initializeAI() first."))
  end.

End GenAIClient.

(* ===================================================================== *)
(** ** The request handler of the earlier [index.ts] *)
(* ===================================================================== *)

Module Server.
Import Config ToolDefinition Sdk Runtime.

(** [ErrorCode] of the MCP SDK, as far as the handler and the tools use
    it. *)
Inductive ErrorCode := MethodNotFound | InvalidParams | InternalError.

(** An [McpError] as the handler throws it. *)
Record McpError := {
  code : ErrorCode;
  message : string }.

(** The [McpError] of the client, which is always an internal error. *)
Definition ofClient (e : Sdk.McpError) : McpError :=
  {| code := match mcpCode e with Sdk.InternalError => InternalError end;
     message := mcpMessage e |}.

(** What a tool's [buildPrompt] may throw: an [McpError], or another
    [Error]. *)
Inductive Thrown :=
| ThrownMcp (e : McpError)
| ThrownError (e : JsError).

Record Prompt := {
  systemInstructionText : string;
  userQueryText : string;
  useWebSearch : bool;
  enableFunctionCalling : bool }.

(** [ToolDefinition], as far as the handler uses it; the arguments of a
    request are of a type [Args] that the handler only passes on. *)
Record ToolDefinition (Args : Type) := {
  name : string;
  buildPrompt : Args -> string -> Thrown + Prompt }.
Arguments name {Args} t.
Arguments buildPrompt {Args} t args modelId.

(** [buildInitialContent] *)
Definition buildInitialContent (systemInstruction userQuery : string) : list Content :=
  [{| role := "user";
      parts := Some [{| text := Some (systemInstruction
                                       ++ String JsText.LF (String JsText.LF EmptyString)
                                       ++ userQuery) |}] |}].

(** The configuration [getVertexAIConfig] returns; that function belongs
    to a configuration module that is not among the sources, and the
    handler reads these six fields of its result. *)
Record VertexAIConfig := {
  cfg_modelId : string;
  cfg_temperature : Q;
  cfg_useStreaming : bool;
  cfg_maxOutputTokens : Z;
  cfg_maxRetries : Z;
  cfg_retryDelayMs : Z }.

(** How the handler ends: with the content it returns, or with the
    [McpError] it throws. *)
Inductive Reply :=
| Content (texts : list string)
| Error (e : McpError).

Section Handler.

Context {Args : Type}.
Variable toolMap : gmap string (ToolDefinition Args).
Variable config : VertexAIConfig.
Variable vertexAI : VertexAI.
Variable safetySettings : list SafetySetting.

(** The handler of [CallToolRequestSchema]. *)
Definition callTool (toolName : string) (args : Args) : list Event * Reply :=
  match toolMap !! toolName with
  | None => ([], Error {| code := MethodNotFound;
                          message := "Unknown tool: " ++ toolName |})
  | Some toolDefinition =>
      match buildPrompt toolDefinition args (cfg_modelId config) with
      | inl (ThrownMcp error) => ([], Error error)
      | inl (ThrownError error) =>
          ([], Error {| code := InternalError;
                        message := "Unexpected server error: "
                                     ++ GenerativeClient.messageOr error "Unknown" |})
      | inr prompt =>
          let initialContents :=
            buildInitialContent (systemInstructionText prompt) (userQueryText prompt) in
          let toolsForApi :=
            getToolsForApi (enableFunctionCalling prompt) (useWebSearch prompt) in
          match VertexClient.callVertexAIWithOptionalFunctionCalling
                  vertexAI safetySettings initialContents toolsForApi
                  (cfg_modelId config) (cfg_temperature config) (cfg_useStreaming config)
                  (cfg_maxOutputTokens config) (cfg_maxRetries config)
                  (cfg_retryDelayMs config) with
          | (evs, Returned responseText) => (evs, Content [responseText])
          | (evs, Raised error) => (evs, Error (ofClient error))
          end
      end
  end.

End Handler.

End Server.

(* ===================================================================== *)
(** ** Notions the statements below are phrased with *)
(* ===================================================================== *)

Module Statements.
Import Config ToolDefinition Sdk Runtime.

(** The letters, as pairs of the upper-case and the lower-case form. *)
Definition casePairs : list (ascii * ascii) :=
  List.combine (list_ascii_of_string "ABCDEFGHIJKLMNOPQRSTUVWXYZ")
               (list_ascii_of_string "abcdefghijklmnopqrstuvwxyz").

(** Two characters are the same up to the case of a letter. *)
Definition sameLetter (c d : ascii) : bool :=
  (Ascii.eqb c d ||
   List.existsb (fun '(u, l) => (Ascii.eqb c u && Ascii.eqb d l)
                                 || (Ascii.eqb c l && Ascii.eqb d u)) casePairs)%bool.

(** Case-insensitive equality of strings, said without [toLowerCase]. *)
Fixpoint equalsIgnoreCase (s t : string) : bool :=
  match s, t with
  | EmptyString, EmptyString => true
  | String c s', String d t' => (sameLetter c d && equalsIgnoreCase s' t')%bool
  | _, _ => false
  end.

(** Every 8-bit character. *)
Definition allAscii : list ascii := List.map ascii_of_nat (List.seq 0 256).

Fixpoint noUpper (s : string) : bool :=
  match s with
  | EmptyString => true
  | String c s' => (negb (Js.isUpper c) && noUpper s')%bool
  end.

(** The environment variable holding the mandatory credential of a
    provider. *)
Definition mandatoryCredential (p : AIProvider) : string :=
  match p with
  | vertex => "GOOGLE_CLOUD_PROJECT"
  | gemini => "GEMINI_API_KEY"
  end.

(** A variable is absent when it is unset or set to the empty string. *)
Definition absent (env : Env) (k : string) : Prop :=
  env !! k = None \/ env !! k = Some "".

#[global] Instance absent_dec env k : Decision (absent env k).
Proof. unfold absent. apply _. Defined.

(** The line [validateConfig] writes for a provider. *)
Definition credentialMessage (p : AIProvider) : string :=
  match p with
  | vertex => msgNoProject
  | gemini => msgNoApiKey
  end.

(** The attempt an invocation belongs to. *)
Definition attemptOf (e : Event) : option Z :=
  match e with
  | Generate _ a _ | GenerateStream _ a _ => Some a
  | Sleep _ => None
  end.

(** The attempts of a trace, in order. *)
Definition attempts (evs : list Event) : list Z :=
  List.flat_map (fun e => match attemptOf e with Some a => [a] | None => [] end) evs.

(** [a, a+1, ..., a+n-1] *)
Definition range (a : Z) (n : nat) : list Z :=
  List.map (fun i => a + Z.of_nat i) (List.seq 0 n).

(** The entry point and the tools of an invocation. *)
Definition entryOf (e : Event) : option EntryPoint :=
  match e with
  | Generate en _ _ | GenerateStream en _ _ => Some en
  | Sleep _ => None
  end.

Definition toolsOf (e : Event) : option (list Tool) :=
  match e with
  | Generate _ _ r | GenerateStream _ _ r => tools r
  | Sleep _ => None
  end.

(** The sleep before the retry that follows attempt [a] lies in
    [[base * 2^a, base * 2^a + 500)]. *)
Definition backoffWindow (base : Z) (a : Z) (ms : Q) : Prop :=
  (inject_Z (base * 2 ^ a) <= ms /\ ms < inject_Z (base * 2 ^ a) + 500)%Q.


(** The one provider invocation of attempt [a] of [callGenerativeAI]. *)
Definition invocationOf (cfg : AIConfig) (w : GenerativeClient.World)
    (c : list Content) (ts : option (list Tool)) (a : Z) : Event :=
  match provider cfg with
  | vertex =>
      let en := if GenerativeClient.truthyFlag (GenerativeClient.isGroundingRequested ts)
                then Preview else Default in
      if useStreaming cfg
      then GenerateStream en a (GenerativeClient.vertexRequest cfg c ts)
      else Generate en a (GenerativeClient.vertexRequest cfg c ts)
  | gemini =>
      if useStreaming cfg
      then GenerateStream Default a (GenerativeClient.geminiRequest cfg c)
      else Generate Default a (GenerativeClient.geminiRequest cfg c)
  end.

(** The error [callGenerativeAI] raises for the failure [e] of an attempt. *)
Definition finalError (cfg : AIConfig) (e : JsError) : McpError :=
  {| mcpCode := InternalError;
     mcpMessage := GenerativeClient.finalErrorMessage (provider cfg) e |}.


(** What attempts [a, ..., a+n-1] of [callGenerativeAI] cause when each of
    them is retried: its invocation, then its sleep. *)
Definition retried (cfg : AIConfig) (w : GenerativeClient.World)
    (c : list Content) (ts : option (list Tool)) (a : Z) (n : nat) : list Event :=
  List.flat_map
    (fun i => [invocationOf cfg w c ts i; Sleep (GenerativeClient.retryDelay cfg w i)])
    (range a n).

(** Attempt [i] of [callGenerativeAI] fails with a retryable signature. *)
Definition failsRetryably (cfg : AIConfig) (w : GenerativeClient.World)
    (c : list Content) (ts : option (list Tool)) (i : Z) : Prop :=
  exists e, completion (GenerativeClient.executeAttempt cfg w c ts i) = Throw e
            /\ GenerativeClient.isRetryable e = true.


(** The classification of the specification (its ClassifiedError), read
    off the two flags that [callGenerativeAI] computes in its [catch]. *)
Inductive Classified := ContentBlocked | Retryable | Fatal.

Definition classify (e : JsError) : Classified :=
  if GenerativeClient.isBlockingError e then ContentBlocked
  else if GenerativeClient.isRetryable e then Retryable
  else Fatal.

(** C2 as the specification states it: a failure that is not
    content-blocked is retried, after the backoff sleep, whenever attempts
    remain. *)
Definition everyUnblockedFailureRetried : Prop :=
  forall (cfg : AIConfig) (w : GenerativeClient.World) (c : list Content)
         (ts : option (list Tool)) (a : Z) (e : JsError),
    0 <= a < maxRetries cfg ->
    completion (GenerativeClient.executeAttempt cfg w c ts a) = Throw e ->
    GenerativeClient.isBlockingError e = false ->
    GenerativeClient.retryLoop cfg w c ts a =
      (invocationOf cfg w c ts a :: Sleep (GenerativeClient.retryDelay cfg w a)
         :: fst (GenerativeClient.retryLoop cfg w c ts (a + 1)),
       snd (GenerativeClient.retryLoop cfg w c ts (a + 1))).

(** The text a call returns, if it returns. *)
Definition returnedText (r : CallResult) : option string :=
  match r with
  | Returned t => Some t
  | Raised _ => None
  end.

(** The text an attempt yields, if it completes normally. *)
Definition yielded (r : Completion string) : option string :=
  match r with
  | Normal t => Some t
  | Throw _ => None
  end.

(** The configuration with the streaming flag set to [b]. *)
Definition setStreaming (b : bool) (cfg : AIConfig) : AIConfig :=
  {| provider := provider cfg;
     modelId := modelId cfg;
     temperature := temperature cfg;
     useStreaming := b;
     maxOutputTokens := maxOutputTokens cfg;
     maxRetries := maxRetries cfg;
     retryDelayMs := retryDelayMs cfg;
     gcpProjectId := gcpProjectId cfg;
     gcpLocation := gcpLocation cfg;
     geminiApiKey := geminiApiKey cfg |}.

(** A generation with this feedback and finish reason passes the block
    checks of provider [p]. *)
Definition passesChecks (p : AIProvider) (feedback : option PromptFeedback)
    (finish : option string) : bool :=
  let reason := match feedback with Some f => blockReason f | None => None end in
  match p with
  | vertex => negb (GenerativeClient.vertexBlocks reason)
  | gemini => (negb (Js.truthy reason)
               && negb (GenerativeClient.strictEq finish "SAFETY"))%bool
  end.

Definition nonEmpty (s : string) : bool :=
  match s with
  | EmptyString => false
  | String _ _ => true
  end.

(** The values of a block reason that mean that nothing was blocked. *)
Definition noBlockValue (reason : string) : Prop :=
  reason = "BLOCK_REASON_UNSPECIFIED" \/ reason = "OTHER".

(** The model instance a call of [callGenerativeAI] invokes. *)
Definition modelInUse (cfg : AIConfig) (w : GenerativeClient.World)
    (ts : option (list Tool)) : GenerativeModel :=
  match provider cfg with
  | vertex =>
      if GenerativeClient.truthyFlag (GenerativeClient.isGroundingRequested ts)
      then preview_getGenerativeModel (GenerativeClient.vertexClient w) (modelId cfg)
      else getGenerativeModel (GenerativeClient.vertexClient w) (modelId cfg)
  | gemini => genai_getGenerativeModel (GenerativeClient.geminiClient w) (modelId cfg)
  end.

(** The provider call of attempt [a] throws [e]. *)
Definition providerFails (cfg : AIConfig) (w : GenerativeClient.World)
    (ts : option (list Tool)) (a : Z) (e : JsError) : Prop :=
  if useStreaming cfg
  then generateContentStream (modelInUse cfg w ts) a = Throw e
  else generateContent (modelInUse cfg w ts) a = Throw e.

(** C5 as the specification states it, for [callGenerativeAI]: a
    non-streaming response whose block reason is one of the two values is
    not treated as blocked, so if its attempt fails, it fails with an error
    that is not classified as content-blocked. *)
Definition noBlockValuesNeverBlock : Prop :=
  forall (cfg : AIConfig) (w : GenerativeClient.World) (c : list Content)
         (ts : option (list Tool)) (a : Z) (r : GenerateContentResponse)
         (reason : string) (e : JsError),
    useStreaming cfg = false ->
    generateContent (modelInUse cfg w ts) a = Normal {| response := Some r |} ->
    blockReasonOf (Some r) = Some reason ->
    noBlockValue reason ->
    completion (GenerativeClient.executeAttempt cfg w c ts a) = Throw e ->
    GenerativeClient.isBlockingError e = false.

(** The text of a non-streaming Vertex response, when it is a non-empty
    string. *)
Definition extractedText (r : GenerateContentResponse) : option string :=
  match firstPartText (firstCandidate (Some r)) with
  | Some (String ch t) => Some (String ch t)
  | _ => None
  end.

(** The one provider invocation of attempt [a] of
    [callVertexAIWithOptionalFunctionCalling]. *)
Definition vertexInvocationOf (vertexAI : VertexAI) (safety : list SafetySetting)
    (c : list Content) (ts : option (list Tool)) (modelId : string)
    (temperature : Q) (stream : bool) (maxOutputTokens : Z) (a : Z) : Event :=
  let en := if GenerativeClient.truthyFlag (VertexClient.isGrounding ts)
            then Preview else Default in
  let r := VertexClient.req safety c ts temperature maxOutputTokens in
  if stream then GenerateStream en a r else Generate en a r.

(** C8 as the specification states it, for the Vertex-only client: with a
    search declaration in the list, the request keeps search declarations
    only. *)
Definition searchRequestsKeepOnlySearch : Prop :=
  forall (safety : list SafetySetting) (c : list Content) (l : list Tool)
         (temperature : Q) (maxOutputTokens : Z),
    List.existsb VertexClient.hasGoogleSearch l = true ->
    exists kept,
      tools (VertexClient.req safety c (Some l) temperature maxOutputTokens) = Some kept
      /\ List.forallb VertexClient.hasGoogleSearch kept = true.

(** A computation that causes no event. *)
Definition quiet {A} (r : Run A) : Prop := events r = [].

(** A computation that causes exactly the event [ev]. *)
Definition single {A} (ev : Event) (r : Run A) : Prop := events r = [ev].

End Statements.

(* ===================================================================== *)
(** ** Provider stubs and configurations for the examples *)
(* ===================================================================== *)

Module Scenarios.
Import Config ToolDefinition Sdk Runtime.

Definition textCandidate (t : string) (finish : option string) : Candidate :=
  {| content := Some {| role := "model"; parts := Some [ {| text := Some t |} ] |};
     finishReason := finish;
     safetyRatings := None |}.

(** A response whose first candidate carries the text [t]. *)
Definition textResponse (t : string) (feedback : option PromptFeedback)
    (finish : option string) : GenerateContentResponse :=
  {| candidates := Some [textCandidate t finish];
     promptFeedback := feedback;
     textAccessor := Normal t |}.

(** A well-formed response that carries no text. *)
Definition noTextResponse (feedback : option PromptFeedback) : GenerateContentResponse :=
  {| candidates := Some [];
     promptFeedback := feedback;
     textAccessor := Throw (newError "Text not available.") |}.

(** A provider stub scripted by attempt, answering alike in both modes; in
    streaming mode the answer arrives as a single chunk. *)
Definition scripted (script : Z -> Completion GenerateContentResponse) : GenerativeModel :=
  {| generateContent := fun a =>
       match script a with
       | Normal r => Normal {| response := Some r |}
       | Throw e => Throw e
       end;
     generateContentStream := fun a =>
       match script a with
       | Normal r => Normal {| chunks := [r]; streamFailure := None;
                               aggregated := Normal (Some r) |}
       | Throw e => Throw e
       end |}.

(** The aggregated response of a stream: it carries the feedback and the
    finish reason of the generation; its text is [aggregateText], and with
    [None] it holds no text part at all. *)
Definition aggregateOf (aggregateText : option string)
    (feedback : option PromptFeedback) (finish : option string)
  : GenerateContentResponse :=
  match aggregateText with
  | Some t => textResponse t feedback finish
  | None =>
      {| candidates := Some [{| content := None;
                                finishReason := finish;
                                safetyRatings := None |}];
         promptFeedback := feedback;
         textAccessor := Throw (newError "Text not available.") |}
  end.

(** A provider that generates the same content in both modes: the text
    deltas [deltas] as the chunks of a stream, their concatenation as the
    text of the single response; the feedback and the finish reason are
    those of the generation, on the single response and on the aggregated
    one.  What text the aggregated response of the stream holds is left
    open ([aggregateText]). *)
Definition generating (deltas : list string) (feedback : option PromptFeedback)
    (finish : option string) (aggregateText : option string) : GenerativeModel :=
  {| generateContent := fun _ =>
       Normal {| response :=
                   Some (textResponse (String.concat "" deltas) feedback finish) |};
     generateContentStream := fun _ =>
       Normal {| chunks := List.map (fun d => textResponse d None None) deltas;
                 streamFailure := None;
                 aggregated := Normal (Some (aggregateOf aggregateText feedback finish)) |} |}.

Definition vertexOf (m : GenerativeModel) : VertexAI :=
  {| getGenerativeModel := fun _ => m; preview_getGenerativeModel := fun _ => m |}.

(** The same model behind every entry point. *)
Definition worldOf (m : GenerativeModel) (random : Z -> Q) : GenerativeClient.World :=
  {| GenerativeClient.vertexClient := vertexOf m;
     GenerativeClient.geminiClient := {| genai_getGenerativeModel := fun _ => m |};
     GenerativeClient.mathRandom := random |}.

Definition config (p : AIProvider) (stream : bool) (retries delay : Z) : AIConfig :=
  {| provider := p;
     modelId := "gemini-2.5-pro-exp-03-25";
     temperature := 0;
     useStreaming := stream;
     maxOutputTokens := 8192;
     maxRetries := retries;
     retryDelayMs := delay;
     gcpProjectId := Some "my-project";
     gcpLocation := "us-central1";
     geminiApiKey := Some "key" |}.

Definition unavailable : JsError := newError "[503 Service Unavailable] The model is overloaded.".
Definition safetyBlock : JsError := newError "Response was blocked due to SAFETY".

(** Fails once with a 503, then is refused on safety grounds. *)
Definition blockedOnSecond : GenerativeModel :=
  scripted (fun a => if a =? 0 then Throw unavailable else Throw safetyBlock).

(** Always fails with a 503. *)
Definition alwaysUnavailable : GenerativeModel :=
  scripted (fun _ => Throw unavailable).

(** Fails with a 503 on attempts 0 and 1, answers on attempt 2. *)
Definition answersOnThird : GenerativeModel :=
  scripted (fun a => if a <? 2 then Throw unavailable
                     else Normal (textResponse "attempt-2 payload" None (Some "STOP"))).

(** Answers a response without text on attempt 0 and would answer a text
    from attempt 1 on. *)
Definition malformedFirst : GenerativeModel :=
  scripted (fun a => if a =? 0 then Normal (noTextResponse None)
                     else Normal (textResponse "late answer" None (Some "STOP"))).

Definition half : Z -> Q := fun _ => (1 # 2)%Q.


(** A response that carries a text and the block reason [reason]. *)
Definition flagged (t reason : string) : GenerateContentResponse :=
  textResponse t (Some {| blockReason := Some reason |}) (Some "STOP").

(** [{ googleSearchRetrieval: {} }] *)
Definition searchRetrievalTool : Tool :=
  {| functionDeclarations := None;
     googleSearchRetrieval := Some {| disableAttribution := None |};
     googleSearch := None |}.

(** A tool that declares one function. *)
Definition functionTool : Tool :=
  {| functionDeclarations := Some ["lookup"];
     googleSearchRetrieval := None;
     googleSearch := None |}.

End Scenarios.

(* ===================================================================== *)
(** ** Further notions: how a call ends *)
(* ===================================================================== *)

Module Outcomes.
Import Config ToolDefinition Sdk Runtime Statements.

(** How [callGenerativeAI] ends when the attempt that decides it completes
    with [r]. *)
Definition outcomeOf (cfg : AIConfig) (r : Completion string) : CallResult :=
  match r with
  | Normal t => Returned t
  | Throw e => Raised (finalError cfg e)
  end.

(** The texts of the chunks of a Gemini stream whose [text()] accessor
    answers, in order. *)
Definition readableTexts (chunks : list GenerateContentResponse) : list string :=
  List.flat_map
    (fun ch => match textAccessor ch with Normal t => [t] | Throw _ => [] end) chunks.

(** No chunk fails with a message that mentions safety. *)
Definition noSafetyFailure (chunks : list GenerateContentResponse) : Prop :=
  List.Forall
    (fun ch => match textAccessor ch with
               | Normal _ => True
               | Throw e => GenerativeClient.messageIncludes e "safety" = false
               end) chunks.

(** The first character of a string. *)
Definition headChar (s : string) : option ascii :=
  match s with
  | String ch _ => Some ch
  | EmptyString => None
  end.

(** The request of an invocation. *)
Definition requestOf (e : Event) : option GenerateContentRequest :=
  match e with
  | Generate _ _ r | GenerateStream _ _ r => Some r
  | Sleep _ => None
  end.

(** The loop body of the Gemini stream in [callGenerativeAI]. *)
Definition geminiChunkStep (acc : string) (chunk : GenerateContentResponse) : Run string :=
  tryCatch
    (t ← await (textAccessor chunk); mret (acc ++ t))
    (fun e =>
       if GenerativeClient.messageIncludes e "safety" then
         throw (newError ("Gemini Content generation blocked during stream. Reason: "
                            ++ message e))
       else mret acc).

(** The loop body of the Vertex stream. *)
Definition vertexChunkStep (acc : string) (item : GenerateContentResponse) : Run string :=
  match firstPartText (firstCandidate (Some item)) with
  | Some textPart => mret (acc ++ textPart)
  | None => mret acc
  end.

(** A stream whose first three chunks are readable, unreadable and
    readable again. *)
Definition patchyStream : GenerateContentStreamResult :=
  {| chunks := [Scenarios.textResponse "Hel" None None;
                Scenarios.noTextResponse None;
                Scenarios.textResponse "lo" None None];
     streamFailure := None;
     aggregated := Normal (Some (Scenarios.textResponse "Hello" None (Some "STOP"))) |}.

Definition patchyModel : GenerativeModel :=
  {| generateContent := fun _ => Throw Scenarios.unavailable;
     generateContentStream := fun _ => Normal patchyStream |}.

(** A chunk whose [text()] accessor throws a safety error. *)
Definition safetyChunk : GenerateContentResponse :=
  {| candidates := None; promptFeedback := None;
     textAccessor := Throw (newError "Candidate was blocked due to SAFETY") |}.

Definition blockedMidStream : GenerateContentStreamResult :=
  {| chunks := [Scenarios.textResponse "Hel" None None; safetyChunk;
                Scenarios.textResponse "lo" None None];
     streamFailure := None;
     aggregated := Normal (Some (Scenarios.textResponse "Hello" None (Some "STOP"))) |}.

Definition blockedMidStreamModel : GenerativeModel :=
  {| generateContent := fun _ => Throw Scenarios.unavailable;
     generateContentStream := fun _ => Normal blockedMidStream |}.

(** A stream that breaks after two chunks. *)
Definition brokenStream : GenerateContentStreamResult :=
  {| chunks := [Scenarios.textResponse "Hel" None None;
                Scenarios.textResponse "lo" None None];
     streamFailure := Some (newError "socket closed");
     aggregated := Normal (Some (Scenarios.textResponse "Hello" None (Some "STOP"))) |}.

Definition brokenStreamModel : GenerativeModel :=
  {| generateContent := fun _ => Throw Scenarios.unavailable;
     generateContentStream := fun _ => Normal brokenStream |}.

(** How [callVertexAIWithOptionalFunctionCalling] ends when the attempt
    that decides it completes with [r]. *)
Definition vertexOutcomeOf (r : Completion string) : CallResult :=
  match r with
  | Normal t => Returned t
  | Throw e => Raised {| mcpCode := InternalError;
                         mcpMessage := VertexClient.errorMessage e |}
  end.

(** What attempts [a, ..., a+n-1] of the Vertex-only client cause when each
    of them is retried. *)
Definition vertexRetried (vertexAI : VertexAI) (safety : list SafetySetting)
    (c : list Content) (ts : option (list Tool)) (modelId : string)
    (temperature : Q) (stream : bool) (maxOutputTokens retryDelayMs : Z)
    (a : Z) (n : nat) : list Event :=
  List.flat_map
    (fun i => [vertexInvocationOf vertexAI safety c ts modelId temperature stream
                 maxOutputTokens i;
               Sleep (VertexClient.retryDelay retryDelayMs i)])
    (range a n).


End Outcomes.

(* ===================================================================== *)
(** ** Statements about the configuration resolver *)
(* ===================================================================== *)

Module Resolved.
Import Config Sdk Statements ConfigResolver.

(** What the resolver makes of one variable: it is absent, or it holds a
    value that is accepted, or one that is rejected. *)
Inductive Reading (A : Type) :=
| Unset
| Accepted (a : A)
| Rejected (shown : string).
Arguments Unset {A}.
Arguments Accepted {A} a.
Arguments Rejected {A} shown.

Definition valueOfReading {A} (default : A) (r : Reading A) : A :=
  match r with
  | Accepted a => a
  | _ => default
  end.

(** The warning for a rejected value, and no line otherwise. *)
Definition warningOfReading {A} (name shown : string) (r : Reading A) : list string :=
  match r with
  | Rejected v => [invalidValue name v shown]
  | _ => []
  end.

(** An integer variable: accepted when [parseInt] answers an integer that
    satisfies [valid]. *)
Definition readInt (valid : Z -> Prop) `{!forall n, Decision (valid n)}
    (b : Builtins) (env : Env) (k : string) : Reading Z :=
  match env !! k with
  | None | Some EmptyString => Unset
  | Some v =>
      match parseInt b v with
      | Some n => if decide (valid n) then Accepted n else Rejected v
      | None => Rejected v
      end
  end.

(** The temperature: accepted when [parseFloat] answers a finite number
    between 0 and 2. *)
Definition readTemperature (b : Builtins) (env : Env) : Reading Q :=
  match env !! "AI_TEMPERATURE" with
  | None | Some EmptyString => Unset
  | Some v =>
      match parseFloat b v with
      | Finite q =>
          match Qlt_le_dec q 0, Qlt_le_dec 2 q with
          | right _, right _ => Accepted q
          | _, _ => Rejected v
          end
      | _ => Rejected v
      end
  end.

(** The streaming flag: "true" and "false" are accepted in any case of
    their letters; the warning shows the value in lower case. *)
Definition readStreaming (env : Env) : Reading bool :=
  match env !! "AI_USE_STREAMING" with
  | None | Some EmptyString => Unset
  | Some v =>
      if equalsIgnoreCase v "false" then Accepted false
      else if equalsIgnoreCase v "true" then Accepted true
      else Rejected (Js.toLowerCase v)
  end.

Definition positive (n : Z) : Prop := 0 < n.
Definition nonNegative (n : Z) : Prop := 0 <= n.

#[global] Instance positive_dec n : Decision (positive n).
Proof. unfold positive. apply _. Defined.
#[global] Instance nonNegative_dec n : Decision (nonNegative n).
Proof. unfold nonNegative. apply _. Defined.

(** The lines the resolver is to write, in the order of the source. *)
Definition warnings (b : Builtins) (env : Env) : list string :=
  (warningOfReading "AI_TEMPERATURE" "0" (readTemperature b env)
   ++ warningOfReading "AI_USE_STREAMING" "true" (readStreaming env)
   ++ warningOfReading "AI_MAX_OUTPUT_TOKENS" "8192"
        (readInt positive b env "AI_MAX_OUTPUT_TOKENS")
   ++ warningOfReading "AI_MAX_RETRIES" "3"
        (readInt nonNegative b env "AI_MAX_RETRIES")
   ++ warningOfReading "AI_RETRY_DELAY_MS" "1000"
        (readInt nonNegative b env "AI_RETRY_DELAY_MS"))%list.

(** The configuration the resolver returns. *)
Definition resolved (b : Builtins) (env : Env) : option AIConfig :=
  match getAIConfig b env [] with
  | (_, Returns cfg) => Some cfg
  | (_, Exits _) => None
  end.

(** The variable that selects the model of a provider. *)
Definition modelVariable (p : AIProvider) : string :=
  match p with
  | vertex => "VERTEX_MODEL_ID"
  | gemini => "GEMINI_MODEL_ID"
  end.

(** The tunables of the resolver. *)
Definition tunables : list string :=
  ["AI_TEMPERATURE"; "AI_USE_STREAMING"; "AI_MAX_OUTPUT_TOKENS";
   "AI_MAX_RETRIES"; "AI_RETRY_DELAY_MS"].

(** Parsers that answer nothing useful, and ones that read a few values. *)
Definition deaf : Builtins :=
  {| parseFloat := fun _ => NaN; parseInt := fun _ => None |}.

Definition reading : Builtins :=
  {| parseFloat := fun s =>
       if String.eqb s "0.7" then Finite (7 # 10)
       else if String.eqb s "3.5" then Finite (7 # 2)
       else NaN;
     parseInt := fun s =>
       if String.eqb s "5" then Some 5
       else if String.eqb s "-2" then Some (-2)
       else if String.eqb s "0" then Some 0
       else None |}.

(** The line written when the initialisation of a client fails. *)
Definition initFailure (p : AIProvider) (reason : string) : string :=
  "Error initializing " ++ providerName p ++ " AI client: " ++ reason.

Definition missingCredential (p : AIProvider) : string :=
  match p with
  | vertex => "Missing GOOGLE_CLOUD_PROJECT or GOOGLE_CLOUD_LOCATION for Vertex AI provider."
  | gemini => "Missing GEMINI_API_KEY for Gemini provider."
  end.

End Resolved.

(* ===================================================================== *)
(** ** Statements about the file editing utilities *)
(* ===================================================================== *)

Module EditStatements.
Import Sdk JsText FileEdits.

Definition CRLF : string := String CR (String LF EmptyString).
Definition CRCRLF : string := String CR CRLF.
Definition newline : string := String LF EmptyString.

(** The contents written to a path, in order. *)
Definition writes (path : string) (evs : list Access) : list string :=
  List.flat_map
    (fun ev => match ev with
               | Write p content => if String.eqb p path then [content] else []
               | Read _ => []
               end) evs.

(** Every write of a trace, whatever the path. *)
Definition allWrites (evs : list Access) : list (string * string) :=
  List.flat_map
    (fun ev => match ev with
               | Write p content => [(p, content)]
               | Read _ => []
               end) evs.

(** The window of [contentLines] at [i] that the loop compares with
    [oldLines]. *)
Definition windowAt (oldLines contentLines : list string) (i : nat) : list string :=
  slice i (List.length oldLines) contentLines.

(** No window of the content matches the old lines. *)
Definition noWindowMatches (oldLines contentLines : list string) : Prop :=
  forall i, (i + List.length oldLines <= List.length contentLines)%nat ->
            isMatch oldLines (windowAt oldLines contentLines i) = false.

(** A platform with one file, whose diff shows both texts between markers. *)
Definition oneFile (path content : string) : Platform :=
  {| readFile := fun p =>
       if String.eqb p path then Normal content
       else Throw (newError ("ENOENT: no such file or directory, open '" ++ p ++ "'"));
     writeFile := fun _ _ => Normal tt;
     relative := fun _ p => p;
     cwd := "/workspace";
     createTwoFilesPatch := fun _ _ a b _ _ => "--- " ++ a ++ newline ++ "+++ " ++ b |}.

Definition edit (old new : string) : EditOperation :=
  {| oldText := old; newText := new |}.

End EditStatements.

(* ===================================================================== *)
(** ** Statements about the single-SDK client and the request handler *)
(* ===================================================================== *)

Module GenAIStatements.
Import Config ToolDefinition Sdk Statements ConfigResolver GenAIClient.

(** The options the constructor is to be given, read off the
    environment: the API key when there is one, otherwise the project with
    its location, otherwise nothing. *)
Definition chosenOptions (env : Env) : option GoogleGenAIOptions :=
  match env !! "GEMINI_API_KEY" with
  | Some (String c k) => Some (ApiKey (String c k))
  | _ =>
      match env !! "GOOGLE_CLOUD_PROJECT" with
      | Some (String c p) =>
          Some (VertexAIOptions (String c p)
                  (Js.orElse (env !! "GOOGLE_CLOUD_LOCATION") "us-central1"))
      | _ => None
      end
  end.

Definition initFailed (reason : string) : string :=
  "Error initializing GoogleGenAI: " ++ reason.

Definition noCredentials : string :=
  "Missing Gemini API key or Vertex AI project/location configuration.".

(** The invocation attempt [i] makes. *)
Definition genaiInvocationOf (cfg : AIConfig) (c : list Content)
    (ts : option (list Tool)) (i : Z) : Event :=
  if useStreaming cfg then GenerateStream i (parameters cfg c ts)
  else Generate i (parameters cfg c ts).

(** What attempts [a, ..., a+n-1] cause when each of them is retried. *)
Definition genaiRetried (cfg : AIConfig) (rnd : Z -> Q) (c : list Content)
    (ts : option (list Tool)) (a : Z) (n : nat) : list Event :=
  List.flat_map
    (fun i => [genaiInvocationOf cfg c ts i; Sleep (retryDelay cfg rnd i)])
    (range a n).

(** Attempt [i] fails with a retryable signature. *)
Definition genaiFailsRetryably (client : GoogleGenAI) (cfg : AIConfig)
    (c : list Content) (ts : option (list Tool)) (i : Z) : Prop :=
  exists e,
    completion (executeAttempt client cfg c ts i) = Throw e
    /\ GenerativeClient.isRetryable e = true.

(** The outcome of the call when an attempt decides it. *)
Definition genaiOutcomeOf (cfg : AIConfig) (r : Completion string) : CallOutcome :=
  match r with
  | Normal t => Returned t
  | Throw e =>
      Raised {| mcpCode := InternalError;
                mcpMessage := GenerativeClient.finalErrorMessage (provider cfg) e |}
  end.

(** The text a chunk adds when its getter answers. *)
Definition chunkText (chunk : Response) : option string :=
  match text chunk with
  | Normal (Some (String c t)) => Some (String c t)
  | _ => None
  end.

(** A chunk whose getter does not throw. *)
Definition readable (chunk : Response) : Prop :=
  exists t, text chunk = Normal t.

(** The texts of the chunks, appended in order. *)
Fixpoint chunkTexts (chunks : list Response) : string :=
  match chunks with
  | [] => EmptyString
  | chunk :: rest =>
      match chunkText chunk with
      | Some t => t ++ chunkTexts rest
      | None => chunkTexts rest
      end
  end.

(** The last chunk of a stream, or [l] when the stream has no chunk. *)
Fixpoint lastChunkOf (chunks : list Response) (l : option Response) : option Response :=
  match chunks with
  | [] => l
  | chunk :: rest => lastChunkOf rest (Some chunk)
  end.

(** What the checks after the loop make of the last chunk and the
    accumulated text. *)
Definition afterStream (lastChunk : option Response) (accumulatedText : string)
  : Completion (option string) :=
  match blockReasonOf lastChunk with
  | Some (String c r) =>
      Throw (newError ("Content generation blocked. Aggregated Reason: " ++ String c r))
  | _ =>
      if decide (finishReasonOf lastChunk = Some "SAFETY") then
        Throw (newError "Content generation blocked. Aggregated Finish Reason: SAFETY")
      else
        match accumulatedText with
        | EmptyString =>
            Throw (newError "Received empty or non-text response from AI stream.")
        | _ => Normal (Some accumulatedText)
        end
  end.

(** Sample chunks and clients. *)
Definition textChunk (t : string) : Response :=
  {| text := Normal (Some t); promptFeedback := None; candidates := None |}.

Definition flaggedChunk (t reason : string) : Response :=
  {| text := Normal (Some t);
     promptFeedback := Some {| blockReason := Some reason |};
     candidates := None |}.

Definition streamingClient (cs : list Response) : GoogleGenAI :=
  {| generateContent := fun _ => Throw (newError "not used");
     generateContentStream := fun _ => Normal {| chunks := cs; streamFailure := None |} |}.

(** A client that fails twice with a transient fault and then answers. *)
Definition answersOnThirdCall : GoogleGenAI :=
  {| generateContent := fun i =>
       if i <? 2 then Throw (newError "503 Service Unavailable")
       else Normal (Some (textChunk "third time lucky"));
     generateContentStream := fun i =>
       if i <? 2 then Throw (newError "503 Service Unavailable")
       else Normal {| chunks := [textChunk "third time "; textChunk "lucky"];
                      streamFailure := None |} |}.

Definition sampleConfig (stream : bool) (retries : Z) : AIConfig :=
  {| provider := gemini; modelId := "gemini-2.5-pro-exp-03-25"; temperature := 0;
     useStreaming := stream; maxOutputTokens := 8192; maxRetries := retries;
     retryDelayMs := 1000; gcpProjectId := None; gcpLocation := "us-central1";
     geminiApiKey := Some "key" |}.

Definition initialized (client : GoogleGenAI) (cfg : AIConfig) : Module :=
  {| ai := Some client; aiConfig := Some cfg |}.

End GenAIStatements.

Module ServerStatements.
Import Config ToolDefinition Sdk Runtime Statements Server.

(** The single content the handler sends: the system instruction, an empty
    line, the user query, in the role of the user. *)
Definition promptContent (prompt : Prompt) : list Sdk.Content :=
  [{| role := "user";
      parts := Some [{| text := Some (systemInstructionText prompt
                                       ++ String JsText.LF (String JsText.LF EmptyString)
                                       ++ userQueryText prompt) |}] |}].

(** The contents an invocation carries. *)
Definition contentsOf (ev : Event) : option (list Sdk.Content) :=
  match ev with
  | Generate _ _ r | GenerateStream _ _ r => Some (contents r)
  | Sleep _ => None
  end.

(** A tool that builds a fixed prompt, and one whose arguments are
    refused. *)
Definition promptTool (n : string) (search : bool) : ToolDefinition string :=
  {| name := n;
     buildPrompt := fun args modelId =>
       inr {| systemInstructionText := "You are " ++ modelId;
              userQueryText := args;
              useWebSearch := search;
              enableFunctionCalling := false |} |}.

Definition refusingTool (n : string) : ToolDefinition string :=
  {| name := n;
     buildPrompt := fun _ _ =>
       inl (ThrownMcp {| code := InvalidParams;
                         message := "Invalid arguments for " ++ n |}) |}.

Definition sampleTools : gmap string (ToolDefinition string) :=
  <["answer_query_websearch" := promptTool "answer_query_websearch" true]>
    (<["read_file_content" := refusingTool "read_file_content"]> ∅).

Definition sampleVertexConfig : VertexAIConfig :=
  {| cfg_modelId := "gemini-2.5-pro-exp-03-25"; cfg_temperature := 0;
     cfg_useStreaming := true; cfg_maxOutputTokens := 8192;
     cfg_maxRetries := 3; cfg_retryDelayMs := 1000 |}.

End ServerStatements.

(* ===================================================================== *)
(** ** Properties of the configuration resolver *)
(* ===================================================================== *)

Import Config ToolDefinition Sdk Runtime Statements.

Section ConfigProperties.

Lemma allAscii_complete (c : ascii) : In c allAscii.
Proof.
  unfold allAscii. rewrite <- (ascii_nat_embedding c).
  apply in_map, in_seq. pose proof (nat_ascii_bounded c). lia.
Qed.

Lemma lowerChar_sameLetter_table :
  List.forallb
    (fun c => List.forallb
       (fun d => implb (negb (Js.isUpper d))
                   (Bool.eqb (Ascii.eqb (Js.lowerChar c) d) (sameLetter c d)))
       allAscii)
    allAscii = true.
Proof. vm_compute. reflexivity. Qed.

Lemma lowerChar_sameLetter (c d : ascii) :
  Js.isUpper d = false -> Ascii.eqb (Js.lowerChar c) d = sameLetter c d.
Proof.
  intros Hd.
  pose proof lowerChar_sameLetter_table as T.
  rewrite forallb_forall in T. specialize (T c (allAscii_complete c)).
  rewrite forallb_forall in T. specialize (T d (allAscii_complete d)).
  rewrite Hd in T. simpl in T. apply eqb_prop in T. exact T.
Qed.

Lemma toLowerCase_equalsIgnoreCase (s t : string) :
  noUpper t = true -> String.eqb (Js.toLowerCase s) t = equalsIgnoreCase s t.
Proof.
  revert t. induction s as [|c s IH]; intros [|d t] Hn; simpl; try reflexivity.
  simpl in Hn. apply andb_prop in Hn as [Hd Ht].
  apply negb_true_iff in Hd.
  rewrite (lowerChar_sameLetter c d Hd), (IH t Ht). reflexivity.
Qed.

(** C10.  [getAIProvider] answers [gemini] exactly when [AI_PROVIDER] is
    set to a value that equals "gemini" up to the case of its letters; on
    every other environment (the variable unset, or holding anything else,
    a misspelling included) it answers [vertex].  The function is pure: it
    writes nothing and cannot fail. *)
Theorem getAIProvider_gemini_iff (env : Env) :
  (getAIProvider env = gemini <->
   exists v, env !! "AI_PROVIDER" = Some v /\ equalsIgnoreCase v "gemini" = true)
  /\ (getAIProvider env = vertex <->
      ~ exists v, env !! "AI_PROVIDER" = Some v /\ equalsIgnoreCase v "gemini" = true).
Proof.
  unfold getAIProvider.
  destruct (env !! "AI_PROVIDER") as [v|] eqn:E.
  - rewrite (toLowerCase_equalsIgnoreCase v "gemini" eq_refl).
    destruct (equalsIgnoreCase v "gemini") eqn:Hv; (split; split).
    + intros _. exists v. auto.
    + reflexivity.
    + discriminate.
    + intros H. exfalso. apply H. exists v. auto.
    + discriminate.
    + intros (u & Hu & Hg). congruence.
    + intros _ (u & Hu & Hg). congruence.
    + reflexivity.
  - split; split; try discriminate; try reflexivity.
    + intros (u & Hu & _). discriminate.
    + intros _ (u & Hu & _). discriminate.
Qed.

Example getAIProvider_mixed_case :
  getAIProvider (<["AI_PROVIDER" := "GeMiNi"]> ∅) = gemini.
Proof. reflexivity. Qed.

Example getAIProvider_misspelt :
  getAIProvider (<["AI_PROVIDER" := "gemni"]> ∅) = vertex.
Proof. reflexivity. Qed.

Example getAIProvider_unset : getAIProvider ∅ = vertex.
Proof. reflexivity. Qed.

Lemma truthy_of_absent (env : Env) (k : string) :
  absent env k -> Js.truthy (env !! k) = false.
Proof. intros [H|H]; rewrite H; reflexivity. Qed.

Lemma truthy_of_present (env : Env) (k : string) :
  ~ absent env k -> Js.truthy (env !! k) = true.
Proof.
  unfold absent. intros H.
  destruct (env !! k) as [[|c s]|]; simpl; try reflexivity; exfalso; apply H; auto.
Qed.

(** C7.  [validateConfig] ends the process with exit code 1, after writing
    one line that names the missing variable, exactly when the mandatory
    credential of the selected provider is absent ([GOOGLE_CLOUD_PROJECT]
    for vertex, [GEMINI_API_KEY] for gemini; absent means unset or empty);
    otherwise it returns and writes nothing.  There is no third outcome. *)
Theorem validateConfig_exits_iff_credential_absent (env : Env) (err : list string) :
  let p := getAIProvider env in
  validateConfig env err =
    (if decide (absent env (mandatoryCredential p))
     then ((err ++ [credentialMessage p])%list, Exits 1)
     else (err, Returns tt))
  /\ Js.includes (credentialMessage p) (mandatoryCredential p) = true.
Proof.
  intros p. split.
  - unfold validateConfig. fold p.
    destruct p; simpl mandatoryCredential; simpl credentialMessage.
    + destruct (decide (absent env "GOOGLE_CLOUD_PROJECT")) as [Ha|Ha].
      * cbn. rewrite (truthy_of_absent _ _ Ha). reflexivity.
      * cbn. rewrite (truthy_of_present _ _ Ha). reflexivity.
    + destruct (decide (absent env "GEMINI_API_KEY")) as [Ha|Ha].
      * cbn. rewrite (truthy_of_absent _ _ Ha). reflexivity.
      * cbn. rewrite (truthy_of_present _ _ Ha). reflexivity.
  - destruct p; reflexivity.
Qed.

Example validateConfig_vertex_without_project :
  validateConfig ∅ [] = ([msgNoProject], Exits 1).
Proof. reflexivity. Qed.

Example validateConfig_gemini_without_key :
  validateConfig (<["AI_PROVIDER" := "gemini"]> (<["GOOGLE_CLOUD_PROJECT" := "p"]> ∅)) []
  = ([msgNoApiKey], Exits 1).
Proof. reflexivity. Qed.

Example validateConfig_vertex_with_project :
  validateConfig (<["GOOGLE_CLOUD_PROJECT" := "my-project"]> ∅) [] = ([], Returns tt).
Proof. reflexivity. Qed.

Example validateConfig_gemini_with_key :
  validateConfig (<["AI_PROVIDER" := "Gemini"]> (<["GEMINI_API_KEY" := "k"]> ∅)) []
  = ([], Returns tt).
Proof. reflexivity. Qed.

End ConfigProperties.

(* ===================================================================== *)
(** ** Events of a computation *)
(* ===================================================================== *)

Section RunLaws.

Lemma quiet_ret {A} (a : A) : quiet (mret a).
Proof. reflexivity. Qed.

Lemma quiet_throw {A} (e : JsError) : quiet (@throw A e).
Proof. reflexivity. Qed.

Lemma quiet_await {A} (x : Completion A) : quiet (await x).
Proof. reflexivity. Qed.

Lemma quiet_bind {A B} (m : Run A) (k : A -> Run B) :
  quiet m -> (forall a, quiet (k a)) -> quiet (m ≫= k).
Proof.
  unfold quiet, mbind, Run_bind. intros Hm Hk.
  destruct (completion m); simpl; rewrite Hm; [apply Hk | reflexivity].
Qed.

Lemma quiet_tryCatch {A} (m : Run A) (h : JsError -> Run A) :
  quiet m -> (forall e, quiet (h e)) -> quiet (tryCatch m h).
Proof.
  unfold quiet, tryCatch. intros Hm Hh.
  destruct (completion m); simpl; [exact Hm | rewrite Hm; apply Hh].
Qed.

Lemma quiet_forAwait {S} (body : S -> GenerateContentResponse -> Run S)
    (xs : list GenerateContentResponse) (failure : option JsError) (acc : S) :
  (forall s x, quiet (body s x)) -> quiet (forAwait body xs failure acc).
Proof.
  intros Hb. revert acc. induction xs as [|x xs IH]; intros acc; simpl.
  - destruct failure; reflexivity.
  - apply quiet_bind; [apply Hb | intros; apply IH].
Qed.

Lemma single_bind {A B} (ev : Event) (m : Run A) (k : A -> Run B) :
  single ev m -> (forall a, quiet (k a)) -> single ev (m ≫= k).
Proof.
  unfold single, quiet, mbind, Run_bind. intros Hm Hk.
  destruct (completion m); simpl; rewrite Hm; [rewrite Hk|]; reflexivity.
Qed.

Lemma single_tryCatch {A} (ev : Event) (m : Run A) (h : JsError -> Run A) :
  single ev m -> (forall e, quiet (h e)) -> single ev (tryCatch m h).
Proof.
  unfold single, quiet, tryCatch. intros Hm Hh.
  destruct (completion m); simpl; [exact Hm | rewrite Hm, Hh; reflexivity].
Qed.

Lemma single_generate (m : ModelInstance) (a : Z) (r : GenerateContentRequest) :
  single (Generate (entry m) a r) (callGenerateContent m a r).
Proof. reflexivity. Qed.

Lemma single_generateStream (m : ModelInstance) (a : Z) (r : GenerateContentRequest) :
  single (GenerateStream (entry m) a r) (callGenerateContentStream m a r).
Proof. reflexivity. Qed.

End RunLaws.

(** Splits the conditionals and matches of a goal about events and closes
    the leaves with the laws above. *)
Ltac run_events :=
  repeat first
    [ progress intros
    | match goal with
      | |- quiet (match ?x with _ => _ end) => destruct x
      | |- single _ (match ?x with _ => _ end) => destruct x
      | |- quiet (let '(_, _) := ?x in _) => destruct x
      end
    | apply quiet_ret | apply quiet_throw | apply quiet_await
    | apply quiet_forAwait | apply quiet_tryCatch | apply quiet_bind
    | apply single_generate | apply single_generateStream
    | apply single_tryCatch | apply single_bind ].

(* ===================================================================== *)
(** ** The retry engine of [callGenerativeAI] *)
(* ===================================================================== *)

Section RetryEngine.
Import GenerativeClient.

Variable cfg : AIConfig.
Variable w : World.
Variable c : list Content.
Variable ts : option (list Tool).

(** Each attempt invokes the provider exactly once, whatever the mode, and
    causes no other event. *)
Lemma executeAttempt_events (a : Z) :
  events (executeAttempt cfg w c ts a) = [invocationOf cfg w c ts a].
Proof.
  change (single (invocationOf cfg w c ts a) (executeAttempt cfg w c ts a)).
  unfold executeAttempt, invocationOf, streaming, nonStreaming,
    vertexStream, geminiStream, vertexSingle, geminiSingle,
    vertexModelInstance, geminiModelInstance.
  destruct (provider cfg), (useStreaming cfg),
    (truthyFlag (isGroundingRequested ts)); run_events.
Qed.

Lemma retryLoop_step (a : Z) :
  retryLoop cfg w c ts a =
  if a <=? maxRetries cfg then
    match completion (executeAttempt cfg w c ts a) with
    | Normal t => ([invocationOf cfg w c ts a], Returned t)
    | Throw e =>
        if (isRetryable e && (a <? maxRetries cfg))%bool then
          (invocationOf cfg w c ts a :: Sleep (retryDelay cfg w a)
             :: fst (retryLoop cfg w c ts (a + 1)),
           snd (retryLoop cfg w c ts (a + 1)))
        else ([invocationOf cfg w c ts a], Raised (finalError cfg e))
    end
  else ([], Raised (maxRetriesReached cfg)).
Proof.
  rewrite retryLoop_unfold_eq. unfold retryLoop_unfold.
  destruct (Z_le_gt_dec a (maxRetries cfg)) as [Hle|Hgt];
    destruct (Z.leb_spec a (maxRetries cfg)); try lia; simpl; [|reflexivity].
  pose proof (executeAttempt_events a) as Hev.
  destruct (executeAttempt cfg w c ts a) as [evs [t|e]]; simpl in *; subst evs.
  - reflexivity.
  - destruct (isRetryable e && (a <? maxRetries cfg))%bool; simpl; reflexivity.
Qed.

(** The three ways an attempt within the bound can end. *)
Lemma retryLoop_returns (a : Z) (t : string) :
  a <= maxRetries cfg ->
  completion (executeAttempt cfg w c ts a) = Normal t ->
  retryLoop cfg w c ts a = ([invocationOf cfg w c ts a], Returned t).
Proof.
  intros Ha He. rewrite retryLoop_step, He.
  destruct (Z.leb_spec a (maxRetries cfg)); [reflexivity | lia].
Qed.

Lemma retryLoop_retries (a : Z) (e : JsError) :
  a < maxRetries cfg ->
  completion (executeAttempt cfg w c ts a) = Throw e ->
  isRetryable e = true ->
  retryLoop cfg w c ts a =
  (invocationOf cfg w c ts a :: Sleep (retryDelay cfg w a)
     :: fst (retryLoop cfg w c ts (a + 1)),
   snd (retryLoop cfg w c ts (a + 1))).
Proof.
  intros Ha He Hr. rewrite retryLoop_step, He, Hr.
  destruct (Z.leb_spec a (maxRetries cfg)); [|lia].
  destruct (Z.ltb_spec a (maxRetries cfg)); [reflexivity | lia].
Qed.

Lemma retryLoop_raises (a : Z) (e : JsError) :
  a <= maxRetries cfg ->
  completion (executeAttempt cfg w c ts a) = Throw e ->
  (isRetryable e && (a <? maxRetries cfg))%bool = false ->
  retryLoop cfg w c ts a = ([invocationOf cfg w c ts a], Raised (finalError cfg e)).
Proof.
  intros Ha He Hr. rewrite retryLoop_step, He, Hr.
  destruct (Z.leb_spec a (maxRetries cfg)); [reflexivity | lia].
Qed.

Lemma retryLoop_exhausted (a : Z) :
  maxRetries cfg < a ->
  retryLoop cfg w c ts a = ([], Raised (maxRetriesReached cfg)).
Proof.
  intros Ha. rewrite retryLoop_step.
  destruct (Z.leb_spec a (maxRetries cfg)); [lia | reflexivity].
Qed.

(** A blocking error is never retryable. *)
Lemma blocking_not_retryable (e : JsError) :
  isBlockingError e = true -> isRetryable e = false.
Proof. intros H. unfold isRetryable. rewrite H. reflexivity. Qed.

(** Whatever the regular expressions find, the report of a blocking error
    begins the same way. *)
Lemma finalErrorMessage_blocked (p : AIProvider) (e : JsError) :
  isBlockingError e = true ->
  Js.startsWith (finalErrorMessage p e) "Content generation blocked by " = true.
Proof.
  intros H. unfold finalErrorMessage. rewrite H.
  destruct (Re.matchReason (message e)) as [[|ch r]|];
    try destruct (Re.test _ _); vm_compute; reflexivity.
Qed.

Lemma range_succ (a : Z) (n : nat) : range a (S n) = a :: range (a + 1) n.
Proof.
  unfold range. simpl. f_equal; [lia|].
  rewrite <- seq_shift, List.map_map. apply List.map_ext. intros i. lia.
Qed.

Lemma range_snoc (a : Z) (n : nat) : range a (S n) = (range a n ++ [a + Z.of_nat n])%list.
Proof.
  unfold range. rewrite seq_S, List.map_app. reflexivity.
Qed.

Lemma range_length (a : Z) (n : nat) : List.length (range a n) = n.
Proof. unfold range. rewrite List.length_map, List.length_seq. reflexivity. Qed.

(** While the attempts fail with a retryable signature and attempts remain,
    the loop goes on: after [n] such attempts it stands at attempt [a + n]. *)
Lemma retryLoop_retried (n : nat) : forall a : Z,
  a + Z.of_nat n <= maxRetries cfg ->
  (forall i, a <= i < a + Z.of_nat n -> failsRetryably cfg w c ts i) ->
  retryLoop cfg w c ts a =
  ((retried cfg w c ts a n ++ fst (retryLoop cfg w c ts (a + Z.of_nat n)))%list,
   snd (retryLoop cfg w c ts (a + Z.of_nat n))).
Proof.
  induction n as [|n IH]; intros a Hle Hfail.
  - replace (a + Z.of_nat 0) with a by lia.
    destruct (retryLoop cfg w c ts a); reflexivity.
  - destruct (Hfail a ltac:(lia)) as (e & He & Hr).
    rewrite (retryLoop_retries a e ltac:(lia) He Hr).
    rewrite (IH (a + 1)) by (try lia; intros i Hi; apply Hfail; lia).
    replace (a + 1 + Z.of_nat n) with (a + Z.of_nat (S n)) by lia.
    unfold retried. rewrite range_succ. reflexivity.
Qed.

Lemma sleeps_app (l1 l2 : list Event) : sleeps (l1 ++ l2) = (sleeps l1 ++ sleeps l2)%list.
Proof. unfold sleeps. apply List.flat_map_app. Qed.

Lemma attempts_app (l1 l2 : list Event) :
  attempts (l1 ++ l2) = (attempts l1 ++ attempts l2)%list.
Proof. unfold attempts. apply List.flat_map_app. Qed.

Lemma attemptOf_invocationOf (a : Z) : attemptOf (invocationOf cfg w c ts a) = Some a.
Proof.
  unfold invocationOf.
  destruct (provider cfg), (useStreaming cfg); reflexivity.
Qed.

Lemma sleeps_invocationOf (a : Z) : sleeps [invocationOf cfg w c ts a] = [].
Proof.
  unfold invocationOf.
  destruct (provider cfg), (useStreaming cfg); reflexivity.
Qed.

Lemma attempts_invocationOf (a : Z) : attempts [invocationOf cfg w c ts a] = [a].
Proof.
  unfold attempts. simpl. rewrite attemptOf_invocationOf. reflexivity.
Qed.

Lemma sleeps_retried (a : Z) (n : nat) :
  sleeps (retried cfg w c ts a n) = List.map (retryDelay cfg w) (range a n).
Proof.
  unfold retried. revert a. induction n as [|n IH]; intros a; [reflexivity|].
  rewrite range_succ. simpl flat_map. simpl List.map.
  change (?x :: ?y :: ?l)%list with ([x] ++ [y] ++ l)%list.
  rewrite !sleeps_app, sleeps_invocationOf, IH. reflexivity.
Qed.

Lemma attempts_retried (a : Z) (n : nat) :
  attempts (retried cfg w c ts a n) = range a n.
Proof.
  unfold retried. revert a. induction n as [|n IH]; intros a; [reflexivity|].
  rewrite range_succ. simpl flat_map.
  change (?x :: ?y :: ?l)%list with ([x] ++ [y] ++ l)%list.
  rewrite !attempts_app, attempts_invocationOf, IH. reflexivity.
Qed.

End RetryEngine.

(* ===================================================================== *)
(** ** Claims on the retry engine *)
(* ===================================================================== *)

Section RetryClaims.
Import GenerativeClient Scenarios.

(** C1.  When an attempt of [callGenerativeAI] fails with an error
    classified as content-blocked, the call ends there: it raises the
    blocked-content error built from that failure, and nothing follows the
    attempt, neither a sleep nor another invocation, however many attempts
    remain.  The only sleeps of the call are those of the retried attempts
    before it; a block on attempt 0 gives no sleep at all and one attempt. *)
Theorem content_blocked_never_retried
    (cfg : AIConfig) (w : World) (c : list Content) (ts : option (list Tool))
    (a : Z) (e : JsError) :
  0 <= a <= maxRetries cfg ->
  (forall i, 0 <= i < a -> failsRetryably cfg w c ts i) ->
  completion (executeAttempt cfg w c ts a) = Throw e ->
  isBlockingError e = true ->
  callGenerativeAI cfg w c ts =
    ((retried cfg w c ts 0 (Z.to_nat a) ++ [invocationOf cfg w c ts a])%list,
     Raised (finalError cfg e))
  /\ List.length (sleeps (fst (callGenerativeAI cfg w c ts))) = Z.to_nat a
  /\ attempts (fst (callGenerativeAI cfg w c ts)) = range 0 (S (Z.to_nat a))
  /\ Js.startsWith (mcpMessage (finalError cfg e)) "Content generation blocked by " = true.
Proof.
  intros Ha Hbefore He Hb.
  assert (Hcall : callGenerativeAI cfg w c ts =
            ((retried cfg w c ts 0 (Z.to_nat a) ++ [invocationOf cfg w c ts a])%list,
             Raised (finalError cfg e))).
  { unfold callGenerativeAI.
    rewrite (retryLoop_retried cfg w c ts (Z.to_nat a) 0)
      by (try lia; intros i Hi; apply Hbefore; lia).
    replace (0 + Z.of_nat (Z.to_nat a)) with a by lia.
    rewrite (retryLoop_raises cfg w c ts a e);
      [reflexivity | lia | exact He |].
    rewrite (blocking_not_retryable e Hb). reflexivity. }
  rewrite Hcall. simpl fst. split; [reflexivity|]. split; [|split].
  - rewrite sleeps_app, sleeps_retried, sleeps_invocationOf, List.app_nil_r,
      List.length_map, range_length. reflexivity.
  - rewrite attempts_app, attempts_retried, attempts_invocationOf, range_snoc.
    f_equal. f_equal. lia.
  - apply finalErrorMessage_blocked. exact Hb.
Qed.

Lemma content_blocked_never_retried_witness :
  callGenerativeAI (config vertex false 3 1000) (worldOf blockedOnSecond half) [] None =
    ((retried (config vertex false 3 1000) (worldOf blockedOnSecond half) [] None 0 1
        ++ [invocationOf (config vertex false 3 1000) (worldOf blockedOnSecond half) [] None 1])%list,
     Raised (finalError (config vertex false 3 1000) safetyBlock)).
Proof.
  apply (content_blocked_never_retried
           (config vertex false 3 1000) (worldOf blockedOnSecond half) [] None 1 safetyBlock).
  - simpl. lia.
  - intros i Hi. assert (i = 0) by lia. subst i.
    exists unavailable. split; vm_compute; reflexivity.
  - vm_compute. reflexivity.
  - vm_compute. reflexivity.
Defined.

(** A block on the first attempt: one invocation, no sleep. *)
Example blocked_on_first_attempt :
  callGenerativeAI (config gemini true 3 1000)
    (worldOf (scripted (fun _ => Throw safetyBlock)) half) [] None
  = ([GenerateStream Default 0 (geminiRequest (config gemini true 3 1000) [])],
     Raised {| mcpCode := InternalError;
               mcpMessage := "Content generation blocked by gemini safety filters. "
                 ++ "(Response was blocked due to SAFETY)" |}).
Proof. vm_compute. reflexivity. Qed.

(** Whatever the provider does, the loop started at attempt [a] makes at
    most [maxRetries + 1 - a] attempts: the call terminates within
    [maxRetries + 1] invocations. *)
Lemma retryLoop_bounded (cfg : AIConfig) (w : World) (c : list Content)
    (ts : option (list Tool)) (n : nat) : forall a : Z,
  Z.to_nat (maxRetries cfg + 1 - a) = n ->
  (List.length (attempts (fst (retryLoop cfg w c ts a))) <= n)%nat.
Proof.
  induction n as [|n IH]; intros a Hn; rewrite retryLoop_step.
  - destruct (Z.leb_spec a (maxRetries cfg)); [lia | simpl; lia].
  - destruct (Z.leb_spec a (maxRetries cfg)); [|simpl; lia].
    destruct (completion (executeAttempt cfg w c ts a)) as [t|e].
    + simpl fst. rewrite attempts_invocationOf. simpl. lia.
    + destruct (isRetryable e && (a <? maxRetries cfg))%bool; simpl fst.
      * change (?x :: ?y :: ?l)%list with ([x] ++ [y] ++ l)%list.
        rewrite !attempts_app, attempts_invocationOf. simpl.
        specialize (IH (a + 1) ltac:(lia)). lia.
      * rewrite attempts_invocationOf. simpl. lia.
Qed.

(** C3.  When every attempt fails with a retryable signature,
    [callGenerativeAI] makes exactly the attempts [0, 1, ..., maxRetries]
    ([maxRetries + 1] of them), sleeps [maxRetries] times between them, and
    then raises the final error built from the failure of the last attempt.
    ([retryLoop_bounded] gives the bound [maxRetries + 1] for every
    provider.) *)
Theorem retryable_failures_exhaust_attempts
    (cfg : AIConfig) (w : World) (c : list Content) (ts : option (list Tool)) :
  0 <= maxRetries cfg ->
  (forall i, 0 <= i <= maxRetries cfg -> failsRetryably cfg w c ts i) ->
  exists e,
    completion (executeAttempt cfg w c ts (maxRetries cfg)) = Throw e
    /\ isRetryable e = true
    /\ snd (callGenerativeAI cfg w c ts) = Raised (finalError cfg e)
    /\ attempts (fst (callGenerativeAI cfg w c ts))
         = range 0 (Z.to_nat (maxRetries cfg + 1))
    /\ List.length (attempts (fst (callGenerativeAI cfg w c ts)))
         = Z.to_nat (maxRetries cfg + 1)
    /\ List.length (sleeps (fst (callGenerativeAI cfg w c ts)))
         = Z.to_nat (maxRetries cfg).
Proof.
  intros Hm Hfail.
  destruct (Hfail (maxRetries cfg) ltac:(lia)) as (e & He & Hr).
  exists e. split; [exact He|]. split; [exact Hr|].
  assert (Hcall : callGenerativeAI cfg w c ts =
            ((retried cfg w c ts 0 (Z.to_nat (maxRetries cfg))
                ++ [invocationOf cfg w c ts (maxRetries cfg)])%list,
             Raised (finalError cfg e))).
  { unfold callGenerativeAI.
    rewrite (retryLoop_retried cfg w c ts (Z.to_nat (maxRetries cfg)) 0)
      by (try lia; intros i Hi; apply Hfail; lia).
    replace (0 + Z.of_nat (Z.to_nat (maxRetries cfg))) with (maxRetries cfg) by lia.
    rewrite (retryLoop_raises cfg w c ts (maxRetries cfg) e);
      [reflexivity | lia | exact He |].
    rewrite Z.ltb_irrefl. apply andb_false_r. }
  rewrite Hcall. simpl fst. simpl snd.
  assert (Hatt : attempts (retried cfg w c ts 0 (Z.to_nat (maxRetries cfg))
                             ++ [invocationOf cfg w c ts (maxRetries cfg)])
                 = range 0 (Z.to_nat (maxRetries cfg + 1))).
  { rewrite attempts_app, attempts_retried, attempts_invocationOf.
    replace (Z.to_nat (maxRetries cfg + 1)) with (S (Z.to_nat (maxRetries cfg))) by lia.
    rewrite range_snoc. f_equal. f_equal. lia. }
  split; [reflexivity|]. split; [|split].
  - exact Hatt.
  - rewrite Hatt. apply range_length.
  - rewrite sleeps_app, sleeps_retried, sleeps_invocationOf, List.app_nil_r,
      List.length_map, range_length. reflexivity.
Qed.

Lemma retryable_failures_exhaust_attempts_witness :
  exists e,
    completion (executeAttempt (config gemini true 3 1000)
                  (worldOf alwaysUnavailable half) [] None 3) = Throw e
    /\ isRetryable e = true
    /\ snd (callGenerativeAI (config gemini true 3 1000)
              (worldOf alwaysUnavailable half) [] None)
         = Raised (finalError (config gemini true 3 1000) e)
    /\ attempts (fst (callGenerativeAI (config gemini true 3 1000)
                        (worldOf alwaysUnavailable half) [] None))
         = range 0 4
    /\ List.length (attempts (fst (callGenerativeAI (config gemini true 3 1000)
                        (worldOf alwaysUnavailable half) [] None))) = 4%nat
    /\ List.length (sleeps (fst (callGenerativeAI (config gemini true 3 1000)
                        (worldOf alwaysUnavailable half) [] None))) = 3%nat.
Proof.
  apply (retryable_failures_exhaust_attempts
           (config gemini true 3 1000) (worldOf alwaysUnavailable half) [] None).
  - simpl. lia.
  - intros i Hi. exists unavailable. split; vm_compute; reflexivity.
Defined.

Example always_unavailable_trace :
  attempts (fst (callGenerativeAI (config vertex false 3 1000)
                   (worldOf alwaysUnavailable half) [] None)) = [0; 1; 2; 3]
  /\ sleeps (fst (callGenerativeAI (config vertex false 3 1000)
                   (worldOf alwaysUnavailable half) [] None))
     = [1250%Q; 2250%Q; 4250%Q]
  /\ snd (callGenerativeAI (config vertex false 3 1000)
            (worldOf alwaysUnavailable half) [] None)
     = Raised {| mcpCode := InternalError;
                 mcpMessage := "vertex AI API error: [503 Service Unavailable] "
                   ++ "The model is overloaded. (Status: 503)" |}.
Proof. vm_compute. repeat split. Qed.

(** *** Rounding to a double *)

Section DoubleRounding.
Import Double.
Local Open Scope Q_scope.












End DoubleRounding.

Section Backoff.
Import GenerativeClient Scenarios.




End Backoff.







(** The scenario of the specification: [maxRetries = 3],
    [retryDelayMs = 1000], a 503 on attempts 0 and 1, an answer on attempt
    2; with [Math.random] at one half the sleeps are 1250 and 2250 ms. *)
Example two_failures_then_answer :
  callGenerativeAI (config gemini false 3 1000) (worldOf answersOnThird half) [] None
  = ([Generate Default 0 (geminiRequest (config gemini false 3 1000) []);
      Sleep 1250;
      Generate Default 1 (geminiRequest (config gemini false 3 1000) []);
      Sleep 2250;
      Generate Default 2 (geminiRequest (config gemini false 3 1000) [])],
     Returned "attempt-2 payload").
Proof. vm_compute. reflexivity. Qed.

(** A call returns only what one of its attempts produced. *)
Lemma retryLoop_returned_inv (cfg : AIConfig) (w : World) (c : list Content)
    (ts : option (list Tool)) (t : string) (n : nat) : forall a : Z,
  Z.to_nat (maxRetries cfg + 1 - a) = n ->
  snd (retryLoop cfg w c ts a) = Returned t ->
  exists i, a <= i <= maxRetries cfg
            /\ completion (executeAttempt cfg w c ts i) = Normal t.
Proof.
  induction n as [|n IH]; intros a Hn; rewrite retryLoop_step;
    destruct (Z.leb_spec a (maxRetries cfg)); try lia; try discriminate.
  destruct (completion (executeAttempt cfg w c ts a)) as [t'|e] eqn:E.
  - simpl. intros [= ->]. exists a. split; [lia | exact E].
  - destruct (isRetryable e && (a <? maxRetries cfg))%bool; simpl; [|discriminate].
    intros Hret. destruct (IH (a + 1) ltac:(lia) Hret) as (i & Hi & Hc).
    exists i. split; [lia | exact Hc].
Qed.

Lemma callGenerativeAI_returned_inv (cfg : AIConfig) (w : World) (c : list Content)
    (ts : option (list Tool)) (t : string) :
  snd (callGenerativeAI cfg w c ts) = Returned t ->
  exists i, 0 <= i <= maxRetries cfg
            /\ completion (executeAttempt cfg w c ts i) = Normal t.
Proof. apply (retryLoop_returned_inv cfg w c ts t _ 0 eq_refl). Qed.

(** The specification's reading of C2 fails on [malformedFirst]: the
    response of attempt 0 has no text, the failure is neither blocked nor
    transient, three attempts remain, and the call ends at once. *)
Lemma every_unblocked_failure_retried_fails : ~ everyUnblockedFailureRetried.
Proof.
  intros H.
  specialize (H (config vertex false 3 1000) (worldOf malformedFirst half) [] None 0
                (newError "Failed to extract valid text response from vertex AI (non-streaming).")
                ltac:(simpl; lia) eq_refl eq_refl).
  vm_compute in H. discriminate H.
Qed.

Example malformed_response_not_retried :
  callGenerativeAI (config vertex false 3 1000) (worldOf malformedFirst half) [] None
  = ([Generate Default 0 (vertexRequest (config vertex false 3 1000) [] None)],
     Raised {| mcpCode := InternalError;
               mcpMessage := "vertex AI API error: Failed to extract valid text "
                 ++ "response from vertex AI (non-streaming)." |}).
Proof. vm_compute. reflexivity. Qed.

(** The loop retries attempt [a] exactly when its failure is classified
    [Retryable] and an attempt remains. *)
Lemma retry_iff_retryable (cfg : AIConfig) (e : JsError) (a : Z) :
  (isRetryable e && (a <? maxRetries cfg))%bool = true
  <-> classify e = Retryable /\ a < maxRetries cfg.
Proof.
  unfold classify. rewrite andb_true_iff, Z.ltb_lt.
  destruct (isBlockingError e) eqn:Hb.
  - rewrite (blocking_not_retryable e Hb). split; [intros [? _] | intros [? _]]; discriminate.
  - destruct (isRetryable e); split; intros [H1 H2]; try discriminate; auto.
Qed.

(** C2, amended.  A failure of an attempt of [callGenerativeAI] that is
    neither content-blocked nor a transient fault (classified [Fatal]) is
    not retried: the call raises the final error built from it at once,
    with no sleep and no further invocation after the failed attempt,
    however many attempts remain.  Only [Retryable] failures are retried
    ([retry_iff_retryable]). *)
Theorem fatal_failure_never_retried
    (cfg : AIConfig) (w : World) (c : list Content) (ts : option (list Tool))
    (a : Z) (e : JsError) :
  0 <= a <= maxRetries cfg ->
  (forall i, 0 <= i < a -> failsRetryably cfg w c ts i) ->
  completion (executeAttempt cfg w c ts a) = Throw e ->
  classify e = Fatal ->
  callGenerativeAI cfg w c ts =
    ((retried cfg w c ts 0 (Z.to_nat a) ++ [invocationOf cfg w c ts a])%list,
     Raised (finalError cfg e))
  /\ List.length (sleeps (fst (callGenerativeAI cfg w c ts))) = Z.to_nat a
  /\ attempts (fst (callGenerativeAI cfg w c ts)) = range 0 (S (Z.to_nat a)).
Proof.
  intros Ha Hbefore He Hc.
  assert (Hr : isRetryable e = false).
  { unfold classify in Hc. destruct (isBlockingError e); [discriminate|].
    destruct (isRetryable e); [discriminate | reflexivity]. }
  assert (Hcall : callGenerativeAI cfg w c ts =
            ((retried cfg w c ts 0 (Z.to_nat a) ++ [invocationOf cfg w c ts a])%list,
             Raised (finalError cfg e))).
  { unfold callGenerativeAI.
    rewrite (retryLoop_retried cfg w c ts (Z.to_nat a) 0)
      by (try lia; intros i Hi; apply Hbefore; lia).
    replace (0 + Z.of_nat (Z.to_nat a)) with a by lia.
    rewrite (retryLoop_raises cfg w c ts a e);
      [reflexivity | lia | exact He |].
    rewrite Hr. reflexivity. }
  rewrite Hcall. simpl fst. split; [reflexivity|]. split.
  - rewrite sleeps_app, sleeps_retried, sleeps_invocationOf, List.app_nil_r,
      List.length_map, range_length. reflexivity.
  - rewrite attempts_app, attempts_retried, attempts_invocationOf, range_snoc.
    f_equal. f_equal. lia.
Qed.

Lemma fatal_failure_never_retried_witness :
  callGenerativeAI (config vertex false 3 1000) (worldOf malformedFirst half) [] None =
    ((retried (config vertex false 3 1000) (worldOf malformedFirst half) [] None 0 0
        ++ [invocationOf (config vertex false 3 1000) (worldOf malformedFirst half) [] None 0])%list,
     Raised (finalError (config vertex false 3 1000)
               (newError "Failed to extract valid text response from vertex AI (non-streaming).")))
  /\ List.length (sleeps (fst (callGenerativeAI (config vertex false 3 1000)
                                 (worldOf malformedFirst half) [] None))) = 0%nat
  /\ attempts (fst (callGenerativeAI (config vertex false 3 1000)
                      (worldOf malformedFirst half) [] None)) = range 0 1.
Proof.
  apply (fatal_failure_never_retried
           (config vertex false 3 1000) (worldOf malformedFirst half) [] None 0
           (newError "Failed to extract valid text response from vertex AI (non-streaming).")).
  - simpl. lia.
  - intros i Hi. lia.
  - vm_compute. reflexivity.
  - vm_compute. reflexivity.
Defined.

End RetryClaims.

(* ===================================================================== *)
(** ** What an attempt returns *)
(* ===================================================================== *)

Section AttemptResults.
Import GenerativeClient Scenarios.

Lemma completion_bind {A B} (m : Run A) (k : A -> Run B) :
  completion (m ≫= k) =
  match completion m with
  | Normal a => completion (k a)
  | Throw e => Throw e
  end.
Proof. unfold mbind, Run_bind. destruct (completion m); reflexivity. Qed.

Lemma completion_bind_normal {A B} (m : Run A) (k : A -> Run B) (b : B) :
  completion (m ≫= k) = Normal b ->
  exists a, completion m = Normal a /\ completion (k a) = Normal b.
Proof.
  rewrite completion_bind. destruct (completion m) as [a|e]; [|discriminate].
  intros H. exists a. auto.
Qed.

Lemma streaming_returns_nonempty (cfg : AIConfig) (w : World) (c : list Content)
    (ts : option (list Tool)) (a : Z) (r : option string) :
  completion (streaming cfg w c ts a) = Normal r ->
  exists ch t, r = Some (String ch t).
Proof.
  unfold streaming. intros H.
  apply completion_bind_normal in H as ([acc final] & _ & H).
  destruct (extractFromAggregate cfg acc final) as [|ch t]; simpl in H;
    [discriminate|].
  injection H as <-. eauto.
Qed.

Lemma nonStreaming_returns_nonempty (cfg : AIConfig) (w : World) (c : list Content)
    (ts : option (list Tool)) (a : Z) (r : option string) :
  completion (nonStreaming cfg w c ts a) = Normal r ->
  exists ch t, r = Some (String ch t).
Proof.
  unfold nonStreaming. intros H.
  apply completion_bind_normal in H as (r' & _ & H).
  destruct r' as [[|ch t]|]; simpl in H; try discriminate.
  injection H as <-. eauto.
Qed.

(** An attempt that completes normally yields a non-empty text, in both
    modes and for both providers. *)
Lemma executeAttempt_returns_nonempty (cfg : AIConfig) (w : World) (c : list Content)
    (ts : option (list Tool)) (a : Z) (t : string) :
  completion (executeAttempt cfg w c ts a) = Normal t -> t <> "".
Proof.
  unfold executeAttempt. intros H.
  apply completion_bind_normal in H as (r & Hr & H).
  assert (Hne : exists ch t', r = Some (String ch t')).
  { destruct (useStreaming cfg);
      [eapply streaming_returns_nonempty | eapply nonStreaming_returns_nonempty];
      exact Hr. }
  destruct Hne as (ch & t' & ->). simpl in H. injection H as <-. discriminate.
Qed.

Lemma includes_of_startsWith (s q : string) :
  Js.startsWith s q = true -> Js.includes s q = true.
Proof. intros H. destruct s; cbn [Js.includes]; rewrite H; reflexivity. Qed.

Lemma includes_tail (ch : ascii) (s q : string) :
  Js.includes s q = true -> Js.includes (String ch s) q = true.
Proof. intros H. cbn [Js.includes]. rewrite H. apply orb_true_r. Qed.

Lemma startsWith_app_includes (q : string) : forall p s : string,
  Js.startsWith s (p ++ q) = true -> Js.includes s q = true.
Proof.
  induction p as [|x p IH]; intros s H.
  - apply includes_of_startsWith. exact H.
  - change (String x p ++ q) with (String x (p ++ q)) in H.
    destruct s as [|y s]; cbn [Js.startsWith] in H; [discriminate|].
    apply andb_prop in H as [_ H]. apply includes_tail, IH. exact H.
Qed.

(** A string that includes [p ++ q] includes [q]. *)
Lemma includes_app_r (p q : string) : forall s : string,
  Js.includes s (p ++ q) = true -> Js.includes s q = true.
Proof.
  induction s as [|ch s IH]; cbn [Js.includes]; intros H.
  - rewrite orb_false_r in H. apply (startsWith_app_includes q p ""). exact H.
  - apply orb_prop in H as [H|H].
    + apply (startsWith_app_includes q p (String ch s)). exact H.
    + apply includes_tail, IH. exact H.
Qed.

Lemma retryable_message_not_blocking (e : JsError) :
  isRetryable e = true ->
  messageIncludes e "safety" = false /\ messageIncludes e "prompt blocked" = false.
Proof.
  unfold isRetryable, isBlockingError, errorMessageString, messageIncludes.
  intros H. apply andb_prop in H as [H _]. apply negb_true_iff, orb_false_elim in H.
  destruct H as [Hb Hs].
  destruct (message e) as [|ch m] eqn:Em; [split; reflexivity|].
  split; [exact Hs|].
  destruct (Js.includes (Js.toLowerCase (String ch m)) "prompt blocked") eqn:E;
    [|reflexivity].
  apply (includes_app_r "prompt " "blocked") in E. congruence.
Qed.

(** A failure of the provider call with a retryable signature reaches the
    classification of the [catch] unchanged, in both modes and for both
    providers (the Gemini non-streaming path rewraps the failures whose
    [status] is [BLOCKED]). *)
Lemma provider_failure_reaches_classifier (cfg : AIConfig) (w : World)
    (c : list Content) (ts : option (list Tool)) (a : Z) (e : JsError) :
  providerFails cfg w ts a e ->
  isRetryable e = true ->
  status e <> Some "BLOCKED" ->
  completion (executeAttempt cfg w c ts a) = Throw e.
Proof.
  intros Hf Hr Hst. destruct (retryable_message_not_blocking e Hr) as [Hs Hp].
  unfold providerFails, modelInUse in Hf.
  unfold executeAttempt, streaming, nonStreaming, vertexStream, geminiStream,
    vertexSingle, geminiSingle, vertexModelInstance, geminiModelInstance.
  destruct (useStreaming cfg), (provider cfg);
    try destruct (truthyFlag (isGroundingRequested ts));
    repeat (rewrite completion_bind; cbn [completion]);
    unfold tryCatch, callGenerateContent, callGenerateContentStream;
    cbn [completion model]; rewrite Hf; cbn [completion]; try reflexivity.
  all: rewrite Hs, Hp; cbn [orb].
  all: assert (Hb : strictEq (status e) "BLOCKED" = false)
    by (unfold strictEq, strictNe; destruct (status e) as [x|]; [|reflexivity];
        destruct (String.eqb_spec x "BLOCKED") as [->|]; [congruence | reflexivity]).
  all: rewrite Hb; reflexivity.
Qed.

(** C9.  A text that [callGenerativeAI] returns is never the empty string:
    in both modes an attempt whose extracted text is empty or missing
    fails instead of returning (the streaming path after one more
    extraction from the aggregated response, see
    [streaming_extracts_from_aggregate]). *)
Theorem returned_text_nonempty
    (cfg : AIConfig) (w : World) (c : list Content) (ts : option (list Tool))
    (t : string) :
  snd (callGenerativeAI cfg w c ts) = Returned t -> t <> "".
Proof.
  intros H. apply callGenerativeAI_returned_inv in H as (i & _ & Hi).
  exact (executeAttempt_returns_nonempty cfg w c ts i t Hi).
Qed.

Lemma returned_text_nonempty_witness :
  snd (callGenerativeAI (config vertex true 3 1000) (worldOf answersOnThird half) [] None)
    = Returned "attempt-2 payload"
  /\ "attempt-2 payload" <> "".
Proof.
  split; [vm_compute; reflexivity|].
  apply (returned_text_nonempty
           (config vertex true 3 1000) (worldOf answersOnThird half) [] None).
  vm_compute. reflexivity.
Defined.

(** An empty text is refused in both modes, with no retry. *)
Example empty_text_is_refused :
  snd (callGenerativeAI (config vertex true 3 1000)
         (worldOf (scripted (fun _ => Normal (textResponse "" None (Some "STOP")))) half)
         [] None)
  = Raised {| mcpCode := InternalError;
              mcpMessage := "vertex AI API error: Received empty or non-text response "
                ++ "from vertex AI stream." |}
  /\ snd (callGenerativeAI (config gemini false 3 1000)
         (worldOf (scripted (fun _ => Normal (textResponse "" None (Some "STOP")))) half)
         [] None)
  = Raised {| mcpCode := InternalError;
              mcpMessage := "gemini AI API error: Failed to extract valid text response "
                ++ "from gemini AI (non-streaming)." |}.
Proof. vm_compute. split; reflexivity. Qed.

(** The streaming path, when the chunks carried no text, takes the text of
    the aggregated response. *)
Example streaming_extracts_from_aggregate :
  callGenerativeAI (config vertex true 3 1000)
    (worldOf {| generateContent := fun _ => Throw unavailable;
                generateContentStream := fun _ =>
                  Normal {| chunks := [noTextResponse None];
                            streamFailure := None;
                            aggregated := Normal (Some (textResponse "whole" None None)) |} |}
             half)
    [] None
  = ([GenerateStream Default 0 (vertexRequest (config vertex true 3 1000) [] None)],
     Returned "whole").
Proof. vm_compute. reflexivity. Qed.

Lemma append_nil_r (s : string) : s ++ "" = s.
Proof.
  induction s as [|ch s IH]; [reflexivity|].
  change (String ch (s ++ "") = String ch s). rewrite IH. reflexivity.
Qed.

Lemma append_assoc (s1 s2 s3 : string) : (s1 ++ s2) ++ s3 = s1 ++ (s2 ++ s3).
Proof.
  induction s1 as [|ch s1 IH]; [reflexivity|].
  change (String ch ((s1 ++ s2) ++ s3) = String ch (s1 ++ (s2 ++ s3))).
  rewrite IH. reflexivity.
Qed.

Lemma concat_cons (d : string) (ds : list string) :
  String.concat "" (d :: ds) = d ++ String.concat "" ds.
Proof.
  destruct ds as [|d' ds]; [|reflexivity].
  change (d = d ++ ""). rewrite append_nil_r. reflexivity.
Qed.

(** The accumulator of the Vertex stream loop, on chunks that carry the
    text deltas [deltas]: the deltas, appended in order. *)
Lemma vertex_accumulates (deltas : list string) : forall acc : string,
  forAwait
    (fun acc item =>
       match firstPartText (firstCandidate (Some item)) with
       | Some textPart => mret (acc ++ textPart)
       | None => mret acc
       end)
    (List.map (fun d => textResponse d None None) deltas) None acc
  = mkRun [] (Normal (acc ++ String.concat "" deltas)).
Proof.
  induction deltas as [|d ds IH]; intros acc.
  - cbn. rewrite append_nil_r. reflexivity.
  - cbn [List.map forAwait]. cbn [textResponse textCandidate firstCandidate
      firstPartText candidates content parts text].
    unfold mbind, Run_bind, mret, Run_ret. cbn [completion events].
    rewrite IH, concat_cons, append_assoc. reflexivity.
Qed.

(** The same for the Gemini stream loop. *)
Lemma gemini_accumulates (deltas : list string) : forall acc : string,
  forAwait
    (fun acc chunk =>
       tryCatch
         (t ← await (textAccessor chunk); mret (acc ++ t))
         (fun e =>
            if messageIncludes e "safety" then
              throw (newError ("Gemini Content generation blocked during stream. Reason: "
                                 ++ message e))
            else mret acc))
    (List.map (fun d => textResponse d None None) deltas) None acc
  = mkRun [] (Normal (acc ++ String.concat "" deltas)).
Proof.
  induction deltas as [|d ds IH]; intros acc.
  - cbn. rewrite append_nil_r. reflexivity.
  - cbn [List.map forAwait]. cbn [textResponse textAccessor].
    unfold mbind, Run_bind, mret, Run_ret, tryCatch, await. cbn [completion events].
    rewrite IH, concat_cons, append_assoc. reflexivity.
Qed.

End AttemptResults.

(* ===================================================================== *)
(** ** Streaming against the single response *)
(* ===================================================================== *)

Section ConstantProvider.
Import GenerativeClient.

(** When every attempt would end the same way, the call returns what an
    attempt yields, provided it makes an attempt at all. *)
Lemma callGenerativeAI_constant (cfg : AIConfig) (w : World) (c : list Content)
    (ts : option (list Tool)) (o : option string) :
  (forall a, yielded (completion (executeAttempt cfg w c ts a)) = o) ->
  returnedText (snd (callGenerativeAI cfg w c ts))
  = if 0 <=? maxRetries cfg then o else None.
Proof.
  intros Hall. destruct (Z.leb_spec 0 (maxRetries cfg)) as [Hm|Hm].
  - destruct o as [t|].
    + specialize (Hall 0).
      destruct (completion (executeAttempt cfg w c ts 0)) as [t'|e] eqn:E;
        [|discriminate].
      injection Hall as ->. unfold callGenerativeAI.
      rewrite (retryLoop_returns cfg w c ts 0 t Hm E). reflexivity.
    + destruct (snd (callGenerativeAI cfg w c ts)) as [t|e] eqn:E; [|reflexivity].
      apply callGenerativeAI_returned_inv in E as (i & _ & Hi).
      specialize (Hall i). rewrite Hi in Hall. discriminate.
  - unfold callGenerativeAI. rewrite retryLoop_exhausted by lia. reflexivity.
Qed.

End ConstantProvider.

Lemma extract_keeps_text (cfg : AIConfig) (s : string)
    (r : option GenerateContentResponse) :
  s <> "" -> GenerativeClient.extractFromAggregate cfg s r = s.
Proof. intros Hs. destruct s; [congruence | reflexivity]. Qed.

Section StreamingEquivalence.
Import GenerativeClient Scenarios.

Variable cfg : AIConfig.
Variable rnd : Z -> Q.
Variable deltas : list string.
Variable feedback : option PromptFeedback.
Variable finish : option string.
Variable aggregateText : option string.
Variable c : list Content.
Variable ts : option (list Tool).

Let w : World := worldOf (generating deltas feedback finish aggregateText) rnd.
Let whole : string := String.concat "" deltas.

(** When the deltas are all empty the aggregated response holds no text
    either. *)
Hypothesis aggregate_of_nothing :
  String.concat "" deltas = "" -> aggregateText = None \/ aggregateText = Some "".

Lemma generating_single (a : Z) :
  yielded (completion (executeAttempt (setStreaming false cfg) w c ts a))
  = if (passesChecks (provider cfg) feedback finish && nonEmpty whole)%bool
    then Some whole else None.
Proof.
  clear aggregate_of_nothing.
  unfold executeAttempt, nonStreaming, vertexSingle, geminiSingle,
    vertexModelInstance, geminiModelInstance, passesChecks.
  cbn [setStreaming useStreaming provider modelId].
  destruct (provider cfg).
  - destruct (truthyFlag (isGroundingRequested ts)).
    all: unfold callGenerateContent; cbn [model entry w worldOf vertexClient vertexOf
           preview_getGenerativeModel getGenerativeModel generating generateContent].
    all: rewrite !completion_bind; cbn [completion response].
    all: change (blockReasonOf (Some (textResponse _ feedback finish)))
           with (match feedback with Some f => blockReason f | None => None end).
    all: change (firstPartText (firstCandidate (Some (textResponse ?t feedback finish))))
           with (Some t).
    all: fold whole.
    all: destruct (vertexBlocks _); [reflexivity|].
    all: destruct whole; reflexivity.
  - unfold callGenerateContent, tryCatch.
    cbn [model entry w worldOf geminiClient genai_getGenerativeModel generating
           generateContent completion].
    rewrite !completion_bind. cbn [completion response textResponse textAccessor].
    change (blockReasonOf (Some ?r))
      with (match promptFeedback r with Some f => blockReason f | None => None end).
    change (finishReasonOf (Some (textResponse _ feedback finish))) with finish.
    cbn [promptFeedback].
    fold whole.
    destruct (Js.truthy _); [reflexivity|].
    destruct (strictEq finish "SAFETY"); [reflexivity|].
    destruct whole; reflexivity.
Qed.

(** What the streaming path takes from the aggregated response when the
    chunks gave no text. *)
Lemma extract_of_nothing (cfg' : AIConfig) :
  String.concat "" deltas = "" ->
  extractFromAggregate cfg' "" (Some (aggregateOf aggregateText feedback finish)) = "".
Proof.
  intros Hw. unfold extractFromAggregate.
  destruct (aggregate_of_nothing Hw) as [-> | ->]; destruct (provider cfg'); reflexivity.
Qed.

Lemma aggregate_reasons :
  blockReasonOf (Some (aggregateOf aggregateText feedback finish))
  = match feedback with Some f => blockReason f | None => None end
  /\ finishReasonOf (Some (aggregateOf aggregateText feedback finish)) = finish.
Proof. destruct aggregateText; split; reflexivity. Qed.

Lemma generating_stream (a : Z) :
  yielded (completion (executeAttempt (setStreaming true cfg) w c ts a))
  = if (passesChecks (provider cfg) feedback finish && nonEmpty whole)%bool
    then Some whole else None.
Proof.
  destruct aggregate_reasons as [Hblock Hfinish].
  assert (Hextract :
            extractFromAggregate (setStreaming true cfg) whole
              (Some (aggregateOf aggregateText feedback finish)) = whole).
  { destruct (string_dec (String.concat "" deltas) "") as [Hw|Hw].
    - unfold whole. rewrite Hw. apply extract_of_nothing. exact Hw.
    - apply extract_keeps_text. exact Hw. }
  clear aggregate_of_nothing.
  unfold executeAttempt, streaming, vertexStream, geminiStream,
    vertexModelInstance, geminiModelInstance, passesChecks.
  cbn [setStreaming useStreaming provider modelId].
  destruct (provider cfg) eqn:Hp.
  - destruct (truthyFlag (isGroundingRequested ts)).
    all: unfold callGenerateContentStream; cbn [model entry w worldOf vertexClient vertexOf
           preview_getGenerativeModel getGenerativeModel generating generateContentStream].
    all: repeat (rewrite completion_bind;
                 cbn [completion chunks streamFailure aggregated await]).
    all: rewrite vertex_accumulates; cbn [completion].
    all: repeat (rewrite completion_bind; cbn [completion await]).
    all: rewrite Hblock.
    all: change ("" ++ String.concat "" deltas) with whole.
    all: destruct (vertexBlocks _); [reflexivity|].
    all: cbn [completion mret Run_ret].
    all: rewrite Hextract.
    all: destruct whole; reflexivity.
  - unfold callGenerateContentStream, tryCatch.
    cbn [model entry w worldOf geminiClient genai_getGenerativeModel generating
           generateContentStream completion].
    repeat (rewrite completion_bind;
            cbn [completion chunks streamFailure aggregated await]).
    rewrite gemini_accumulates; cbn [completion].
    repeat (rewrite completion_bind; cbn [completion await]).
    rewrite Hblock, Hfinish.
    change ("" ++ String.concat "" deltas) with whole.
    destruct (Js.truthy _); [reflexivity|].
    destruct (strictEq finish "SAFETY"); [reflexivity|].
    cbn [completion mret Run_ret]. rewrite Hextract. destruct whole; reflexivity.
Qed.

End StreamingEquivalence.

Section StreamingClaim.
Import GenerativeClient Scenarios.

(** C6.  For a provider that generates the same content in both modes (the
    text deltas [deltas] as the chunks of a stream, their concatenation as
    the single response), the streaming call and the non-streaming call
    return the same text: both return the concatenation of the deltas when
    the generation passes the block checks and the text is not empty, and
    neither returns otherwise.  The text of the streaming call is the one
    its loop accumulates from the chunks: the aggregated response of the
    stream may hold any text or none, as long as it holds none when all
    the deltas are empty. *)
Theorem streaming_agrees_with_single_response
    (cfg : AIConfig) (rnd : Z -> Q) (deltas : list string)
    (feedback : option PromptFeedback) (finish : option string)
    (aggregateText : option string)
    (c : list Content) (ts : option (list Tool)) :
  (String.concat "" deltas = "" -> aggregateText = None \/ aggregateText = Some "") ->
  let w := worldOf (generating deltas feedback finish aggregateText) rnd in
  let whole := String.concat "" deltas in
  let expected :=
    if ((0 <=? maxRetries cfg) && passesChecks (provider cfg) feedback finish
        && nonEmpty whole)%bool
    then Some whole else None in
  returnedText (snd (callGenerativeAI (setStreaming true cfg) w c ts)) = expected
  /\ returnedText (snd (callGenerativeAI (setStreaming false cfg) w c ts)) = expected
  /\ returnedText (snd (callGenerativeAI (setStreaming true cfg) w c ts))
     = returnedText (snd (callGenerativeAI (setStreaming false cfg) w c ts)).
Proof.
  intros Hagg w whole expected.
  assert (Hs : returnedText (snd (callGenerativeAI (setStreaming true cfg) w c ts))
               = expected).
  { rewrite (callGenerativeAI_constant _ w c ts _
               (generating_stream cfg rnd deltas feedback finish aggregateText c ts Hagg)).
    unfold expected, whole. cbn [maxRetries setStreaming].
    destruct (0 <=? maxRetries cfg); reflexivity. }
  assert (Hn : returnedText (snd (callGenerativeAI (setStreaming false cfg) w c ts))
               = expected).
  { rewrite (callGenerativeAI_constant _ w c ts _
               (generating_single cfg rnd deltas feedback finish aggregateText c ts)).
    unfold expected, whole. cbn [maxRetries setStreaming].
    destruct (0 <=? maxRetries cfg); reflexivity. }
  split; [exact Hs|]. split; [exact Hn|]. rewrite Hs, Hn. reflexivity.
Qed.

(** Three chunks against the single text, the aggregated response holding
    a text of its own that the streaming call does not return. *)
Lemma streaming_agrees_with_single_response_witness :
  let w := worldOf (generating ["Hello"; ", "; "world"] None (Some "STOP")
                      (Some "not the accumulated text")) half in
  let whole := String.concat "" ["Hello"; ", "; "world"] in
  let expected :=
    if ((0 <=? maxRetries (config gemini true 3 1000))
        && passesChecks (provider (config gemini true 3 1000)) None (Some "STOP")
        && nonEmpty whole)%bool
    then Some whole else None in
  returnedText (snd (callGenerativeAI (setStreaming true (config gemini true 3 1000))
                       w [] None)) = expected
  /\ returnedText (snd (callGenerativeAI (setStreaming false (config gemini true 3 1000))
                          w [] None)) = expected
  /\ returnedText (snd (callGenerativeAI (setStreaming true (config gemini true 3 1000))
                          w [] None))
     = returnedText (snd (callGenerativeAI (setStreaming false (config gemini true 3 1000))
                            w [] None)).
Proof.
  apply (streaming_agrees_with_single_response (config gemini true 3 1000) half
           ["Hello"; ", "; "world"] None (Some "STOP") (Some "not the accumulated text")
           [] None).
  intros H. discriminate H.
Defined.

(** Three chunks [a], [b], [c] against the single text [a ++ b ++ c], on
    both providers, with an aggregated response that holds no text. *)
Example three_chunks :
  let w := worldOf (generating ["Hello"; ", "; "world"] None (Some "STOP") None) half in
  snd (callGenerativeAI (config gemini true 3 1000) w [] None) = Returned "Hello, world"
  /\ snd (callGenerativeAI (config gemini false 3 1000) w [] None) = Returned "Hello, world"
  /\ snd (callGenerativeAI (config vertex true 3 1000) w [] None) = Returned "Hello, world"
  /\ snd (callGenerativeAI (config vertex false 3 1000) w [] None) = Returned "Hello, world".
Proof. vm_compute. repeat split. Qed.

Lemma three_chunks_concat (a b c : string) : String.concat "" [a; b; c] = a ++ b ++ c.
Proof. reflexivity. Qed.

(** The accumulation is what the streaming call returns: with deltas that
    are all empty and an aggregated response that holds a text, the two
    modes part, the streaming call returning the text of the aggregate. *)
Example empty_deltas_with_aggregate_text :
  let w := worldOf (generating [""; ""] None (Some "STOP") (Some "aggregate")) half in
  snd (callGenerativeAI (config vertex true 3 1000) w [] None) = Returned "aggregate"
  /\ returnedText (snd (callGenerativeAI (config vertex false 3 1000) w [] None)) = None.
Proof. vm_compute. split; reflexivity. Qed.

End StreamingClaim.

(* ===================================================================== *)
(** ** The retry engine of [callVertexAIWithOptionalFunctionCalling] *)
(* ===================================================================== *)

Section VertexRetryEngine.
Import VertexClient.

Variable vertexAI : VertexAI.
Variable safety : list SafetySetting.
Variable c : list Content.
Variable ts : option (list Tool).
Variable modelId : string.
Variable temperature : Q.
Variable stream : bool.
Variable maxOutputTokens : Z.
Variable maxRetries : Z.
Variable retryDelayMs : Z.

Let attempt := executeAttempt vertexAI safety c ts modelId temperature stream maxOutputTokens.
Let loop := vertexRetryLoop vertexAI safety c ts modelId temperature stream
              maxOutputTokens maxRetries retryDelayMs.
Let invocation := vertexInvocationOf vertexAI safety c ts modelId temperature stream
                    maxOutputTokens.

Lemma vertex_executeAttempt_events (a : Z) : events (attempt a) = [invocation a].
Proof.
  change (single (invocation a) (attempt a)).
  unfold attempt, invocation, executeAttempt, vertexInvocationOf, streaming,
    nonStreaming, generativeModel.
  destruct stream, (GenerativeClient.truthyFlag (isGrounding ts)); run_events.
Qed.

Lemma vertexRetryLoop_step (a : Z) :
  loop a =
  if a <=? maxRetries then
    match completion (attempt a) with
    | Normal t => ([invocation a], Returned t)
    | Throw e =>
        if (isRetryable e && (a <? maxRetries))%bool then
          (invocation a :: Sleep (retryDelay retryDelayMs a) :: fst (loop (a + 1)),
           snd (loop (a + 1)))
        else ([invocation a],
              Raised {| mcpCode := InternalError; mcpMessage := errorMessage e |})
    end
  else ([], Raised (maxRetriesReached maxRetries)).
Proof.
  unfold loop. rewrite vertexRetryLoop_unfold_eq. unfold vertexRetryLoop_unfold.
  destruct (Z_le_gt_dec a maxRetries) as [Hle|Hgt];
    destruct (Z.leb_spec a maxRetries); try lia; simpl; [|reflexivity].
  pose proof (vertex_executeAttempt_events a) as Hev. unfold attempt in *.
  destruct (executeAttempt _ _ _ _ _ _ _ _ a) as [evs [t|e]]; simpl in *; subst evs.
  - reflexivity.
  - destruct (isRetryable e && (a <? maxRetries))%bool; simpl; reflexivity.
Qed.

(** While the attempts fail with a retryable signature and attempts remain,
    the loop goes on with sleeps of [retryDelayMs * 2^attempt]. *)
Lemma vertexRetryLoop_retried (n : nat) : forall a : Z,
  a + Z.of_nat n <= maxRetries ->
  (forall i, a <= i < a + Z.of_nat n ->
     exists e, completion (attempt i) = Throw e /\ isRetryable e = true) ->
  loop a =
  ((List.flat_map (fun i => [invocation i; Sleep (retryDelay retryDelayMs i)]) (range a n)
      ++ fst (loop (a + Z.of_nat n)))%list,
   snd (loop (a + Z.of_nat n))).
Proof.
  induction n as [|n IH]; intros a Hle Hfail.
  - replace (a + Z.of_nat 0) with a by lia. destruct (loop a); reflexivity.
  - destruct (Hfail a ltac:(lia)) as (e & He & Hr).
    rewrite vertexRetryLoop_step, He, Hr.
    destruct (Z.leb_spec a maxRetries); [|lia].
    destruct (Z.ltb_spec a maxRetries); [|lia]. cbn [andb].
    rewrite (IH (a + 1)) by (try lia; intros i Hi; apply Hfail; lia).
    replace (a + 1 + Z.of_nat n) with (a + Z.of_nat (S n)) by lia.
    rewrite range_succ. reflexivity.
Qed.

Lemma vertex_sleeps_retried (a : Z) (n : nat) :
  sleeps (List.flat_map (fun i => [invocation i; Sleep (retryDelay retryDelayMs i)])
            (range a n))
  = List.map (retryDelay retryDelayMs) (range a n).
Proof.
  induction (range a n) as [|i l IH]; [reflexivity|].
  cbn [List.flat_map List.map].
  change ([invocation i; Sleep (retryDelay retryDelayMs i)] ++ ?l)%list
    with ([invocation i] ++ [Sleep (retryDelay retryDelayMs i)] ++ l)%list.
  rewrite !sleeps_app, IH.
  unfold invocation, vertexInvocationOf. destruct stream; reflexivity.
Qed.

(** The companion of C4 for the Vertex-only client: its sleeps are exactly
    [retryDelayMs * 2^attempt], which lies in the window. *)
Lemma vertex_retry_then_success (k : Z) (t : string) :
  0 <= k <= maxRetries ->
  (forall i, 0 <= i < k ->
     exists e, completion (attempt i) = Throw e /\ isRetryable e = true) ->
  completion (attempt k) = Normal t ->
  snd (loop 0) = Returned t
  /\ sleeps (fst (loop 0)) = List.map (retryDelay retryDelayMs) (range 0 (Z.to_nat k))
  /\ List.Forall2 (backoffWindow retryDelayMs)
       (range 0 (Z.to_nat k)) (sleeps (fst (loop 0))).
Proof.
  intros Hk Hfail Hok.
  rewrite (vertexRetryLoop_retried (Z.to_nat k) 0)
    by (try lia; intros i Hi; apply Hfail; lia).
  replace (0 + Z.of_nat (Z.to_nat k)) with k by lia.
  rewrite (vertexRetryLoop_step k), Hok.
  destruct (Z.leb_spec k maxRetries); [|lia].
  cbn [fst snd]. rewrite sleeps_app, vertex_sleeps_retried.
  assert (Hs : sleeps [invocation k] = [])
    by (unfold invocation, vertexInvocationOf; destruct stream; reflexivity).
  rewrite Hs, List.app_nil_r.
  split; [reflexivity|]. split; [reflexivity|].
  induction (range 0 (Z.to_nat k)) as [|a l IH]; simpl; constructor; [|exact IH].
  unfold backoffWindow, retryDelay. split; lra.
Qed.

(** The companion of C2 for the Vertex-only client: a failure that is not
    retryable ends the call at once. *)
Lemma vertex_failure_not_retried (a : Z) (e : JsError) :
  a <= maxRetries ->
  completion (attempt a) = Throw e ->
  isRetryable e = false ->
  loop a = ([invocation a],
            Raised {| mcpCode := InternalError; mcpMessage := errorMessage e |}).
Proof.
  intros Ha He Hr. rewrite vertexRetryLoop_step, He, Hr.
  destruct (Z.leb_spec a maxRetries); [reflexivity | lia].
Qed.

End VertexRetryEngine.

Example vertex_client_malformed_response_not_retried :
  VertexClient.callVertexAIWithOptionalFunctionCalling
    (Scenarios.vertexOf Scenarios.malformedFirst) vertexSafetySettings [] None
    "gemini-2.5-pro-exp-03-25" 0 false 8192 3 1000
  = ([Generate Default 0 (VertexClient.req vertexSafetySettings [] None 0 8192)],
     Raised {| mcpCode := InternalError;
               mcpMessage := "Vertex AI API error: Failed to extract valid text "
                 ++ "response from Vertex AI (non-streaming)." |}).
Proof. vm_compute. reflexivity. Qed.

Example vertex_client_two_failures_then_answer :
  VertexClient.callVertexAIWithOptionalFunctionCalling
    (Scenarios.vertexOf Scenarios.answersOnThird) vertexSafetySettings [] None
    "gemini-2.5-pro-exp-03-25" 0 true 8192 3 1000
  = ([GenerateStream Default 0 (VertexClient.req vertexSafetySettings [] None 0 8192);
      Sleep 1000;
      GenerateStream Default 1 (VertexClient.req vertexSafetySettings [] None 0 8192);
      Sleep 2000;
      GenerateStream Default 2 (VertexClient.req vertexSafetySettings [] None 0 8192)],
     Returned "attempt-2 payload").
Proof. vm_compute. reflexivity. Qed.

(* ===================================================================== *)
(** ** The block reason of a non-streaming response *)
(* ===================================================================== *)

Section BlockReason.
Import GenerativeClient Scenarios.

Lemma truthy_nonempty (s : string) : s <> "" -> Js.truthy (Some s) = true.
Proof. destruct s; [congruence | reflexivity]. Qed.

Lemma vertexBlocks_noBlockValue (reason : string) :
  reason <> "" ->
  vertexBlocks (Some reason) = negb (bool_decide (noBlockValue reason)).
Proof.
  intros Hne. unfold vertexBlocks, strictNe, noBlockValue.
  rewrite (truthy_nonempty reason Hne). cbn [andb].
  destruct (String.eqb_spec reason "BLOCK_REASON_UNSPECIFIED") as [->|H1].
  - reflexivity.
  - destruct (String.eqb_spec reason "OTHER") as [->|H2].
    + reflexivity.
    + cbn. symmetry. apply negb_true_iff, bool_decide_eq_false. tauto.
Qed.

Lemma blocked_vertex_classified (reason : string) :
  classify (newError ("Vertex Content generation blocked. Reason: " ++ reason))
  = ContentBlocked.
Proof. vm_compute. reflexivity. Qed.

Lemma blocked_gemini_classified (reason : string) :
  classify (newError ("Gemini Content generation blocked. Response Reason: " ++ reason))
  = ContentBlocked.
Proof. vm_compute. reflexivity. Qed.

Lemma extraction_failure_classified (p : AIProvider) :
  classify (newError ("Failed to extract valid text response from "
                        ++ providerName p ++ " AI (non-streaming)."))
  = Fatal.
Proof. destruct p; vm_compute; reflexivity. Qed.

Variable cfg : AIConfig.
Variable w : World.
Variable c : list Content.
Variable ts : option (list Tool).
Variable a : Z.
Variable r : GenerateContentResponse.
Variable reason : string.

Hypothesis Hsingle : useStreaming cfg = false.
Hypothesis Hanswer : generateContent (modelInUse cfg w ts) a = Normal {| response := Some r |}.
Hypothesis Hreason : blockReasonOf (Some r) = Some reason.
Hypothesis Hnonempty : reason <> "".

Lemma single_attempt_vertex :
  provider cfg = vertex ->
  completion (executeAttempt cfg w c ts a) =
  if decide (noBlockValue reason) then
    match extractedText r with
    | Some t => Normal t
    | None => Throw (newError "Failed to extract valid text response from vertex AI (non-streaming).")
    end
  else Throw (newError ("Vertex Content generation blocked. Reason: " ++ reason)).
Proof.
  intros Hp. unfold modelInUse in Hanswer. rewrite Hp in Hanswer.
  unfold executeAttempt, nonStreaming, vertexSingle, vertexModelInstance, extractedText.
  rewrite Hsingle, Hp.
  repeat (rewrite completion_bind; cbn [completion]).
  unfold callGenerateContent. cbn [completion model].
  assert (Hm : generateContent
                 (model (if truthyFlag (isGroundingRequested ts)
                         then {| entry := Preview;
                                 model := preview_getGenerativeModel (vertexClient w) (modelId cfg) |}
                         else {| entry := Default;
                                 model := getGenerativeModel (vertexClient w) (modelId cfg) |})) a
               = Normal {| response := Some r |})
    by (destruct (truthyFlag (isGroundingRequested ts)); exact Hanswer).
  rewrite Hm. cbn [response]. rewrite Hreason.
  rewrite (vertexBlocks_noBlockValue reason Hnonempty).
  destruct (decide (noBlockValue reason)) as [Hv|Hv].
  - rewrite bool_decide_eq_true_2 by exact Hv. cbn [negb completion mret Run_ret].
    destruct (firstPartText (firstCandidate (Some r))) as [[|ch t]|]; reflexivity.
  - rewrite bool_decide_eq_false_2 by exact Hv. reflexivity.
Qed.

Lemma single_attempt_gemini :
  provider cfg = gemini ->
  completion (executeAttempt cfg w c ts a) =
  Throw (newError ("Gemini Content generation blocked. Response Reason: " ++ reason)).
Proof.
  intros Hp. unfold modelInUse in Hanswer. rewrite Hp in Hanswer.
  unfold executeAttempt, nonStreaming, geminiSingle, geminiModelInstance.
  rewrite Hsingle, Hp.
  repeat (rewrite completion_bind; cbn [completion]).
  unfold tryCatch, callGenerateContent. cbn [completion model].
  rewrite Hanswer. cbn [completion response]. rewrite Hreason.
  rewrite (truthy_nonempty reason Hnonempty). reflexivity.
Qed.

End BlockReason.

Section BlockReasonClaim.
Import GenerativeClient Scenarios.

Lemma classify_not_retryable (e : JsError) :
  classify e <> Retryable -> isRetryable e = false.
Proof.
  unfold classify. destruct (isBlockingError e) eqn:Hb.
  - intros _. apply blocking_not_retryable. exact Hb.
  - destruct (isRetryable e); [congruence | reflexivity].
Qed.

(** The specification's reading of C5 fails on the Gemini provider: a
    response with the text "hello" and the block reason [OTHER] is refused
    as blocked. *)
Lemma no_block_values_never_block_fails : ~ noBlockValuesNeverBlock.
Proof.
  intros H.
  specialize (H (config gemini false 3 1000)
                (worldOf (scripted (fun _ => Normal (flagged "hello" "OTHER"))) half)
                [] None 0 (flagged "hello" "OTHER") "OTHER"
                (newError "Gemini Content generation blocked. Response Reason: OTHER")
                eq_refl eq_refl eq_refl (or_intror eq_refl) eq_refl).
  vm_compute in H. discriminate H.
Qed.

Example gemini_reason_other_is_blocked :
  callGenerativeAI (config gemini false 3 1000)
    (worldOf (scripted (fun _ => Normal (flagged "hello" "OTHER"))) half) [] None
  = ([Generate Default 0 (geminiRequest (config gemini false 3 1000) [])],
     Raised {| mcpCode := InternalError;
               mcpMessage := "Content generation blocked by gemini safety filters. Reason: OTHER" |}).
Proof. vm_compute. reflexivity. Qed.

Example vertex_reason_other_is_not_blocked :
  callGenerativeAI (config vertex false 3 1000)
    (worldOf (scripted (fun _ => Normal (flagged "hello" "OTHER"))) half) [] None
  = ([Generate Default 0 (vertexRequest (config vertex false 3 1000) [] None)],
     Returned "hello").
Proof. vm_compute. reflexivity. Qed.

(** C5, amended.  Take a non-streaming response that carries a non-empty
    response-level block reason, answered to attempt [a] of
    [callGenerativeAI].  On the vertex provider the call raises the
    blocked-content error carrying that reason exactly when the reason is
    neither [BLOCK_REASON_UNSPECIFIED] nor [OTHER]; with one of these two
    values the response is not treated as blocked: its text is returned,
    or, when it has none, the extraction failure (classified [Fatal]) is
    raised.  On the gemini provider every non-empty block reason raises
    the blocked-content error carrying that reason, these two values
    included. *)
Theorem block_reason_on_single_response
    (cfg : AIConfig) (w : World) (c : list Content) (ts : option (list Tool))
    (a : Z) (r : GenerateContentResponse) (reason : string) :
  useStreaming cfg = false ->
  a <= maxRetries cfg ->
  generateContent (modelInUse cfg w ts) a = Normal {| response := Some r |} ->
  blockReasonOf (Some r) = Some reason ->
  reason <> "" ->
  let blocked (e : JsError) :=
    ([invocationOf cfg w c ts a], Raised (finalError cfg e)) in
  let vertexBlock := newError ("Vertex Content generation blocked. Reason: " ++ reason) in
  let geminiBlock :=
    newError ("Gemini Content generation blocked. Response Reason: " ++ reason) in
  retryLoop cfg w c ts a =
    match provider cfg with
    | vertex =>
        if decide (noBlockValue reason) then
          match extractedText r with
          | Some t => ([invocationOf cfg w c ts a], Returned t)
          | None =>
              blocked (newError
                "Failed to extract valid text response from vertex AI (non-streaming).")
          end
        else blocked vertexBlock
    | gemini => blocked geminiBlock
    end
  /\ classify vertexBlock = ContentBlocked
  /\ classify geminiBlock = ContentBlocked
  /\ classify (newError "Failed to extract valid text response from vertex AI (non-streaming).")
     = Fatal.
Proof.
  intros Hs Ha Hans Hr Hne blocked vertexBlock geminiBlock.
  split; [|split; [apply blocked_vertex_classified |
                   split; [apply blocked_gemini_classified |
                           apply (extraction_failure_classified vertex)]]].
  destruct (provider cfg) eqn:Hp.
  - pose proof (single_attempt_vertex cfg w c ts a r reason Hs Hans Hr Hne Hp) as Hc.
    destruct (decide (noBlockValue reason)) as [Hv|Hv].
    + destruct (extractedText r) as [t|].
      * apply retryLoop_returns; assumption.
      * apply retryLoop_raises; [assumption | assumption |].
        rewrite classify_not_retryable; [reflexivity|].
        change (classify (newError ("Failed to extract valid text response from "
                  ++ providerName vertex ++ " AI (non-streaming).")) <> Retryable).
        rewrite (extraction_failure_classified vertex). discriminate.
    + apply retryLoop_raises; [assumption | assumption |].
      rewrite classify_not_retryable; [reflexivity|].
      unfold vertexBlock. rewrite blocked_vertex_classified. discriminate.
  - pose proof (single_attempt_gemini cfg w c ts a r reason Hs Hans Hr Hne Hp) as Hc.
    apply retryLoop_raises; [assumption | assumption |].
    rewrite classify_not_retryable; [reflexivity|].
    unfold geminiBlock. rewrite blocked_gemini_classified. discriminate.
Qed.

Lemma block_reason_on_single_response_witness :
  retryLoop (config vertex false 3 1000)
    (worldOf (scripted (fun _ => Normal (flagged "hello" "SAFETY"))) half) [] None 0
  = ([invocationOf (config vertex false 3 1000)
        (worldOf (scripted (fun _ => Normal (flagged "hello" "SAFETY"))) half) [] None 0],
     Raised (finalError (config vertex false 3 1000)
               (newError "Vertex Content generation blocked. Reason: SAFETY"))).
Proof.
  apply (block_reason_on_single_response
           (config vertex false 3 1000)
           (worldOf (scripted (fun _ => Normal (flagged "hello" "SAFETY"))) half)
           [] None 0 (flagged "hello" "SAFETY") "SAFETY").
  - reflexivity.
  - simpl. lia.
  - reflexivity.
  - reflexivity.
  - discriminate.
Defined.

(** The reason reaches the message of the final error: for a reason that
    is one line and does not begin with white space, the message ends with
    the reason itself. *)
Lemma blocked_message_carries_reason (p : AIProvider) (label reason : string) :
  reason <> "" ->
  Re.takeLine (Re.skipSpaces reason) = reason ->
  List.In label ["Vertex Content generation blocked. Reason: ";
                 "Gemini Content generation blocked. Response Reason: "] ->
  finalErrorMessage p (newError (label ++ reason))
  = "Content generation blocked by " ++ providerName p ++ " safety filters. Reason: "
      ++ reason.
Proof.
  intros Hne Hline Hl.
  assert (Hm : Re.matchReason (message (newError (label ++ reason)))
               = Some (Re.takeLine (Re.skipSpaces reason))).
  { destruct Hl as [<-|[<-|[]]]; vm_compute; reflexivity. }
  assert (Hb : isBlockingError (newError (label ++ reason)) = true).
  { destruct Hl as [<-|[<-|[]]]; vm_compute; reflexivity. }
  unfold finalErrorMessage. rewrite Hb, Hm, Hline.
  destruct reason; [congruence | reflexivity].
Qed.

Example blocked_message_safety :
  finalErrorMessage vertex (newError "Vertex Content generation blocked. Reason: SAFETY")
  = "Content generation blocked by vertex safety filters. Reason: SAFETY".
Proof. vm_compute. reflexivity. Qed.

End BlockReasonClaim.

Section VertexClientBlockReason.
Import Scenarios.

(** The companion of C5 for the Vertex-only client, whose check is the one
    of the vertex branch of [callGenerativeAI]. *)
Lemma vertex_client_block_reason
    (vertexAI : VertexAI) (safety : list SafetySetting) (c : list Content)
    (ts : option (list Tool)) (modelId : string) (temperature : Q)
    (maxOutputTokens : Z) (a : Z) (r : GenerateContentResponse) (reason : string) :
  generateContent (model (VertexClient.generativeModel vertexAI ts modelId)) a
    = Normal {| response := Some r |} ->
  blockReasonOf (Some r) = Some reason ->
  reason <> "" ->
  completion (VertexClient.executeAttempt vertexAI safety c ts modelId temperature
                false maxOutputTokens a) =
  if decide (noBlockValue reason) then
    match extractedText r with
    | Some t => Normal t
    | None => Throw (newError
                "Failed to extract valid text response from Vertex AI (non-streaming).")
    end
  else Throw (newError ("Content generation blocked. Reason: " ++ reason)).
Proof.
  intros Hans Hr Hne.
  unfold VertexClient.executeAttempt, VertexClient.nonStreaming, extractedText.
  repeat (rewrite completion_bind; cbn [completion]).
  unfold callGenerateContent. cbn [completion]. rewrite Hans. cbn [response].
  rewrite Hr, (vertexBlocks_noBlockValue reason Hne).
  destruct (decide (noBlockValue reason)) as [Hv|Hv].
  - rewrite bool_decide_eq_true_2 by exact Hv. cbn [negb].
    destruct (firstPartText (firstCandidate (Some r))) as [[|ch t]|]; reflexivity.
  - rewrite bool_decide_eq_false_2 by exact Hv. reflexivity.
Qed.

Lemma vertex_client_blocked_not_retryable (reason : string) :
  VertexClient.isBlockingError (newError ("Content generation blocked. Reason: " ++ reason))
    = true
  /\ VertexClient.isRetryable (newError ("Content generation blocked. Reason: " ++ reason))
    = false.
Proof. split; vm_compute; reflexivity. Qed.

Example vertex_client_reason_safety :
  VertexClient.callVertexAIWithOptionalFunctionCalling
    (vertexOf (scripted (fun _ => Normal (flagged "hello" "SAFETY"))))
    vertexSafetySettings [] None "gemini-2.5-pro-exp-03-25" 0 false 8192 3 1000
  = ([Generate Default 0 (VertexClient.req vertexSafetySettings [] None 0 8192)],
     Raised {| mcpCode := InternalError;
               mcpMessage := "Vertex AI API error: Content generation blocked. Reason: SAFETY" |}).
Proof. vm_compute. reflexivity. Qed.

End VertexClientBlockReason.

(* ===================================================================== *)
(** ** Web search: the entry point and the tools of the request *)
(* ===================================================================== *)

Section Grounding.
Import Scenarios.

(** Every event of a call of [callGenerativeAI] is a sleep or the
    invocation of one of its attempts. *)
Lemma retryLoop_events (cfg : AIConfig) (w : GenerativeClient.World) (c : list Content)
    (ts : option (list Tool)) (n : nat) : forall a : Z,
  Z.to_nat (maxRetries cfg + 1 - a) = n ->
  List.Forall (fun ev => isSleep ev = true \/ exists i, ev = invocationOf cfg w c ts i)
    (fst (GenerativeClient.retryLoop cfg w c ts a)).
Proof.
  induction n as [|n IH]; intros a Hn; rewrite retryLoop_step;
    destruct (Z.leb_spec a (maxRetries cfg)); try lia; try (constructor; fail).
  destruct (completion (GenerativeClient.executeAttempt cfg w c ts a)) as [t|e].
  - constructor; [right; eauto | constructor].
  - destruct (GenerativeClient.isRetryable e && (a <? maxRetries cfg))%bool; cbn [fst].
    + constructor; [right; eauto|]. constructor; [left; reflexivity|].
      apply IH. lia.
    + constructor; [right; eauto | constructor].
Qed.

Lemma filter_singleton_search (t : Tool) :
  List.existsb GenerativeClient.isSearchTool [t] = true ->
  List.filter GenerativeClient.isSearchTool [t] = [t].
Proof. cbn. destruct (GenerativeClient.isSearchTool t); [reflexivity | discriminate]. Qed.

(** With a search declaration in a non-empty list, the vertex request keeps
    the search declarations and nothing else. *)
Lemma filteredToolsForVertex_search (l : list Tool) :
  List.existsb GenerativeClient.isSearchTool l = true ->
  GenerativeClient.filteredToolsForVertex vertex (Some l)
  = Some (List.filter GenerativeClient.isSearchTool l).
Proof.
  intros Hs. unfold GenerativeClient.filteredToolsForVertex.
  cbn [AIProvider_eqb andb GenerativeClient.isDefined GenerativeClient.isGroundingRequested
         GenerativeClient.truthyFlag].
  rewrite Hs. cbn [andb].
  destruct (Z.ltb_spec 1 (Z.of_nat (List.length l))) as [Hl|Hl]; [reflexivity|].
  destruct l as [|t [|t' l]]; [discriminate | | cbn [List.length] in Hl; lia].
  rewrite (filter_singleton_search t Hs). reflexivity.
Qed.

(** The specification's reading of C8 fails on the Vertex-only client,
    which hands the tool list to the provider as it received it. *)
Lemma search_requests_keep_only_search_fails : ~ searchRequestsKeepOnlySearch.
Proof.
  intros H.
  destruct (H vertexSafetySettings [] [googleSearchTool; functionTool] 0%Q 8192 eq_refl)
    as (kept & Hk & Hall).
  cbn in Hk. injection Hk as <-. vm_compute in Hall. discriminate Hall.
Qed.

Example vertex_client_sends_every_tool :
  List.map toolsOf
    (fst (VertexClient.callVertexAIWithOptionalFunctionCalling
            (vertexOf (scripted (fun _ => Normal (textResponse "answer" None None))))
            vertexSafetySettings [] (Some [googleSearchTool; functionTool])
            "gemini-2.5-pro-exp-03-25" 0 false 8192 3 1000))
  = [Some [googleSearchTool; functionTool]].
Proof. vm_compute. reflexivity. Qed.

(** C8, amended.  On the vertex provider, when the tool list of
    [callGenerativeAI] holds a declaration carrying [googleSearchRetrieval],
    every invocation of the call goes through the preview entry point and
    its request keeps the declarations carrying [googleSearchRetrieval] and
    drops all the others.  [callVertexAIWithOptionalFunctionCalling], when
    its list holds a declaration with the key [googleSearch], also goes
    through the preview entry point, but its request carries the tool list
    unchanged. *)
Theorem search_selects_preview_entry
    (cfg : AIConfig) (w : GenerativeClient.World) (c : list Content) (l : list Tool) :
  provider cfg = vertex ->
  List.existsb GenerativeClient.isSearchTool l = true ->
  (option_map entry (GenerativeClient.vertexModelInstance cfg w (Some l)) = Some Preview
   /\ tools (GenerativeClient.vertexRequest cfg c (Some l))
      = Some (List.filter GenerativeClient.isSearchTool l)
   /\ List.Forall (fun t => GenerativeClient.isSearchTool t = true)
        (List.filter GenerativeClient.isSearchTool l)
   /\ List.Forall (fun ev => isSleep ev = true
                             \/ (entryOf ev = Some Preview
                                 /\ toolsOf ev = Some (List.filter GenerativeClient.isSearchTool l)))
        (fst (GenerativeClient.callGenerativeAI cfg w c (Some l))))
  /\ (forall (vertexAI : VertexAI) (safety : list SafetySetting) (l' : list Tool)
             (modelId : string) (temperature : Q) (maxOutputTokens : Z),
        List.existsb VertexClient.hasGoogleSearch l' = true ->
        entry (VertexClient.generativeModel vertexAI (Some l') modelId) = Preview
        /\ tools (VertexClient.req safety c (Some l') temperature maxOutputTokens) = Some l').
Proof.
  intros Hp Hs. split; [split; [|split; [|split]]|].
  - unfold GenerativeClient.vertexModelInstance. rewrite Hp.
    cbn [GenerativeClient.isGroundingRequested GenerativeClient.truthyFlag].
    rewrite Hs. reflexivity.
  - unfold GenerativeClient.vertexRequest. cbn [tools]. rewrite Hp.
    apply filteredToolsForVertex_search. exact Hs.
  - apply List.Forall_forall. intros t Ht. apply List.filter_In in Ht. tauto.
  - eapply List.Forall_impl;
      [|apply (retryLoop_events cfg w c (Some l) _ 0 eq_refl)].
    intros ev [Hsl | (i & ->)]; [left; exact Hsl | right].
    unfold invocationOf. rewrite Hp.
    cbn [GenerativeClient.isGroundingRequested GenerativeClient.truthyFlag].
    rewrite Hs.
    destruct (useStreaming cfg); cbn [entryOf toolsOf];
      (split; [reflexivity|]);
      unfold GenerativeClient.vertexRequest; cbn [tools]; rewrite Hp;
      apply filteredToolsForVertex_search; exact Hs.
  - intros vertexAI safety l' modelId temperature maxOutputTokens Hs'.
    unfold VertexClient.generativeModel.
    cbn [VertexClient.isGrounding GenerativeClient.truthyFlag]. rewrite Hs'.
    split; reflexivity.
Qed.

Lemma search_selects_preview_entry_witness :
  option_map entry
    (GenerativeClient.vertexModelInstance (config vertex true 3 1000)
       (worldOf answersOnThird half) (Some [functionTool; searchRetrievalTool]))
    = Some Preview
  /\ tools (GenerativeClient.vertexRequest (config vertex true 3 1000) []
             (Some [functionTool; searchRetrievalTool]))
     = Some [searchRetrievalTool].
Proof.
  destruct (search_selects_preview_entry (config vertex true 3 1000)
              (worldOf answersOnThird half) [] [functionTool; searchRetrievalTool]
              eq_refl eq_refl) as [(H1 & H2 & _) _].
  split; [exact H1 | exact H2].
Defined.

Example search_with_other_tools_trace :
  List.map (fun ev => (entryOf ev, toolsOf ev))
    (invocations
       (fst (GenerativeClient.callGenerativeAI (config vertex false 3 1000)
               (worldOf answersOnThird half) []
               (Some [functionTool; searchRetrievalTool]))))
  = [(Some Preview, Some [searchRetrievalTool]);
     (Some Preview, Some [searchRetrievalTool]);
     (Some Preview, Some [searchRetrievalTool])].
Proof. vm_compute. reflexivity. Qed.

(** What [getToolsForApi] builds for a web search carries the key
    [googleSearch]: the Vertex-only client reads it as a search request,
    and it is not a declaration carrying [googleSearchRetrieval]. *)
Example getToolsForApi_declaration :
  getToolsForApi false true = Some [googleSearchTool]
  /\ VertexClient.isGrounding (getToolsForApi false true) = Some true
  /\ GenerativeClient.isGroundingRequested (getToolsForApi false true) = Some false.
Proof. repeat split. Qed.

End Grounding.

(* ===================================================================== *)
(** ** Further properties of [callGenerativeAI] *)
(* ===================================================================== *)

Section CallOutcome.
Import GenerativeClient Scenarios Outcomes.

Variable cfg : AIConfig.
Variable w : World.
Variable c : list Content.
Variable ts : option (list Tool).

Lemma retried_cons (a : Z) (n : nat) :
  retried cfg w c ts a (S n)
  = invocationOf cfg w c ts a :: Sleep (retryDelay cfg w a) :: retried cfg w c ts (a + 1) n.
Proof. unfold retried. rewrite range_succ. reflexivity. Qed.

(** From attempt [a] on, the loop stops at the first attempt [k] that
    succeeds, or fails without a retryable signature, or is the last one. *)
Lemma retryLoop_decisive (n : nat) : forall a : Z,
  a <= maxRetries cfg ->
  Z.to_nat (maxRetries cfg - a) = n ->
  exists k, a <= k <= maxRetries cfg
    /\ (forall i, a <= i < k -> failsRetryably cfg w c ts i)
    /\ (k < maxRetries cfg -> ~ failsRetryably cfg w c ts k)
    /\ retryLoop cfg w c ts a =
       ((retried cfg w c ts a (Z.to_nat (k - a)) ++ [invocationOf cfg w c ts k])%list,
        outcomeOf cfg (completion (executeAttempt cfg w c ts k))).
Proof.
  induction n as [|n IH]; intros a Ha Hn.
  all: destruct (completion (executeAttempt cfg w c ts a)) as [t|e] eqn:E.
  all: try (exists a; split; [lia|]; split; [intros i Hi; lia|]; split;
            [intros _ (e' & He' & _); congruence|];
            rewrite (retryLoop_returns cfg w c ts a t Ha E), E, Z.sub_diag;
            reflexivity).
  - exists a. split; [lia|]. split; [intros i Hi; lia|]. split; [lia|].
    rewrite (retryLoop_raises cfg w c ts a e Ha E), E, Z.sub_diag; [reflexivity|].
    destruct (Z.ltb_spec a (maxRetries cfg)); [lia|]. apply andb_false_r.
  - destruct (isRetryable e && (a <? maxRetries cfg))%bool eqn:Hc.
    + apply andb_prop in Hc as [Hr Hlt]. apply Z.ltb_lt in Hlt.
      destruct (IH (a + 1) ltac:(lia) ltac:(lia)) as (k & Hk & Hbefore & Hdec & Hloop).
      exists k. split; [lia|]. split; [|split; [exact Hdec|]].
      * intros i Hi. destruct (Z.eq_dec i a) as [->|Hne].
        -- exists e. auto.
        -- apply Hbefore. lia.
      * rewrite (retryLoop_retries cfg w c ts a e Hlt E Hr), Hloop. cbn [fst snd].
        replace (Z.to_nat (k - a)) with (S (Z.to_nat (k - (a + 1)))) by lia.
        rewrite retried_cons. reflexivity.
    + exists a. split; [lia|]. split; [intros i Hi; lia|]. split.
      * intros Hlt (e' & He' & Hr'). rewrite E in He'. injection He' as <-.
        rewrite Hr' in Hc. apply Z.ltb_lt in Hlt. rewrite Hlt in Hc. discriminate.
      * rewrite (retryLoop_raises cfg w c ts a e Ha E Hc), E, Z.sub_diag. reflexivity.
Qed.

End CallOutcome.

Section CallOutcomeTheorems.
Import GenerativeClient Scenarios Outcomes.

(** X1.  With [maxRetries >= 0], every call of [callGenerativeAI] has this
    shape, whatever the provider does: the attempts [0, ..., k-1] fail with
    a retryable signature and are each followed by their sleep, then
    attempt [k <= maxRetries] is made and decides the call, which returns
    its text or raises the final error built from its failure; attempt [k]
    is the first that succeeds or fails without a retryable signature, or
    it is the last attempt. *)
Theorem call_ends_at_first_decisive_attempt
    (cfg : AIConfig) (w : World) (c : list Content) (ts : option (list Tool)) :
  0 <= maxRetries cfg ->
  exists k, 0 <= k <= maxRetries cfg
    /\ (forall i, 0 <= i < k -> failsRetryably cfg w c ts i)
    /\ (k < maxRetries cfg -> ~ failsRetryably cfg w c ts k)
    /\ callGenerativeAI cfg w c ts =
       ((retried cfg w c ts 0 (Z.to_nat k) ++ [invocationOf cfg w c ts k])%list,
        outcomeOf cfg (completion (executeAttempt cfg w c ts k)))
    /\ attempts (fst (callGenerativeAI cfg w c ts)) = range 0 (S (Z.to_nat k))
    /\ sleeps (fst (callGenerativeAI cfg w c ts))
       = List.map (retryDelay cfg w) (range 0 (Z.to_nat k)).
Proof.
  intros Hm.
  destruct (retryLoop_decisive cfg w c ts _ 0 Hm eq_refl)
    as (k & Hk & Hbefore & Hdec & Hloop).
  rewrite Z.sub_0_r in Hloop.
  exists k. split; [exact Hk|]. split; [exact Hbefore|]. split; [exact Hdec|].
  unfold callGenerativeAI. rewrite Hloop. cbn [fst]. split; [reflexivity|]. split.
  - rewrite attempts_app, attempts_retried, attempts_invocationOf, range_snoc.
    f_equal. f_equal. lia.
  - rewrite sleeps_app, sleeps_retried, sleeps_invocationOf, List.app_nil_r.
    reflexivity.
Qed.

Lemma call_ends_at_first_decisive_attempt_witness :
  exists k, 0 <= k <= 3
    /\ (forall i, 0 <= i < k ->
          failsRetryably (config vertex true 3 1000) (worldOf blockedOnSecond half) [] None i)
    /\ (k < 3 ->
          ~ failsRetryably (config vertex true 3 1000) (worldOf blockedOnSecond half) [] None k)
    /\ callGenerativeAI (config vertex true 3 1000) (worldOf blockedOnSecond half) [] None =
       ((retried (config vertex true 3 1000) (worldOf blockedOnSecond half) [] None 0 (Z.to_nat k)
           ++ [invocationOf (config vertex true 3 1000) (worldOf blockedOnSecond half) [] None k])%list,
        outcomeOf (config vertex true 3 1000)
          (completion (executeAttempt (config vertex true 3 1000)
                         (worldOf blockedOnSecond half) [] None k)))
    /\ attempts (fst (callGenerativeAI (config vertex true 3 1000)
                        (worldOf blockedOnSecond half) [] None)) = range 0 (S (Z.to_nat k))
    /\ sleeps (fst (callGenerativeAI (config vertex true 3 1000)
                      (worldOf blockedOnSecond half) [] None))
       = List.map (retryDelay (config vertex true 3 1000) (worldOf blockedOnSecond half))
           (range 0 (Z.to_nat k)).
Proof.
  apply (call_ends_at_first_decisive_attempt
           (config vertex true 3 1000) (worldOf blockedOnSecond half) [] None).
  simpl. lia.
Defined.

(** X2.  [callGenerativeAI] returns the text [t] exactly when some attempt
    [k <= maxRetries] yields [t] and every attempt before it failed with a
    retryable signature. *)
Theorem call_returns_iff
    (cfg : AIConfig) (w : World) (c : list Content) (ts : option (list Tool))
    (t : string) :
  snd (callGenerativeAI cfg w c ts) = Returned t
  <-> exists k, 0 <= k <= maxRetries cfg
        /\ (forall i, 0 <= i < k -> failsRetryably cfg w c ts i)
        /\ completion (executeAttempt cfg w c ts k) = Normal t.
Proof.
  split.
  - intros Hret.
    destruct (Z.le_gt_cases 0 (maxRetries cfg)) as [Hm|Hm].
    + destruct (retryLoop_decisive cfg w c ts _ 0 Hm eq_refl)
        as (k & Hk & Hbefore & _ & Hloop).
      unfold callGenerativeAI in Hret. rewrite Hloop in Hret. cbn [snd] in Hret.
      exists k. split; [exact Hk|]. split; [exact Hbefore|].
      destruct (completion (executeAttempt cfg w c ts k)); cbn in Hret;
        [congruence | discriminate].
    + unfold callGenerativeAI in Hret.
      rewrite retryLoop_exhausted in Hret by lia. discriminate.
  - intros (k & Hk & Hbefore & Hok). unfold callGenerativeAI.
    rewrite (retryLoop_retried cfg w c ts (Z.to_nat k) 0)
      by (try lia; intros i Hi; apply Hbefore; lia).
    replace (0 + Z.of_nat (Z.to_nat k)) with k by lia.
    rewrite (retryLoop_returns cfg w c ts k t); [reflexivity | lia | exact Hok].
Qed.

End CallOutcomeTheorems.

Section CallEdges.
Import GenerativeClient Scenarios Outcomes.

Lemma finalErrorMessage_head (p : AIProvider) (e : JsError) :
  headChar (finalErrorMessage p e) = Some "C"%char
  \/ headChar (finalErrorMessage p e) = Some "v"%char
  \/ headChar (finalErrorMessage p e) = Some "g"%char.
Proof.
  unfold finalErrorMessage.
  destruct (isBlockingError e).
  - left. destruct (Re.matchReason (message e)) as [[|ch r]|];
      try destruct (Re.test _ _); reflexivity.
  - right.
    destruct (Re.matchToken statusTokens None (errorMessageString e));
      [|destruct (Js.includes (errorMessageString e) "deadline_exceeded")];
      destruct p; auto.
Qed.

Lemma finalError_not_maxRetriesReached (cfg : AIConfig) (e : JsError) :
  finalError cfg e <> maxRetriesReached cfg.
Proof.
  intros H. apply (f_equal (fun m => headChar (mcpMessage m))) in H.
  cbn [finalError mcpMessage] in H.
  change (headChar (mcpMessage (maxRetriesReached cfg))) with (Some "M"%char) in H.
  destruct (finalErrorMessage_head (provider cfg) e) as [H'|[H'|H']];
    rewrite H' in H; discriminate.
Qed.

(** X3.  [callGenerativeAI] makes no attempt at all exactly when
    [maxRetries] is negative, and that is the only case in which it raises
    the error "Max retries (n) reached": with [maxRetries >= 0] the [throw]
    after the loop is never reached. *)
Theorem max_retries_error_iff_negative
    (cfg : AIConfig) (w : World) (c : list Content) (ts : option (list Tool)) :
  (fst (callGenerativeAI cfg w c ts) = [] <-> maxRetries cfg < 0)
  /\ (snd (callGenerativeAI cfg w c ts) = Raised (maxRetriesReached cfg)
      <-> maxRetries cfg < 0).
Proof.
  destruct (Z.le_gt_cases 0 (maxRetries cfg)) as [Hm|Hm].
  - destruct (retryLoop_decisive cfg w c ts _ 0 Hm eq_refl) as (k & _ & _ & _ & Hloop).
    unfold callGenerativeAI. rewrite Hloop. cbn [fst snd]. split; split; try lia.
    + intros H. apply List.app_eq_nil in H as [_ H]. discriminate.
    + destruct (completion (executeAttempt cfg w c ts k)) as [t|e]; cbn;
        [discriminate|].
      intros H. injection H as H. exfalso.
      apply (finalError_not_maxRetriesReached cfg e).
      unfold finalError, maxRetriesReached. f_equal. exact H.
  - unfold callGenerativeAI. rewrite retryLoop_exhausted by lia. cbn [fst snd].
    split; split; intros _; try reflexivity; lia.
Qed.

Example negative_max_retries :
  callGenerativeAI (config vertex true (-1) 1000) (worldOf answersOnThird half) [] None
  = ([], Raised {| mcpCode := InternalError;
                   mcpMessage := "Max retries (0) reached for vertex LLM call without success." |}).
Proof. vm_compute. reflexivity. Qed.

(** X4.  On the gemini provider no invocation of [callGenerativeAI] ever
    carries tools, whatever the tool list of the call: every request is the
    Gemini request, with contents, generation parameters and the Gemini
    safety table only. *)
Theorem gemini_requests_carry_no_tools
    (cfg : AIConfig) (w : World) (c : list Content) (ts : option (list Tool)) :
  provider cfg = gemini ->
  List.Forall
    (fun ev => isSleep ev = true
               \/ (requestOf ev = Some (geminiRequest cfg c) /\ toolsOf ev = None
                   /\ entryOf ev = Some Default))
    (fst (callGenerativeAI cfg w c ts)).
Proof.
  intros Hp.
  eapply List.Forall_impl; [|apply (retryLoop_events cfg w c ts _ 0 eq_refl)].
  intros ev [Hs | (i & ->)]; [left; exact Hs | right].
  unfold invocationOf. rewrite Hp. destruct (useStreaming cfg); repeat split.
Qed.

Lemma gemini_requests_carry_no_tools_witness :
  List.Forall
    (fun ev => isSleep ev = true
               \/ (requestOf ev = Some (geminiRequest (config gemini true 3 1000) [])
                   /\ toolsOf ev = None /\ entryOf ev = Some Default))
    (fst (callGenerativeAI (config gemini true 3 1000) (worldOf answersOnThird half) []
            (Some [functionTool; searchRetrievalTool]))).
Proof.
  apply (gemini_requests_carry_no_tools (config gemini true 3 1000)
           (worldOf answersOnThird half) [] (Some [functionTool; searchRetrievalTool])).
  reflexivity.
Defined.

(** X5.  On the vertex provider, when no declaration of the tool list
    carries [googleSearchRetrieval] (or there is no tool list), every
    invocation of [callGenerativeAI] goes through the default entry point
    and its request carries the tool list exactly as the caller gave it. *)
Theorem vertex_without_search_sends_tools_unchanged
    (cfg : AIConfig) (w : World) (c : list Content) (ts : option (list Tool)) :
  provider cfg = vertex ->
  truthyFlag (isGroundingRequested ts) = false ->
  List.Forall
    (fun ev => isSleep ev = true \/ (entryOf ev = Some Default /\ toolsOf ev = ts))
    (fst (callGenerativeAI cfg w c ts)).
Proof.
  intros Hp Hg.
  eapply List.Forall_impl; [|apply (retryLoop_events cfg w c ts _ 0 eq_refl)].
  intros ev [Hs | (i & ->)]; [left; exact Hs | right].
  unfold invocationOf. rewrite Hp, Hg.
  assert (Ht : tools (vertexRequest cfg c ts) = ts).
  { unfold vertexRequest. cbn [tools]. rewrite Hp. unfold filteredToolsForVertex.
    rewrite Hg. destruct ts; reflexivity. }
  destruct (useStreaming cfg); cbn [entryOf toolsOf]; rewrite Ht; split; reflexivity.
Qed.

Lemma vertex_without_search_sends_tools_unchanged_witness :
  List.Forall
    (fun ev => isSleep ev = true
               \/ (entryOf ev = Some Default
                   /\ toolsOf ev = Some [functionTool]))
    (fst (callGenerativeAI (config vertex false 3 1000) (worldOf answersOnThird half) []
            (Some [functionTool]))).
Proof.
  apply (vertex_without_search_sends_tools_unchanged (config vertex false 3 1000)
           (worldOf answersOnThird half) [] (Some [functionTool]));
    reflexivity.
Defined.

(** X6.  The text [finalErrorMessage] that the [catch] block builds and
    hands to [new McpError] as its message argument tells a content block
    from every other failure: it begins with "Content generation blocked
    by " exactly when the failure was classified as blocking.  This is the
    argument of the constructor ([mcpMessage]), not the [message] property
    of the error that is raised, before which the constructor of the SDK
    puts a prefix of its own. *)
Theorem final_message_marks_blocked (p : AIProvider) (e : JsError) :
  Js.startsWith (finalErrorMessage p e) "Content generation blocked by "
  = isBlockingError e.
Proof.
  destruct (isBlockingError e) eqn:Hb.
  - apply finalErrorMessage_blocked. exact Hb.
  - unfold finalErrorMessage. rewrite Hb.
    destruct (Re.matchToken statusTokens None (errorMessageString e));
      [|destruct (Js.includes (errorMessageString e) "deadline_exceeded")];
      destruct p; reflexivity.
Qed.

End CallEdges.

Section StreamLoop.
Import GenerativeClient Scenarios Outcomes.

Lemma forAwait_step {S} (body : S -> GenerateContentResponse -> Run S)
    (x : GenerateContentResponse) (xs : list GenerateContentResponse)
    (failure : option JsError) (acc acc' : S) :
  body acc x = mkRun [] (Normal acc') ->
  forAwait body (x :: xs) failure acc = forAwait body xs failure acc'.
Proof.
  intros H. cbn [forAwait]. unfold mbind, Run_bind. rewrite H. cbn [completion events].
  destruct (forAwait body xs failure acc'); reflexivity.
Qed.

Lemma forAwait_stop {S} (body : S -> GenerateContentResponse -> Run S)
    (x : GenerateContentResponse) (xs : list GenerateContentResponse)
    (failure : option JsError) (acc : S) (e : JsError) :
  body acc x = mkRun [] (Throw e) ->
  forAwait body (x :: xs) failure acc = mkRun [] (Throw e).
Proof.
  intros H. cbn [forAwait]. unfold mbind, Run_bind. rewrite H. reflexivity.
Qed.

Lemma geminiChunkStep_readable (acc t : string) (ch : GenerateContentResponse) :
  textAccessor ch = Normal t -> geminiChunkStep acc ch = mkRun [] (Normal (acc ++ t)).
Proof. intros H. unfold geminiChunkStep. rewrite H. reflexivity. Qed.

Lemma geminiChunkStep_skipped (acc : string) (ch : GenerateContentResponse) (e : JsError) :
  textAccessor ch = Throw e -> messageIncludes e "safety" = false ->
  geminiChunkStep acc ch = mkRun [] (Normal acc).
Proof.
  intros H Hs. unfold geminiChunkStep. rewrite H.
  unfold tryCatch, mbind, Run_bind, await. cbn [completion events]. rewrite Hs.
  reflexivity.
Qed.

Lemma geminiChunkStep_blocked (acc : string) (ch : GenerateContentResponse) (e : JsError) :
  textAccessor ch = Throw e -> messageIncludes e "safety" = true ->
  geminiChunkStep acc ch
  = mkRun [] (Throw (newError ("Gemini Content generation blocked during stream. Reason: "
                                 ++ message e))).
Proof.
  intros H Hs. unfold geminiChunkStep. rewrite H.
  unfold tryCatch, mbind, Run_bind, await. cbn [completion events]. rewrite Hs.
  reflexivity.
Qed.

(** The Gemini loop appends the texts of the readable chunks and passes
    over the others, as long as none fails with a safety message. *)
Lemma gemini_loop_skips (chunks : list GenerateContentResponse) : forall acc : string,
  noSafetyFailure chunks ->
  forAwait geminiChunkStep chunks None acc
  = mkRun [] (Normal (acc ++ String.concat "" (readableTexts chunks))).
Proof.
  induction chunks as [|ch chunks IH]; intros acc Hs.
  - cbn. rewrite append_nil_r. reflexivity.
  - inversion Hs as [|? ? Hch Hrest]; subst.
    unfold readableTexts. cbn [List.flat_map]. fold (readableTexts chunks).
    destruct (textAccessor ch) as [t|e] eqn:E.
    + rewrite (forAwait_step _ _ _ _ _ _ (geminiChunkStep_readable acc t ch E)).
      rewrite (IH _ Hrest).
      change ([t] ++ readableTexts chunks)%list with (t :: readableTexts chunks).
      rewrite concat_cons, append_assoc. reflexivity.
    + rewrite (forAwait_step _ _ _ _ _ _ (geminiChunkStep_skipped acc ch e E Hch)).
      rewrite (IH _ Hrest). reflexivity.
Qed.

(** At the first chunk that fails with a safety message the loop stops with
    the blocked-content error; the chunks after it are not read. *)
Lemma gemini_loop_blocks (pre post : list GenerateContentResponse)
    (bad : GenerateContentResponse) (e : JsError) (failure : option JsError) :
  forall acc : string,
  noSafetyFailure pre ->
  textAccessor bad = Throw e ->
  messageIncludes e "safety" = true ->
  forAwait geminiChunkStep (pre ++ bad :: post) failure acc
  = mkRun [] (Throw (newError ("Gemini Content generation blocked during stream. Reason: "
                                 ++ message e))).
Proof.
  induction pre as [|ch pre IH]; intros acc Hs Hbad Hsafe.
  - cbn [app]. apply forAwait_stop, geminiChunkStep_blocked; assumption.
  - inversion Hs as [|? ? Hch Hrest]; subst. cbn [app].
    destruct (textAccessor ch) as [t|e'] eqn:E.
    + rewrite (forAwait_step _ _ _ _ _ _ (geminiChunkStep_readable acc t ch E)).
      apply IH; assumption.
    + rewrite (forAwait_step _ _ _ _ _ _ (geminiChunkStep_skipped acc ch e' E Hch)).
      apply IH; assumption.
Qed.

(** A stream that breaks makes the loop throw the failure of the stream:
    the text accumulated so far is dropped. *)
Lemma vertex_loop_breaks (chunks : list GenerateContentResponse) (e : JsError) :
  forall acc : string,
  forAwait vertexChunkStep chunks (Some e) acc = mkRun [] (Throw e).
Proof.
  induction chunks as [|ch chunks IH]; intros acc; [reflexivity|].
  assert (Hstep : exists acc', vertexChunkStep acc ch = mkRun [] (Normal acc'))
    by (unfold vertexChunkStep; destruct (firstPartText _); eauto).
  destruct Hstep as (acc' & Hstep).
  rewrite (forAwait_step _ _ _ _ _ _ Hstep). apply IH.
Qed.

Lemma gemini_loop_breaks (chunks : list GenerateContentResponse) (e : JsError) :
  forall acc : string,
  noSafetyFailure chunks ->
  forAwait geminiChunkStep chunks (Some e) acc = mkRun [] (Throw e).
Proof.
  induction chunks as [|ch chunks IH]; intros acc Hs; [reflexivity|].
  inversion Hs as [|? ? Hch Hrest]; subst.
  destruct (textAccessor ch) as [t|e'] eqn:E.
  - rewrite (forAwait_step _ _ _ _ _ _ (geminiChunkStep_readable acc t ch E)).
    apply IH; assumption.
  - rewrite (forAwait_step _ _ _ _ _ _ (geminiChunkStep_skipped acc ch e' E Hch)).
    apply IH; assumption.
Qed.

Variable cfg : AIConfig.
Variable w : World.
Variable c : list Content.
Variable ts : option (list Tool).
Variable a : Z.
Variable sr : GenerateContentStreamResult.

Hypothesis Hstream : useStreaming cfg = true.
Hypothesis Hanswer : generateContentStream (modelInUse cfg w ts) a = Normal sr.

(** The Gemini streaming attempt, up to the loop. *)
Lemma gemini_stream_attempt :
  provider cfg = gemini ->
  completion (executeAttempt cfg w c ts a) =
  match completion (forAwait geminiChunkStep (chunks sr) (streamFailure sr) "") with
  | Throw e => Throw e
  | Normal accumulatedText =>
      match aggregated sr with
      | Throw e =>
          if messageIncludes e "safety" then
            Throw (newError ("Gemini Content generation blocked aggregating response. Reason: "
                               ++ message e))
          else Throw e
      | Normal agg =>
          if Js.truthy (blockReasonOf agg) then
            Throw (newError ("Gemini Content generation blocked. Aggregated Reason: "
                               ++ interpolate (blockReasonOf agg)))
          else if strictEq (finishReasonOf agg) "SAFETY" then
            Throw (newError "Gemini Content generation blocked. Aggregated Finish Reason: SAFETY")
          else
            match extractFromAggregate cfg accumulatedText agg with
            | EmptyString =>
                Throw (newError "Received empty or non-text response from gemini AI stream.")
            | String ch t => Normal (String ch t)
            end
      end
  end.
Proof.
  intros Hp. unfold modelInUse in Hanswer. rewrite Hp in Hanswer.
  unfold executeAttempt, streaming, geminiStream, geminiModelInstance.
  rewrite Hstream, Hp.
  repeat (rewrite completion_bind; cbn [completion]).
  unfold callGenerateContentStream. cbn [completion model]. rewrite Hanswer.
  change (forAwait _ (chunks sr) (streamFailure sr) "")
    with (forAwait geminiChunkStep (chunks sr) (streamFailure sr) "").
  cbn [completion]. rewrite completion_bind.
  destruct (completion (forAwait geminiChunkStep (chunks sr) (streamFailure sr) ""))
    as [acc|e]; [|reflexivity].
  repeat (rewrite completion_bind; cbn [completion]).
  unfold tryCatch, await. cbn [completion].
  destruct (aggregated sr) as [agg|e]; cbn [completion].
  - destruct (Js.truthy (blockReasonOf agg)); [reflexivity|].
    destruct (strictEq (finishReasonOf agg) "SAFETY"); [reflexivity|].
    cbn [completion mret Run_ret].
    destruct (extractFromAggregate cfg acc agg); reflexivity.
  - destruct (messageIncludes e "safety"); reflexivity.
Qed.

(** The Vertex streaming attempt, when the loop throws. *)
Lemma vertex_stream_attempt_throws (e : JsError) :
  provider cfg = vertex ->
  completion (forAwait vertexChunkStep (chunks sr) (streamFailure sr) "") = Throw e ->
  completion (executeAttempt cfg w c ts a) = Throw e.
Proof.
  intros Hp Hloop. unfold modelInUse in Hanswer. rewrite Hp in Hanswer.
  unfold executeAttempt, streaming, vertexStream, vertexModelInstance.
  rewrite Hstream, Hp.
  repeat (rewrite completion_bind; cbn [completion]).
  unfold callGenerateContentStream. cbn [completion model].
  assert (Hm : generateContentStream
                 (model (if truthyFlag (isGroundingRequested ts)
                         then {| entry := Preview;
                                 model := preview_getGenerativeModel (vertexClient w) (modelId cfg) |}
                         else {| entry := Default;
                                 model := getGenerativeModel (vertexClient w) (modelId cfg) |})) a
               = Normal sr)
    by (destruct (truthyFlag (isGroundingRequested ts)); exact Hanswer).
  rewrite Hm. cbn [completion]. rewrite completion_bind.
  change (forAwait _ (chunks sr) (streamFailure sr) "")
    with (forAwait vertexChunkStep (chunks sr) (streamFailure sr) "").
  rewrite Hloop. reflexivity.
Qed.

End StreamLoop.

Section StreamTheorems.
Import GenerativeClient Scenarios Outcomes.

(** X7.  In a Gemini streaming attempt a chunk whose [text()] accessor
    throws (without a safety message) is passed over: when the stream ends
    normally and its aggregated response passes the block checks, the
    attempt yields the texts of the readable chunks, appended in order. *)
Theorem gemini_stream_skips_unreadable_chunks
    (cfg : AIConfig) (w : World) (c : list Content) (ts : option (list Tool))
    (a : Z) (sr : GenerateContentStreamResult) (agg : option GenerateContentResponse) :
  provider cfg = gemini ->
  useStreaming cfg = true ->
  generateContentStream (modelInUse cfg w ts) a = Normal sr ->
  streamFailure sr = None ->
  noSafetyFailure (chunks sr) ->
  aggregated sr = Normal agg ->
  Js.truthy (blockReasonOf agg) = false ->
  strictEq (finishReasonOf agg) "SAFETY" = false ->
  String.concat "" (readableTexts (chunks sr)) <> "" ->
  completion (executeAttempt cfg w c ts a)
  = Normal (String.concat "" (readableTexts (chunks sr))).
Proof.
  intros Hp Hs Hans Hf Hsafe Hagg Hb Hfin Hne.
  rewrite (gemini_stream_attempt cfg w c ts a sr Hs Hans Hp).
  rewrite Hf, (gemini_loop_skips (chunks sr) "" Hsafe). cbn [completion].
  rewrite Hagg, Hb, Hfin.
  change ("" ++ String.concat "" (readableTexts (chunks sr)))
    with (String.concat "" (readableTexts (chunks sr))).
  unfold extractFromAggregate.
  destruct (String.concat "" (readableTexts (chunks sr))); [congruence | reflexivity].
Qed.

Lemma gemini_stream_skips_unreadable_chunks_witness :
  completion (executeAttempt (config gemini true 3 1000) (worldOf patchyModel half) [] None 0)
  = Normal "Hello".
Proof.
  apply (gemini_stream_skips_unreadable_chunks
           (config gemini true 3 1000) (worldOf patchyModel half) [] None 0 patchyStream
           (Some (textResponse "Hello" None (Some "STOP")))).
  - reflexivity.
  - reflexivity.
  - reflexivity.
  - reflexivity.
  - repeat constructor.
  - reflexivity.
  - reflexivity.
  - reflexivity.
  - vm_compute. discriminate.
Defined.

Lemma blocked_during_stream_classified (m : string) :
  isBlockingError
    (newError ("Gemini Content generation blocked during stream. Reason: " ++ m)) = true.
Proof. vm_compute. reflexivity. Qed.

(** X8.  In a Gemini streaming attempt the first chunk whose [text()]
    accessor throws with a message that mentions safety ends the call: the
    chunks after it are not read, the text accumulated so far is dropped,
    and the call raises the blocked-content error at once, without a
    retry. *)
Theorem gemini_stream_safety_chunk_blocks
    (cfg : AIConfig) (w : World) (c : list Content) (ts : option (list Tool))
    (a : Z) (sr : GenerateContentStreamResult)
    (pre post : list GenerateContentResponse) (bad : GenerateContentResponse)
    (e : JsError) :
  provider cfg = gemini ->
  useStreaming cfg = true ->
  a <= maxRetries cfg ->
  generateContentStream (modelInUse cfg w ts) a = Normal sr ->
  chunks sr = (pre ++ bad :: post)%list ->
  noSafetyFailure pre ->
  textAccessor bad = Throw e ->
  messageIncludes e "safety" = true ->
  let blocked :=
    newError ("Gemini Content generation blocked during stream. Reason: " ++ message e) in
  completion (executeAttempt cfg w c ts a) = Throw blocked
  /\ retryLoop cfg w c ts a = ([invocationOf cfg w c ts a], Raised (finalError cfg blocked))
  /\ Js.startsWith (mcpMessage (finalError cfg blocked)) "Content generation blocked by "
     = true.
Proof.
  intros Hp Hs Ha Hans Hch Hpre Hbad Hsafe blocked.
  assert (Hc : completion (executeAttempt cfg w c ts a) = Throw blocked).
  { rewrite (gemini_stream_attempt cfg w c ts a sr Hs Hans Hp), Hch.
    rewrite (gemini_loop_blocks pre post bad e _ "" Hpre Hbad Hsafe). reflexivity. }
  split; [exact Hc|]. split.
  - apply retryLoop_raises; [exact Ha | exact Hc |].
    rewrite (blocking_not_retryable blocked); [reflexivity|].
    apply blocked_during_stream_classified.
  - apply finalErrorMessage_blocked, blocked_during_stream_classified.
Qed.

Lemma gemini_stream_safety_chunk_blocks_witness :
  retryLoop (config gemini true 3 1000) (worldOf blockedMidStreamModel half) [] None 0
  = ([invocationOf (config gemini true 3 1000) (worldOf blockedMidStreamModel half) [] None 0],
     Raised (finalError (config gemini true 3 1000)
               (newError ("Gemini Content generation blocked during stream. Reason: "
                            ++ "Candidate was blocked due to SAFETY")))).
Proof.
  apply (gemini_stream_safety_chunk_blocks
           (config gemini true 3 1000) (worldOf blockedMidStreamModel half) [] None 0
           blockedMidStream [textResponse "Hel" None None] [textResponse "lo" None None]
           safetyChunk (newError "Candidate was blocked due to SAFETY")).
  - reflexivity.
  - reflexivity.
  - simpl. lia.
  - reflexivity.
  - reflexivity.
  - repeat constructor.
  - reflexivity.
  - vm_compute. reflexivity.
Defined.

(** X9.  When the stream itself breaks after some chunks, the streaming
    attempt fails with the failure of the stream and the text accumulated
    from the chunks is dropped: no partial text is ever returned.  (On the
    gemini provider, provided no chunk before the break failed with a
    safety message, which would have ended the attempt first.) *)
Theorem broken_stream_drops_partial_text
    (cfg : AIConfig) (w : World) (c : list Content) (ts : option (list Tool))
    (a : Z) (sr : GenerateContentStreamResult) (e : JsError) :
  useStreaming cfg = true ->
  generateContentStream (modelInUse cfg w ts) a = Normal sr ->
  streamFailure sr = Some e ->
  (provider cfg = gemini -> noSafetyFailure (chunks sr)) ->
  completion (executeAttempt cfg w c ts a) = Throw e.
Proof.
  intros Hs Hans Hf Hsafe. destruct (provider cfg) eqn:Hp.
  - apply (vertex_stream_attempt_throws cfg w c ts a sr Hs Hans e Hp).
    rewrite Hf, vertex_loop_breaks. reflexivity.
  - rewrite (gemini_stream_attempt cfg w c ts a sr Hs Hans Hp), Hf.
    rewrite (gemini_loop_breaks (chunks sr) e "" (Hsafe eq_refl)). reflexivity.
Qed.

Lemma broken_stream_drops_partial_text_witness :
  completion (executeAttempt (config vertex true 3 1000) (worldOf brokenStreamModel half)
                [] None 0)
  = Throw (newError "socket closed").
Proof.
  apply (broken_stream_drops_partial_text
           (config vertex true 3 1000) (worldOf brokenStreamModel half) [] None 0
           brokenStream (newError "socket closed")).
  - reflexivity.
  - reflexivity.
  - reflexivity.
  - intros H. discriminate H.
Defined.

End StreamTheorems.

(* ===================================================================== *)
(** ** Further properties of [callVertexAIWithOptionalFunctionCalling] *)
(* ===================================================================== *)

Section VertexCallOutcome.
Import VertexClient Outcomes.

Variable vertexAI : VertexAI.
Variable safety : list SafetySetting.
Variable c : list Content.
Variable ts : option (list Tool).
Variable modelId : string.
Variable temperature : Q.
Variable stream : bool.
Variable maxOutputTokens : Z.
Variable maxRetries : Z.
Variable retryDelayMs : Z.

Let attempt := executeAttempt vertexAI safety c ts modelId temperature stream maxOutputTokens.
Let loop := vertexRetryLoop vertexAI safety c ts modelId temperature stream
              maxOutputTokens maxRetries retryDelayMs.
Let invocation := vertexInvocationOf vertexAI safety c ts modelId temperature stream
                    maxOutputTokens.
Let retriedFrom (a : Z) (n : nat) : list Event :=
  List.flat_map (fun i => [invocation i; Sleep (retryDelay retryDelayMs i)]) (range a n).
Let failsRetryablyAt (i : Z) : Prop :=
  exists e, completion (attempt i) = Throw e /\ isRetryable e = true.

Lemma vertexRetryLoop_decisive (n : nat) : forall a : Z,
  a <= maxRetries ->
  Z.to_nat (maxRetries - a) = n ->
  exists k, a <= k <= maxRetries
    /\ (forall i, a <= i < k -> failsRetryablyAt i)
    /\ (k < maxRetries -> ~ failsRetryablyAt k)
    /\ loop a = ((retriedFrom a (Z.to_nat (k - a)) ++ [invocation k])%list,
                 vertexOutcomeOf (completion (attempt k))).
Proof.
  induction n as [|n IH]; intros a Ha Hn.
  all: pose proof (vertexRetryLoop_step vertexAI safety c ts modelId temperature stream
                     maxOutputTokens maxRetries retryDelayMs a) as Hstep.
  all: fold loop attempt invocation in Hstep.
  all: destruct (Z.leb_spec a maxRetries); [|lia].
  all: destruct (completion (attempt a)) as [t|e] eqn:E.
  all: try (exists a; split; [lia|]; split; [intros i Hi; lia|]; split;
            [intros _ (e' & He' & _); congruence|];
            rewrite Hstep, E, Z.sub_diag; reflexivity).
  - exists a. split; [lia|]. split; [intros i Hi; lia|]. split; [lia|].
    destruct (Z.ltb_spec a maxRetries); [lia|]. rewrite andb_false_r in Hstep.
    rewrite Hstep, E, Z.sub_diag. reflexivity.
  - destruct (isRetryable e && (a <? maxRetries))%bool eqn:Hc.
    + apply andb_prop in Hc as [Hr Hlt]. apply Z.ltb_lt in Hlt.
      destruct (IH (a + 1) ltac:(lia) ltac:(lia)) as (k & Hk & Hbefore & Hdec & Hloop).
      exists k. split; [lia|]. split; [|split; [exact Hdec|]].
      * intros i Hi. destruct (Z.eq_dec i a) as [->|Hne].
        -- exists e. auto.
        -- apply Hbefore. lia.
      * rewrite Hstep, Hloop. cbn [fst snd].
        replace (Z.to_nat (k - a)) with (S (Z.to_nat (k - (a + 1)))) by lia.
        unfold retriedFrom. rewrite range_succ. reflexivity.
    + exists a. split; [lia|]. split; [intros i Hi; lia|]. split.
      * intros Hlt (e' & He' & Hr'). rewrite E in He'. injection He' as <-.
        rewrite Hr' in Hc. apply Z.ltb_lt in Hlt. rewrite Hlt in Hc. discriminate.
      * rewrite Hstep, E, Z.sub_diag. reflexivity.
Qed.

Lemma vertex_executeAttempt_nonempty (a : Z) (t : string) :
  completion (attempt a) = Normal t -> t <> "".
Proof.
  unfold attempt, executeAttempt. intros H.
  apply completion_bind_normal in H as (r & Hr & H).
  assert (Hne : exists ch t', r = Some (String ch t')).
  { destruct stream.
    - unfold streaming in Hr.
      apply completion_bind_normal in Hr as (sr & _ & Hr).
      apply completion_bind_normal in Hr as (acc & _ & Hr).
      apply completion_bind_normal in Hr as (final & _ & Hr).
      cbv zeta in Hr.
      destruct (GenerativeClient.vertexBlocks _); [discriminate|].
      match type of Hr with
      | completion (match ?x with _ => _ end) = _ => destruct x as [|ch t']
      end; [discriminate|].
      injection Hr as <-. eauto.
    - unfold nonStreaming in Hr.
      apply completion_bind_normal in Hr as (res & _ & Hr).
      cbv zeta in Hr.
      destruct (GenerativeClient.vertexBlocks _); [discriminate|].
      destruct (firstPartText _) as [[|ch t']|]; try discriminate.
      injection Hr as <-. eauto. }
  destruct Hne as (ch & t' & ->). cbn in H. injection H as <-. discriminate.
Qed.

Lemma vertexRetryLoop_events (n : nat) : forall a : Z,
  Z.to_nat (maxRetries + 1 - a) = n ->
  List.Forall (fun ev => isSleep ev = true \/ exists i, ev = invocation i) (fst (loop a)).
Proof.
  induction n as [|n IH]; intros a Hn.
  all: pose proof (vertexRetryLoop_step vertexAI safety c ts modelId temperature stream
                     maxOutputTokens maxRetries retryDelayMs a) as Hstep.
  all: fold loop attempt invocation in Hstep; rewrite Hstep.
  all: destruct (Z.leb_spec a maxRetries); try lia; try (constructor; fail).
  destruct (completion (attempt a)) as [t|e].
  - constructor; [right; eauto | constructor].
  - destruct (isRetryable e && (a <? maxRetries))%bool; cbn [fst].
    + constructor; [right; eauto|]. constructor; [left; reflexivity|].
      apply IH. lia.
    + constructor; [right; eauto | constructor].
Qed.

End VertexCallOutcome.

Section VertexCallTheorems.
Import VertexClient Outcomes Scenarios.



(** X11.  A text that [callVertexAIWithOptionalFunctionCalling] returns is
    never the empty string, in either mode. *)
Theorem vertex_client_returned_text_nonempty
    (vertexAI : VertexAI) (safety : list SafetySetting) (c : list Content)
    (ts : option (list Tool)) (modelId : string) (temperature : Q) (stream : bool)
    (maxOutputTokens maxRetries retryDelayMs : Z) (t : string) :
  snd (callVertexAIWithOptionalFunctionCalling vertexAI safety c ts modelId temperature
         stream maxOutputTokens maxRetries retryDelayMs) = Returned t ->
  t <> "".
Proof.
  intros Hret. unfold callVertexAIWithOptionalFunctionCalling in Hret.
  destruct (Z.le_gt_cases 0 maxRetries) as [Hm|Hm].
  - destruct (vertexRetryLoop_decisive vertexAI safety c ts modelId temperature stream
                maxOutputTokens maxRetries retryDelayMs _ 0 Hm eq_refl)
      as (k & _ & _ & _ & Hloop).
    rewrite Hloop in Hret. cbn [snd] in Hret.
    destruct (completion (executeAttempt vertexAI safety c ts modelId temperature stream
                            maxOutputTokens k)) as [t'|e] eqn:E; [|discriminate].
    injection Hret as <-.
    revert E. apply vertex_executeAttempt_nonempty; exact 0.
  - rewrite vertexRetryLoop_step in Hret.
    destruct (Z.leb_spec 0 maxRetries); [lia | discriminate].
Qed.

Lemma vertex_client_returned_text_nonempty_witness :
  snd (callVertexAIWithOptionalFunctionCalling (vertexOf answersOnThird)
         vertexSafetySettings [] None "gemini-2.5-pro-exp-03-25" 0 true 8192 3 1000)
    = Returned "attempt-2 payload"
  /\ "attempt-2 payload" <> "".
Proof.
  split; [vm_compute; reflexivity|].
  apply (vertex_client_returned_text_nonempty (vertexOf answersOnThird)
           vertexSafetySettings [] None "gemini-2.5-pro-exp-03-25" 0 true 8192 3 1000).
  vm_compute. reflexivity.
Defined.

(** X12.  What [getToolsForApi] builds decides the entry point of the
    Vertex-only client: with [useWebSearch] every invocation goes through
    the preview entry point and carries the single declaration
    [{ googleSearch: {} }]; without it every invocation goes through the
    default entry point and carries no tools.  [enableFunctionCalling]
    changes nothing. *)
Theorem web_search_flag_selects_entry_point
    (vertexAI : VertexAI) (safety : list SafetySetting) (c : list Content)
    (modelId : string) (temperature : Q) (stream : bool)
    (maxOutputTokens maxRetries retryDelayMs : Z)
    (enableFunctionCalling useWebSearch : bool) :
  List.Forall
    (fun ev => isSleep ev = true
               \/ (entryOf ev = Some (if useWebSearch then Preview else Default)
                   /\ toolsOf ev = (if useWebSearch then Some [googleSearchTool] else None)))
    (fst (callVertexAIWithOptionalFunctionCalling vertexAI safety c
            (getToolsForApi enableFunctionCalling useWebSearch) modelId temperature
            stream maxOutputTokens maxRetries retryDelayMs)).
Proof.
  eapply List.Forall_impl;
    [|apply (vertexRetryLoop_events vertexAI safety c _ modelId temperature stream
               maxOutputTokens maxRetries retryDelayMs _ 0 eq_refl)].
  intros ev [Hs | (i & ->)]; [left; exact Hs | right].
  unfold vertexInvocationOf. destruct useWebSearch, stream; split; reflexivity.
Qed.

End VertexCallTheorems.

(* ===================================================================== *)
(** ** The configuration resolver *)
(* ===================================================================== *)

Section ResolverBlocks.
Import ConfigResolver Resolved.

Variable b : Builtins.
Variable env : Env.

Lemma app_nil_end (err : list string) : err = (err ++ [])%list.
Proof. symmetry. apply List.app_nil_r. Qed.

Lemma resolveTemperature_reads (err : list string) :
  resolveTemperature b env err
  = ((err ++ warningOfReading "AI_TEMPERATURE" "0" (readTemperature b env))%list,
     Returns (valueOfReading DEFAULT_TEMPERATURE (readTemperature b env))).
Proof.
  unfold resolveTemperature, readTemperature.
  destruct (env !! "AI_TEMPERATURE") as [[|ch s]|]; cbn [Js.truthy];
    try (cbn; rewrite List.app_nil_r; reflexivity).
  cbn [GenerativeClient.interpolate].
  destruct (parseFloat b (String ch s)) as [|neg|q]; cbn [isNaN negb andb geZero leTwo].
  - reflexivity.
  - destruct neg; reflexivity.
  - destruct (Qlt_le_dec q 0) as [Hlo|Hlo].
    + assert (Qle_bool 0 q = false) as ->.
      { apply not_true_is_false. rewrite Qle_bool_iff. lra. }
      cbn [andb valueOfReading warningOfReading numNe valueOr].
      assert (Qeq_bool DEFAULT_TEMPERATURE q = false) as ->.
      { apply not_true_is_false. rewrite Qeq_bool_iff. unfold DEFAULT_TEMPERATURE. lra. }
      reflexivity.
    + assert (Qle_bool 0 q = true) as -> by (apply Qle_bool_iff; exact Hlo).
      destruct (Qlt_le_dec 2 q) as [Hhi|Hhi].
      * assert (Qle_bool q 2 = false) as ->.
        { apply not_true_is_false. rewrite Qle_bool_iff. lra. }
        cbn [andb valueOfReading warningOfReading numNe valueOr].
        assert (Qeq_bool DEFAULT_TEMPERATURE q = false) as ->.
        { apply not_true_is_false. rewrite Qeq_bool_iff. unfold DEFAULT_TEMPERATURE. lra. }
        reflexivity.
      * assert (Qle_bool q 2 = true) as -> by (apply Qle_bool_iff; exact Hhi).
        cbn [andb valueOfReading warningOfReading numNe valueOr].
        assert (Qeq_bool q q = true) as -> by (apply Qeq_bool_iff; reflexivity).
        cbn. rewrite List.app_nil_r. reflexivity.
Qed.

Lemma toLowerCase_nonempty (ch : ascii) (s : string) :
  Js.truthy (Some (Js.toLowerCase (String ch s))) = true.
Proof. reflexivity. Qed.

Lemma resolveUseStreaming_reads (err : list string) :
  resolveUseStreaming env err
  = ((err ++ warningOfReading "AI_USE_STREAMING" "true" (readStreaming env))%list,
     Returns (valueOfReading DEFAULT_USE_STREAMING (readStreaming env))).
Proof.
  unfold resolveUseStreaming, readStreaming.
  destruct (env !! "AI_USE_STREAMING") as [[|ch s]|];
    try (cbn; rewrite List.app_nil_r; reflexivity).
  cbn [fmap option_fmap option_map].
  unfold GenerativeClient.strictEq, GenerativeClient.strictNe.
  rewrite negb_involutive.
  rewrite (toLowerCase_equalsIgnoreCase (String ch s) "false" eq_refl).
  destruct (equalsIgnoreCase (String ch s) "false").
  - cbn. rewrite List.app_nil_r. reflexivity.
  - rewrite (toLowerCase_equalsIgnoreCase (String ch s) "true" eq_refl).
    rewrite toLowerCase_nonempty.
    destruct (equalsIgnoreCase (String ch s) "true").
    + cbn. rewrite List.app_nil_r. reflexivity.
    + reflexivity.
Qed.

Lemma resolveMaxOutputTokens_reads (err : list string) :
  resolveMaxOutputTokens b env err
  = ((err ++ warningOfReading "AI_MAX_OUTPUT_TOKENS" "8192"
               (readInt positive b env "AI_MAX_OUTPUT_TOKENS"))%list,
     Returns (valueOfReading DEFAULT_MAX_OUTPUT_TOKENS
                (readInt positive b env "AI_MAX_OUTPUT_TOKENS"))).
Proof.
  unfold resolveMaxOutputTokens, readInt.
  destruct (env !! "AI_MAX_OUTPUT_TOKENS") as [[|ch s]|]; cbn [Js.truthy];
    try (cbn; rewrite List.app_nil_r; reflexivity).
  cbn [GenerativeClient.interpolate].
  destruct (parseInt b (String ch s)) as [n|]; [|reflexivity].
  destruct (decide (positive n)) as [Hn|Hn]; unfold positive in Hn.
  - assert ((0 <? n) = true) as -> by lia.
    cbn [intNe]. rewrite Z.eqb_refl. cbn. rewrite List.app_nil_r. reflexivity.
  - assert ((0 <? n) = false) as -> by lia.
    cbn [intNe].
    assert ((DEFAULT_MAX_OUTPUT_TOKENS =? n) = false) as ->
      by (unfold DEFAULT_MAX_OUTPUT_TOKENS; lia).
    reflexivity.
Qed.

Lemma resolveMaxRetries_reads (err : list string) :
  resolveMaxRetries b env err
  = ((err ++ warningOfReading "AI_MAX_RETRIES" "3"
               (readInt nonNegative b env "AI_MAX_RETRIES"))%list,
     Returns (valueOfReading DEFAULT_MAX_RETRIES
                (readInt nonNegative b env "AI_MAX_RETRIES"))).
Proof.
  unfold resolveMaxRetries, readInt.
  destruct (env !! "AI_MAX_RETRIES") as [[|ch s]|]; cbn [Js.truthy];
    try (cbn; rewrite List.app_nil_r; reflexivity).
  cbn [GenerativeClient.interpolate].
  destruct (parseInt b (String ch s)) as [n|]; [|reflexivity].
  destruct (decide (nonNegative n)) as [Hn|Hn]; unfold nonNegative in Hn.
  - assert ((0 <=? n) = true) as -> by lia.
    cbn [intNe]. rewrite Z.eqb_refl. cbn. rewrite List.app_nil_r. reflexivity.
  - assert ((0 <=? n) = false) as -> by lia.
    cbn [intNe].
    assert ((DEFAULT_MAX_RETRIES =? n) = false) as ->
      by (unfold DEFAULT_MAX_RETRIES; lia).
    reflexivity.
Qed.

Lemma resolveRetryDelayMs_reads (err : list string) :
  resolveRetryDelayMs b env err
  = ((err ++ warningOfReading "AI_RETRY_DELAY_MS" "1000"
               (readInt nonNegative b env "AI_RETRY_DELAY_MS"))%list,
     Returns (valueOfReading DEFAULT_RETRY_DELAY_MS
                (readInt nonNegative b env "AI_RETRY_DELAY_MS"))).
Proof.
  unfold resolveRetryDelayMs, readInt.
  destruct (env !! "AI_RETRY_DELAY_MS") as [[|ch s]|]; cbn [Js.truthy];
    try (cbn; rewrite List.app_nil_r; reflexivity).
  cbn [GenerativeClient.interpolate].
  destruct (parseInt b (String ch s)) as [n|]; [|reflexivity].
  destruct (decide (nonNegative n)) as [Hn|Hn]; unfold nonNegative in Hn.
  - assert ((0 <=? n) = true) as -> by lia.
    cbn [intNe]. rewrite Z.eqb_refl. cbn. rewrite List.app_nil_r. reflexivity.
  - assert ((0 <=? n) = false) as -> by lia.
    cbn [intNe].
    assert ((DEFAULT_RETRY_DELAY_MS =? n) = false) as ->
      by (unfold DEFAULT_RETRY_DELAY_MS; lia).
    reflexivity.
Qed.

Lemma Proc_bind_returns {A B} (m : Proc A) (k : A -> Proc B)
    (err err' : list string) (a : A) :
  m err = (err', Returns a) -> (m ≫= k) err = k a err'.
Proof. intros H. unfold mbind, Proc_bind. rewrite H. reflexivity. Qed.

(** The whole resolver, block by block. *)
Lemma getAIConfig_reads (err : list string) :
  getAIConfig b env err
  = ((err ++ warnings b env)%list,
     Returns
       {| provider := getAIProvider env;
          modelId := Js.orElse (env !! modelVariable (getAIProvider env))
                       "gemini-2.5-pro-exp-03-25";
          temperature := valueOfReading 0%Q (readTemperature b env);
          useStreaming := valueOfReading true (readStreaming env);
          maxOutputTokens :=
            valueOfReading 8192 (readInt positive b env "AI_MAX_OUTPUT_TOKENS");
          maxRetries := valueOfReading 3 (readInt nonNegative b env "AI_MAX_RETRIES");
          retryDelayMs :=
            valueOfReading 1000 (readInt nonNegative b env "AI_RETRY_DELAY_MS");
          gcpProjectId := env !! "GOOGLE_CLOUD_PROJECT";
          gcpLocation := Js.orElse (env !! "GOOGLE_CLOUD_LOCATION") "us-central1";
          geminiApiKey := env !! "GEMINI_API_KEY" |}).
Proof.
  unfold getAIConfig.
  rewrite (Proc_bind_returns _ _ _ _ _ (resolveTemperature_reads err)).
  rewrite (Proc_bind_returns _ _ _ _ _ (resolveUseStreaming_reads _)).
  rewrite (Proc_bind_returns _ _ _ _ _ (resolveMaxOutputTokens_reads _)).
  rewrite (Proc_bind_returns _ _ _ _ _ (resolveMaxRetries_reads _)).
  rewrite (Proc_bind_returns _ _ _ _ _ (resolveRetryDelayMs_reads _)).
  unfold warnings. rewrite <- !List.app_assoc.
  destruct (getAIProvider env); reflexivity.
Qed.

End ResolverBlocks.

Section ResolverTheorems.
Import ConfigResolver Resolved.

(** X13.  [getAIConfig] never ends the process.  Each tunable takes the
    value parsed from its variable when the variable is set, not empty and
    holds a valid value (a finite temperature between 0 and 2, a positive
    token limit, a retry count and a delay that are not negative, "true" or
    "false" in any case for the streaming flag), and its default otherwise;
    and the lines written are exactly one warning for each variable that is
    set to an invalid value, in the order of the source. *)
Theorem getAIConfig_resolves (b : Builtins) (env : Env) (err : list string) :
  exists cfg,
    getAIConfig b env err = ((err ++ warnings b env)%list, Returns cfg)
    /\ provider cfg = getAIProvider env
    /\ temperature cfg = valueOfReading 0%Q (readTemperature b env)
    /\ useStreaming cfg = valueOfReading true (readStreaming env)
    /\ maxOutputTokens cfg
       = valueOfReading 8192 (readInt positive b env "AI_MAX_OUTPUT_TOKENS")
    /\ maxRetries cfg = valueOfReading 3 (readInt nonNegative b env "AI_MAX_RETRIES")
    /\ retryDelayMs cfg
       = valueOfReading 1000 (readInt nonNegative b env "AI_RETRY_DELAY_MS").
Proof.
  eexists. split; [apply getAIConfig_reads|].
  cbn. repeat split.
Qed.

Example getAIConfig_mixed_environment :
  getAIConfig reading
    (<["AI_TEMPERATURE" := "3.5"]>
       (<["AI_USE_STREAMING" := "FALSE"]>
          (<["AI_MAX_RETRIES" := "5"]>
             (<["AI_RETRY_DELAY_MS" := "-2"]>
                (<["AI_MAX_OUTPUT_TOKENS" := "0"]> ∅))))) []
  = ([invalidValue "AI_TEMPERATURE" "3.5" "0";
      invalidValue "AI_MAX_OUTPUT_TOKENS" "0" "8192";
      invalidValue "AI_RETRY_DELAY_MS" "-2" "1000"],
     Returns {| provider := vertex; modelId := "gemini-2.5-pro-exp-03-25";
                temperature := 0; useStreaming := false;
                maxOutputTokens := 8192; maxRetries := 5; retryDelayMs := 1000;
                gcpProjectId := None; gcpLocation := "us-central1";
                geminiApiKey := None |}).
Proof. vm_compute. reflexivity. Qed.

Lemma valueOfReading_readInt (valid : Z -> Prop) `{!forall n, Decision (valid n)}
    (b : Builtins) (env : Env) (k : string) (d : Z) :
  valid d -> valid (valueOfReading d (readInt valid b env k)).
Proof.
  intros Hd. unfold readInt.
  destruct (env !! k) as [[|ch s]|]; try exact Hd.
  destruct (parseInt b (String ch s)) as [n|]; [|exact Hd].
  destruct (decide (valid n)) as [Hn|Hn]; [exact Hn | exact Hd].
Qed.

Lemma valueOfReading_readTemperature (b : Builtins) (env : Env) :
  (0 <= valueOfReading 0 (readTemperature b env) <= 2)%Q.
Proof.
  unfold readTemperature.
  destruct (env !! "AI_TEMPERATURE") as [[|ch s]|]; cbn; try lra.
  destruct (parseFloat b (String ch s)) as [|neg|q]; cbn; try lra.
  destruct (Qlt_le_dec q 0), (Qlt_le_dec 2 q); cbn; lra.
Qed.

Lemma orElse_nonempty (v : option string) (d : string) :
  d <> "" -> Js.orElse v d <> "".
Proof. intros Hd. destruct v as [[|ch s]|]; cbn; [exact Hd | discriminate | exact Hd]. Qed.

(** X14.  Whatever the environment holds and whatever the parsers answer,
    [getAIConfig] returns a configuration within its ranges: a temperature
    between 0 and 2, a positive token limit, a retry count and a retry
    delay that are not negative, a model id and a location that are not
    empty.  No value of a variable can push a tunable out of range. *)
Theorem resolved_configuration_within_ranges (b : Builtins) (env : Env)
    (err : list string) :
  exists cfg err',
    getAIConfig b env err = (err', Returns cfg)
    /\ (0 <= temperature cfg <= 2)%Q
    /\ 0 < maxOutputTokens cfg
    /\ 0 <= maxRetries cfg
    /\ 0 <= retryDelayMs cfg
    /\ modelId cfg <> ""
    /\ gcpLocation cfg <> "".
Proof.
  eexists. eexists. split; [apply getAIConfig_reads|].
  cbn [temperature maxOutputTokens maxRetries retryDelayMs modelId gcpLocation].
  split; [apply valueOfReading_readTemperature|].
  split; [apply (valueOfReading_readInt positive); unfold positive; lia|].
  split; [apply (valueOfReading_readInt nonNegative); unfold nonNegative; lia|].
  split; [apply (valueOfReading_readInt nonNegative); unfold nonNegative; lia|].
  split; apply orElse_nonempty; discriminate.
Qed.

(** X15.  Streaming is turned off by one value only: [useStreaming] is
    false exactly when [AI_USE_STREAMING] is set to a value that equals
    "false" up to the case of its letters.  Every other value ("0", "no",
    "off", the empty string) leaves streaming on. *)
Theorem streaming_off_iff_false (b : Builtins) (env : Env) :
  exists cfg,
    resolved b env = Some cfg
    /\ (useStreaming cfg = false <->
        exists v, env !! "AI_USE_STREAMING" = Some v
                  /\ equalsIgnoreCase v "false" = true).
Proof.
  unfold resolved. rewrite getAIConfig_reads. eexists. split; [reflexivity|].
  cbn [useStreaming]. unfold readStreaming.
  destruct (env !! "AI_USE_STREAMING") as [[|ch s]|] eqn:E.
  - cbn. split; [discriminate|]. intros (v & [= <-] & Hv). discriminate.
  - destruct (equalsIgnoreCase (String ch s) "false") eqn:Hf.
    + cbn. split; [|reflexivity]. intros _. eexists. split; [reflexivity|exact Hf].
    + destruct (equalsIgnoreCase (String ch s) "true"); cbn;
        (split; [discriminate|]); intros (v & [= <-] & Hv); congruence.
  - cbn. split; [discriminate|]. intros (v & [=] & _).
Qed.

Example streaming_stays_on :
  (useStreaming <$> resolved deaf (<["AI_USE_STREAMING" := "off"]> ∅)) = Some true
  /\ (useStreaming <$> resolved deaf (<["AI_USE_STREAMING" := "False"]> ∅)) = Some false.
Proof. split; vm_compute; reflexivity. Qed.

(** X16.  When the five tunables are absent (unset, or set to the empty
    string), [getAIConfig] writes nothing, does not depend on what the
    parsers would answer, and returns the defaults: temperature 0,
    streaming on, 8192 output tokens, 3 retries, a retry delay of 1000 ms. *)
Theorem absent_tunables_give_defaults (b : Builtins) (env : Env) (err : list string) :
  List.Forall (absent env) tunables ->
  exists cfg,
    getAIConfig b env err = (err, Returns cfg)
    /\ temperature cfg = 0%Q
    /\ useStreaming cfg = true
    /\ maxOutputTokens cfg = 8192
    /\ maxRetries cfg = 3
    /\ retryDelayMs cfg = 1000.
Proof.
  intros H. unfold tunables in H.
  repeat match type of H with
         | List.Forall _ (_ :: _) =>
             let Hk := fresh "Hk" in apply List.Forall_cons_iff in H as [Hk H]
         end.
  assert (forall k valid (D : forall n, Decision (valid n)),
            absent env k -> readInt valid b env k = Unset) as Hint.
  { intros k valid D [Hk'|Hk']; unfold readInt; rewrite Hk'; reflexivity. }
  assert (readTemperature b env = Unset) as Ht
    by (destruct Hk as [Hk|Hk]; unfold readTemperature; rewrite Hk; reflexivity).
  assert (readStreaming env = Unset) as Hs
    by (destruct Hk0 as [Hk0|Hk0]; unfold readStreaming; rewrite Hk0; reflexivity).
  eexists. split.
  - rewrite getAIConfig_reads. unfold warnings.
    rewrite Ht, Hs, !Hint by assumption. cbn [warningOfReading app].
    rewrite List.app_nil_r. reflexivity.
  - cbn. repeat split.
Qed.

Lemma absent_tunables_give_defaults_witness :
  exists cfg,
    getAIConfig reading
      (<["AI_TEMPERATURE" := ""]> (<["AI_PROVIDER" := "gemini"]> ∅)) []
    = ([], Returns cfg)
    /\ temperature cfg = 0%Q
    /\ useStreaming cfg = true
    /\ maxOutputTokens cfg = 8192
    /\ maxRetries cfg = 3
    /\ retryDelayMs cfg = 1000.
Proof.
  apply (absent_tunables_give_defaults reading
           (<["AI_TEMPERATURE" := ""]> (<["AI_PROVIDER" := "gemini"]> ∅)) []).
  unfold tunables.
  repeat (constructor; [first [left; reflexivity | right; reflexivity]|]).
  constructor.
Defined.

Lemma resolved_ranges (b : Builtins) (env : Env) :
  exists cfg, resolved b env = Some cfg /\ 0 <= maxRetries cfg.
Proof.
  unfold resolved. rewrite getAIConfig_reads. eexists. split; [reflexivity|].
  cbn [maxRetries].
  apply (valueOfReading_readInt nonNegative); unfold nonNegative; lia.
Qed.

(** X17.  A call of [callGenerativeAI] under a configuration that
    [getAIConfig] resolved always invokes the provider, at least once and
    at most [maxRetries + 1] times, and never ends with the error "Max
    retries reached": no environment makes the resolver give the retry
    loop a negative bound. *)
Theorem resolved_configuration_always_attempts
    (b : Builtins) (env : Env) (w : GenerativeClient.World)
    (c : list Content) (ts : option (list Tool)) :
  exists cfg,
    resolved b env = Some cfg
    /\ (1 <= List.length (attempts (fst (GenerativeClient.callGenerativeAI cfg w c ts)))
        <= Z.to_nat (maxRetries cfg + 1))%nat
    /\ snd (GenerativeClient.callGenerativeAI cfg w c ts)
       <> Raised (GenerativeClient.maxRetriesReached cfg).
Proof.
  destruct (resolved_ranges b env) as (cfg & Hcfg & Hm).
  exists cfg. split; [exact Hcfg|].
  destruct (retryLoop_decisive cfg w c ts _ 0 Hm eq_refl) as (k & Hk & _ & _ & Hloop).
  split; [split|].
  - unfold GenerativeClient.callGenerativeAI. rewrite Hloop. cbn [fst].
    rewrite attempts_app, attempts_invocationOf, List.length_app. simpl. lia.
  - apply (retryLoop_bounded cfg w c ts _ 0). f_equal. lia.
  - unfold GenerativeClient.callGenerativeAI. rewrite Hloop. cbn [snd].
    destruct (completion (GenerativeClient.executeAttempt cfg w c ts k)) as [t|e]; cbn;
      [discriminate|].
    intros H. injection H as H.
    apply (finalError_not_maxRetriesReached cfg e).
    unfold finalError, GenerativeClient.maxRetriesReached. f_equal. exact H.
Qed.

End ResolverTheorems.

Section ClientStart.
Import ConfigResolver Resolved.

Lemma initializeClient_resolved (b : Builtins) (env : Env) (cfg : AIConfig)
    (construction : option JsError) (err : list string) :
  resolved b env = Some cfg ->
  initializeClient cfg construction err
  = if decide (absent env (mandatoryCredential (getAIProvider env)))
    then ((err ++ [initFailure (getAIProvider env)
                     (missingCredential (getAIProvider env))])%list, Exits 1)
    else match construction with
         | Some e => ((err ++ [initFailure (getAIProvider env) (message e)])%list, Exits 1)
         | None => (err, Returns tt)
         end.
Proof.
  unfold resolved. rewrite getAIConfig_reads. intros [= <-].
  unfold initializeClient. cbn [provider gcpProjectId gcpLocation geminiApiKey].
  destruct (getAIProvider env); cbn [mandatoryCredential].
  - assert (Js.truthy (Some (Js.orElse (env !! "GOOGLE_CLOUD_LOCATION") "us-central1"))
            = true) as ->
      by (destruct (env !! "GOOGLE_CLOUD_LOCATION") as [[|ch s]|]; reflexivity).
    destruct (decide (absent env "GOOGLE_CLOUD_PROJECT")) as [Ha|Ha].
    + rewrite (truthy_of_absent _ _ Ha). reflexivity.
    + rewrite (truthy_of_present _ _ Ha). destruct construction; reflexivity.
  - destruct (decide (absent env "GEMINI_API_KEY")) as [Ha|Ha].
    + rewrite (truthy_of_absent _ _ Ha). reflexivity.
    + rewrite (truthy_of_present _ _ Ha). destruct construction; reflexivity.
Qed.

Lemma validateConfig_outcome (env : Env) (err : list string) :
  (absent env (mandatoryCredential (getAIProvider env)) ->
   snd (validateConfig env err) = Exits 1)
  /\ (~ absent env (mandatoryCredential (getAIProvider env)) ->
      snd (validateConfig env err) = Returns tt).
Proof.
  unfold validateConfig.
  destruct (getAIProvider env); cbn [mandatoryCredential]; split; intros Ha.
  all: first [rewrite (truthy_of_absent _ _ Ha) | rewrite (truthy_of_present _ _ Ha)].
  all: reflexivity.
Qed.

(** X18.  The start of the client module and [validateConfig] agree on the
    credentials.  After the warnings of the resolver, the module ends the
    process with exit code 1 and one line "Error initializing ... AI
    client: Missing ..." exactly when the mandatory credential of the
    selected provider is absent, which is exactly when [validateConfig]
    ends the process; when the credential is present the module fails only
    if the construction of the SDK client does, with the message of that
    failure. *)
Theorem module_start_agrees_with_validateConfig (b : Builtins) (env : Env)
    (construction : option JsError) (err err0 : list string) :
  let p := getAIProvider env in
  exists cfg,
    resolved b env = Some cfg
    /\ moduleStart b env construction err
       = (if decide (absent env (mandatoryCredential p))
          then ((err ++ warnings b env ++ [initFailure p (missingCredential p)])%list,
                Exits 1)
          else match construction with
               | Some e =>
                   ((err ++ warnings b env ++ [initFailure p (message e)])%list, Exits 1)
               | None => ((err ++ warnings b env)%list, Returns cfg)
               end)
    /\ (snd (moduleStart b env None err) = Exits 1
        <-> snd (validateConfig env err0) = Exits 1).
Proof.
  intros p.
  destruct (resolved_ranges b env) as (cfg & Hcfg & _).
  assert (forall construction',
            moduleStart b env construction' err
            = if decide (absent env (mandatoryCredential p))
              then ((err ++ warnings b env ++ [initFailure p (missingCredential p)])%list,
                    Exits 1)
              else match construction' with
                   | Some e =>
                       ((err ++ warnings b env ++ [initFailure p (message e)])%list, Exits 1)
                   | None => ((err ++ warnings b env)%list, Returns cfg)
                   end) as Hall.
  { intros construction'.
    unfold moduleStart.
    pose proof Hcfg as Hc. unfold resolved in Hc. rewrite getAIConfig_reads in Hc.
    injection Hc as Hc.
    rewrite (Proc_bind_returns _ _ _ _ _ (getAIConfig_reads b env err)).
    rewrite Hc. unfold mbind, Proc_bind.
    rewrite (initializeClient_resolved b env cfg construction' _ Hcfg). fold p.
    destruct (decide (absent env (mandatoryCredential p)));
      [|destruct construction'];
      rewrite <- ?List.app_assoc; reflexivity. }
  exists cfg. split; [exact Hcfg|]. split.
  - apply Hall.
  - rewrite Hall.
    destruct (validateConfig_outcome env err0) as [Hv Hv'].
    fold p in Hv, Hv'.
    destruct (decide (absent env (mandatoryCredential p))) as [Ha|Ha]; cbn [snd].
    + rewrite (Hv Ha). split; reflexivity.
    + rewrite (Hv' Ha). split; discriminate.
Qed.

Example module_start_without_key :
  moduleStart deaf (<["AI_PROVIDER" := "gemini"]> (<["AI_MAX_RETRIES" := "many"]> ∅))
    None []
  = ([invalidValue "AI_MAX_RETRIES" "many" "3";
      "Error initializing gemini AI client: Missing GEMINI_API_KEY for Gemini provider."],
     Exits 1).
Proof. vm_compute. reflexivity. Qed.

End ClientStart.

(* ===================================================================== *)
(** ** The file editing utilities *)
(* ===================================================================== *)

Section LineEndings.
Import JsText FileEdits EditStatements.

Lemma normalizeLineEndings_cons2 (c d : ascii) (r : string) :
  normalizeLineEndings (String c (String d r))
  = if (Ascii.eqb c CR && Ascii.eqb d LF)%bool
    then String LF (normalizeLineEndings r)
    else String c (normalizeLineEndings (String d r)).
Proof. reflexivity. Qed.

Lemma startsWith_CRLF (c d : ascii) (r : string) :
  Js.startsWith (String c (String d r)) CRLF = (Ascii.eqb c CR && Ascii.eqb d LF)%bool.
Proof.
  unfold CRLF. cbn [Js.startsWith]. rewrite andb_true_r.
  rewrite (Ascii.eqb_sym CR c), (Ascii.eqb_sym LF d). reflexivity.
Qed.

(** Induction on a text two characters at a time, as the replacement reads
    it. *)
Lemma string_pair_ind (P : string -> Prop) :
  P EmptyString ->
  (forall c, P (String c EmptyString)) ->
  (forall c d r, P r -> P (String d r) -> P (String c (String d r))) ->
  forall s, P s.
Proof.
  intros H0 H1 H2 s.
  assert (P s /\ forall c, P (String c s)) as [H _]; [|exact H].
  induction s as [|d r [IHr IHd]]; split; auto.
Qed.

Lemma normalizeLineEndings_length (s : string) :
  (String.length (normalizeLineEndings s) <= String.length s)%nat.
Proof.
  induction s as [| c | c d r IHr IHd] using string_pair_ind; [simpl; lia .. |].
  rewrite normalizeLineEndings_cons2.
  destruct (Ascii.eqb c CR && Ascii.eqb d LF)%bool; simpl in *; lia.
Qed.

Lemma normalizeLineEndings_fixed (s : string) :
  Js.includes s CRLF = false -> normalizeLineEndings s = s.
Proof.
  induction s as [| c | c d r IHr IHd] using string_pair_ind; intros H;
    [reflexivity .. |].
  rewrite normalizeLineEndings_cons2.
  cbn [Js.includes] in H. fold (Js.includes (String d r) CRLF) in H.
  apply orb_false_elim in H as [Hs Ht].
  rewrite startsWith_CRLF in Hs. rewrite Hs.
  f_equal. apply IHd. exact Ht.
Qed.

Lemma normalizeLineEndings_shrinks (s : string) :
  Js.includes s CRLF = true ->
  (String.length (normalizeLineEndings s) < String.length s)%nat.
Proof.
  induction s as [| c | c d r IHr IHd] using string_pair_ind; intros H.
  - discriminate H.
  - cbn in H. rewrite andb_false_r in H. discriminate H.
  - 
  rewrite normalizeLineEndings_cons2.
  cbn [Js.includes] in H. fold (Js.includes (String d r) CRLF) in H.
  rewrite startsWith_CRLF in H.
  destruct (Ascii.eqb c CR && Ascii.eqb d LF)%bool.
  + pose proof (normalizeLineEndings_length r). simpl. lia.
  + simpl in H. apply IHd in H. simpl in *. lia.
Qed.

Lemma startsWith_cons (b a : ascii) (s p : string) :
  Js.startsWith (String b s) (String a p) = (Ascii.eqb a b && Js.startsWith s p)%bool.
Proof. reflexivity. Qed.

Lemma startsWith_empty (a : ascii) (p : string) :
  Js.startsWith EmptyString (String a p) = false.
Proof. reflexivity. Qed.

Lemma startsWith_nil (s : string) : Js.startsWith s EmptyString = true.
Proof. destruct s; reflexivity. Qed.

Lemma includes_cons (c : ascii) (s t : string) :
  Js.includes (String c s) t = (Js.startsWith (String c s) t || Js.includes s t)%bool.
Proof. reflexivity. Qed.

Ltac chars :=
  repeat match goal with
         | |- context [Ascii.eqb ?a ?b] =>
             first [ change (Ascii.eqb a b) with true
                   | change (Ascii.eqb a b) with false ]
         end.

Ltac prefixes :=
  unfold CRCRLF, CRLF, newline;
  rewrite ?startsWith_cons, ?startsWith_empty, ?startsWith_nil;
  chars; cbn [andb orb];
  rewrite ?andb_true_r, ?andb_false_r, ?orb_false_r.

(** The first character of a normalised text is LF exactly when the text
    begins with LF or with CR LF. *)
Lemma normalizeLineEndings_head (c : ascii) (s : string) :
  Js.startsWith (String c (normalizeLineEndings s)) CRLF
  = (Ascii.eqb CR c && (Js.startsWith s newline || Js.startsWith s CRLF))%bool.
Proof.
  destruct s as [|d [|e r]].
  - cbn [normalizeLineEndings]. prefixes. reflexivity.
  - cbn [normalizeLineEndings]. prefixes. reflexivity.
  - rewrite normalizeLineEndings_cons2.
    destruct (Ascii.eqb_spec d CR) as [->|Hd]; cbn [andb].
    + destruct (Ascii.eqb_spec e LF) as [->|He]; prefixes.
      * reflexivity.
      * destruct (Ascii.eqb_spec LF e) as [Hx|_]; [congruence|].
        rewrite andb_false_r. reflexivity.
    + prefixes.
      destruct (Ascii.eqb_spec CR d) as [Hx|_]; [congruence|].
      cbn [andb]. rewrite orb_false_r. reflexivity.
Qed.

Lemma normalizeLineEndings_leftover (s : string) :
  Js.includes (normalizeLineEndings s) CRLF = Js.includes s CRCRLF.
Proof.
  induction s as [| c | c d r IHr IHd] using string_pair_ind; [reflexivity | |].
  - cbn [normalizeLineEndings]. rewrite !includes_cons. prefixes. reflexivity.
  - rewrite normalizeLineEndings_cons2.
    rewrite (includes_cons c (String d r)).
    destruct (Ascii.eqb_spec c CR) as [->|Hc]; cbn [andb].
    + destruct (Ascii.eqb_spec d LF) as [->|Hd].
      * rewrite includes_cons, IHr, (includes_cons LF r). prefixes. reflexivity.
      * rewrite includes_cons, IHd, normalizeLineEndings_head. f_equal.
        prefixes.
        destruct (Ascii.eqb_spec LF d) as [Hx|_]; [congruence|].
        cbn [orb]. reflexivity.
    + rewrite includes_cons, IHd, normalizeLineEndings_head. f_equal.
      prefixes.
      destruct (Ascii.eqb_spec CR c) as [Hx|_]; [congruence|]. reflexivity.
Qed.

(** X19.  [normalizeLineEndings] changes a text exactly when the text
    contains CR LF, and then makes it shorter; what it returns still
    contains a CR LF exactly when the text contains CR CR LF.  So the
    function is not idempotent on every text, and it is on a text without
    CR CR LF. *)
Theorem normalizeLineEndings_changes_iff_crlf (s : string) :
  (normalizeLineEndings s = s <-> Js.includes s CRLF = false)
  /\ Js.includes (normalizeLineEndings s) CRLF = Js.includes s CRCRLF
  /\ (Js.includes s CRCRLF = false ->
      normalizeLineEndings (normalizeLineEndings s) = normalizeLineEndings s).
Proof.
  split; [split|split].
  - intros H. destruct (Js.includes s CRLF) eqn:E; [|reflexivity].
    apply normalizeLineEndings_shrinks in E. rewrite H in E. lia.
  - apply normalizeLineEndings_fixed.
  - apply normalizeLineEndings_leftover.
  - intros H. apply normalizeLineEndings_fixed.
    rewrite normalizeLineEndings_leftover. exact H.
Qed.

Example normalizeLineEndings_twice :
  normalizeLineEndings CRCRLF = CRLF
  /\ normalizeLineEndings (normalizeLineEndings CRCRLF) = newline.
Proof. split; reflexivity. Qed.

End LineEndings.

Section ExactEdits.
Import JsText FileEdits EditStatements.

Lemma append_cons (c : ascii) (s t : string) : String c s ++ t = String c (s ++ t).
Proof. reflexivity. Qed.

Lemma substring_prefix (b x : string) :
  String.substring 0 (String.length b) (b ++ x) = b.
Proof.
  induction b as [|c b IH].
  - destruct x; reflexivity.
  - rewrite append_cons. cbn [String.length String.substring]. rewrite IH. reflexivity.
Qed.

Lemma drop_prefix (b x : string) : Js.drop (String.length b) (b ++ x) = x.
Proof.
  induction b as [|c b IH]; [destruct x; reflexivity|].
  rewrite append_cons. cbn [String.length Js.drop]. exact IH.
Qed.

Lemma drop_add (n m : nat) : forall s, Js.drop (n + m) s = Js.drop m (Js.drop n s).
Proof.
  induction n as [|n IH]; intros s; [reflexivity|].
  destruct s as [|c s]; cbn [Nat.add Js.drop].
  - destruct m; reflexivity.
  - apply IH.
Qed.

Lemma indexOf_includes (t : string) : forall (s : string) (n : nat),
  indexOf s t = Some n -> Js.includes s t = true.
Proof.
  induction s as [|c s IH]; intros n H; cbn [indexOf] in H; cbn [Js.includes].
  - destruct (Js.startsWith "" t); [reflexivity | discriminate].
  - destruct (Js.startsWith (String c s) t); [reflexivity|].
    destruct (indexOf s t) as [k|] eqn:E; [|discriminate].
    rewrite (IH k eq_refl). reflexivity.
Qed.

Lemma includes_indexOf (t : string) : forall s : string,
  Js.includes s t = true -> exists n, indexOf s t = Some n.
Proof.
  induction s as [|c s IH]; intros H; cbn [indexOf]; cbn [Js.includes] in H.
  - destruct (Js.startsWith "" t); [eauto | discriminate].
  - destruct (Js.startsWith (String c s) t); [eauto|].
    destruct (IH H) as [n Hn]. rewrite Hn. eauto.
Qed.

(** A template without a dollar sign stands for itself. *)
Lemma getSubstitution_plain (m bf af : string) : forall t : string,
  Js.includes t "$" = false -> getSubstitution m bf af t = t.
Proof.
  induction t as [|c t IH]; intros H; [reflexivity|].
  rewrite includes_cons, startsWith_cons, startsWith_nil, andb_true_r in H.
  apply orb_false_elim in H as [Hc Ht].
  cbn [getSubstitution]. rewrite (Ascii.eqb_sym c "$"), Hc, (IH Ht). reflexivity.
Qed.

Lemma getSubstitution_app (m bf af t : string) : forall a : string,
  Js.includes a "$" = false ->
  getSubstitution m bf af (a ++ t) = a ++ getSubstitution m bf af t.
Proof.
  induction a as [|c a IH]; intros H; [reflexivity|].
  rewrite includes_cons, startsWith_cons, startsWith_nil, andb_true_r in H.
  apply orb_false_elim in H as [Hc Ha].
  rewrite !append_cons. cbn [getSubstitution].
  rewrite (Ascii.eqb_sym c "$"), Hc, (IH Ha). reflexivity.
Qed.

(** The exact branch of an edit, at the first occurrence of the old text. *)
Lemma applyEdit_exact (content before after : string) (e : EditOperation) :
  content = before ++ normalizeLineEndings (oldText e) ++ after ->
  indexOf content (normalizeLineEndings (oldText e)) = Some (String.length before) ->
  applyEdit content e
  = Normal (before
              ++ getSubstitution (normalizeLineEndings (oldText e)) before after
                   (normalizeLineEndings (newText e))
              ++ after).
Proof.
  intros Hc Hi. unfold applyEdit.
  rewrite (indexOf_includes _ _ _ Hi). unfold replace. rewrite Hi.
  rewrite drop_add.
  assert (String.substring 0 (String.length before) content = before) as ->
    by (rewrite Hc; apply substring_prefix).
  assert (Js.drop (String.length (normalizeLineEndings (oldText e)))
            (Js.drop (String.length before) content) = after) as ->
    by (rewrite Hc, drop_prefix, drop_prefix; reflexivity).
  reflexivity.
Qed.

(** X20.  An edit whose old text occurs in the content, and whose new text
    holds no dollar sign, replaces the first occurrence of the old text by
    the new text and leaves the rest of the content as it is; later
    occurrences are not touched.  Both texts are taken with their line
    endings normalised.  (With an empty old text the new text is put in
    front of the content.) *)
Theorem edit_replaces_first_occurrence
    (content before after : string) (e : EditOperation) :
  let old := normalizeLineEndings (oldText e) in
  let new := normalizeLineEndings (newText e) in
  content = before ++ old ++ after ->
  indexOf content old = Some (String.length before) ->
  Js.includes new "$" = false ->
  applyEdit content e = Normal (before ++ new ++ after).
Proof.
  intros old new Hc Hi Hd.
  rewrite (applyEdit_exact content before after e Hc Hi).
  fold old new. rewrite (getSubstitution_plain old before after new Hd). reflexivity.
Qed.

Lemma edit_replaces_first_occurrence_witness :
  applyEdit "let x = 1; let y = 1;" (edit "= 1" "= 2")
  = Normal ("let x " ++ "= 2" ++ "; let y = 1;").
Proof.
  apply (edit_replaces_first_occurrence "let x = 1; let y = 1;" "let x " "; let y = 1;"
           (edit "= 1" "= 2")); reflexivity.
Defined.

Example empty_old_text_inserts_in_front :
  applyEdit "body" (edit "" "head ") = Normal "head body".
Proof. reflexivity. Qed.

(** X21.  The new text of an edit is read as a replacement template, not
    verbatim: where the old text occurs in the content, [$$] in the new
    text is written as one dollar sign, and [$&] is written as the old
    text. *)
Theorem edit_reads_new_text_as_template
    (content before after a b : string) (e : EditOperation) :
  let old := normalizeLineEndings (oldText e) in
  let new := normalizeLineEndings (newText e) in
  content = before ++ old ++ after ->
  indexOf content old = Some (String.length before) ->
  Js.includes a "$" = false ->
  Js.includes b "$" = false ->
  (new = a ++ "$$" ++ b ->
   applyEdit content e = Normal (before ++ (a ++ "$" ++ b) ++ after))
  /\ (new = a ++ "$&" ++ b ->
      applyEdit content e = Normal (before ++ (a ++ old ++ b) ++ after)).
Proof.
  intros old new Hc Hi Ha Hb.
  rewrite (applyEdit_exact content before after e Hc Hi). fold old new.
  split; intros ->; rewrite (getSubstitution_app _ _ _ _ a Ha).
  - change ("$$" ++ b) with (String "$" (String "$" b)).
    cbn [getSubstitution]. change (Ascii.eqb "$" "$") with true. cbn iota.
    rewrite (getSubstitution_plain _ _ _ b Hb). reflexivity.
  - change ("$&" ++ b) with (String "$" (String "&" b)).
    cbn [getSubstitution]. change (Ascii.eqb "$" "$") with true.
    change (Ascii.eqb "&" "$") with false. change (Ascii.eqb "&" "&") with true.
    cbn iota.
    rewrite (getSubstitution_plain _ _ _ b Hb). reflexivity.
Qed.

Lemma edit_reads_new_text_as_template_witness :
  (normalizeLineEndings "$$10" = "" ++ "$$" ++ "10" ->
   applyEdit "price: 5" (edit "5" "$$10") = Normal ("price: " ++ ("" ++ "$" ++ "10") ++ ""))
  /\ (normalizeLineEndings "$$10" = "" ++ "$&" ++ "10" ->
      applyEdit "price: 5" (edit "5" "$$10")
      = Normal ("price: " ++ ("" ++ normalizeLineEndings "5" ++ "10") ++ "")).
Proof.
  apply (edit_reads_new_text_as_template "price: 5" "price: " "" "" "10" (edit "5" "$$10"));
    reflexivity.
Defined.

Example dollar_amount_is_rewritten :
  applyEdit "price: 5" (edit "5" "$$10") = Normal "price: $10"
  /\ applyEdit "total" (edit "total" "sub$&") = Normal "subtotal".
Proof. split; reflexivity. Qed.

End ExactEdits.

Section EditOutcome.
Import JsText FileEdits EditStatements.

Lemma scan_none (oldLines contentLines : list string) (steps : nat) : forall i : nat,
  scan oldLines contentLines i steps = None <->
  (forall k, (i <= k < i + steps)%nat ->
             isMatch oldLines (windowAt oldLines contentLines k) = false).
Proof.
  induction steps as [|steps IH]; intros i; cbn [scan].
  - split; [intros _ k Hk; lia | reflexivity].
  - fold (windowAt oldLines contentLines i).
    destruct (isMatch oldLines (windowAt oldLines contentLines i)) eqn:E.
    + split; [discriminate|]. intros H. specialize (H i ltac:(lia)). congruence.
    + rewrite IH. split; intros H k Hk.
      * destruct (Nat.eq_dec k i) as [->|Hne]; [exact E | apply H; lia].
      * apply H. lia.
Qed.

Lemma firstMatch_none (oldLines contentLines : list string) :
  firstMatch oldLines contentLines = None <-> noWindowMatches oldLines contentLines.
Proof.
  unfold firstMatch, noWindowMatches. rewrite scan_none.
  split; intros H k Hk; apply H; lia.
Qed.

(** X22.  An edit fails exactly when its old text does not occur in the
    content and no window of content lines equals the old lines up to the
    white space at both ends of each line; when the old text has more
    lines than the content there is no window, so it fails unless it
    occurs.  The failure is always the error "Could not find exact or
    whitespace-insensitive match for edit:" followed by the old text as it
    was given. *)
Theorem edit_fails_iff_no_match (content : string) (e : EditOperation) :
  let old := normalizeLineEndings (oldText e) in
  ((exists err, applyEdit content e = Throw err) <->
   Js.includes content old = false
   /\ noWindowMatches (splitLines old) (splitLines content))
  /\ (forall err, applyEdit content e = Throw err -> err = noMatch e).
Proof.
  intros old. unfold applyEdit. fold old.
  destruct (Js.includes content old) eqn:Hi.
  - split.
    + split; [intros [err H]; discriminate | intros [H _]; discriminate].
    + intros err H. discriminate.
  - destruct (firstMatch (splitLines old) (splitLines content)) as [i|] eqn:Hm.
    + split.
      * split; [intros [err H]; discriminate|].
        intros [_ H]. apply firstMatch_none in H. congruence.
      * intros err H. discriminate.
    + split.
      * split; [|intros _; eauto].
        intros _. split; [reflexivity|]. apply firstMatch_none. exact Hm.
      * intros err [= <-]. reflexivity.
Qed.

Example old_text_longer_than_content :
  applyEdit "one line" (edit ("one line" ++ newline ++ "and another") "x")
  = Throw (noMatch (edit ("one line" ++ newline ++ "and another") "x")).
Proof. reflexivity. Qed.

Example indentation_is_ignored :
  applyEdit ("if (a) {" ++ newline ++ "    b();" ++ newline ++ "}")
            (edit ("  b();  ") "c();")
  = Normal ("if (a) {" ++ newline ++ "    c();" ++ newline ++ "}").
Proof. reflexivity. Qed.

Lemma outcome_bind {A B} (m : IO A) (k : A -> IO B) :
  outcome (m ≫= k)
  = match outcome m with
    | Normal a => outcome (k a)
    | Throw err => Throw err
    end.
Proof. unfold mbind, IO_bind. destruct (outcome m); reflexivity. Qed.

Lemma accesses_bind {A B} (m : IO A) (k : A -> IO B) :
  accesses (m ≫= k)
  = match outcome m with
    | Normal a => (accesses m ++ accesses (k a))%list
    | Throw _ => accesses m
    end.
Proof. unfold mbind, IO_bind. destruct (outcome m); reflexivity. Qed.

(** X23.  [applyFileEdits] reads the file once and writes it at most once,
    after every edit has been applied: on a dry run it writes nothing;
    when the file cannot be read, or when one edit fails, it throws that
    failure and writes nothing, even if earlier edits matched; otherwise
    it writes the content with all the edits applied in order, computed
    from the content with its line endings normalised. *)
Theorem applyFileEdits_writes_all_or_nothing
    (p : Platform) (filePath : string) (edits : list EditOperation) (dryRun : bool) :
  let run := applyFileEdits p filePath edits dryRun in
  match readFile p filePath with
  | Throw err => accesses run = [Read filePath] /\ outcome run = Throw err
  | Normal raw =>
      match applyEdits (normalizeLineEndings raw) edits with
      | Throw err => accesses run = [Read filePath] /\ outcome run = Throw err
      | Normal modifiedContent =>
          if dryRun
          then accesses run = [Read filePath]
               /\ exists text, outcome run = Normal text
          else accesses run = [Read filePath; Write filePath modifiedContent]
               /\ (forall err, writeFile p filePath modifiedContent = Throw err ->
                               outcome run = Throw err)
               /\ (writeFile p filePath modifiedContent = Normal tt ->
                   exists text, outcome run = Normal text)
      end
  end.
Proof.
  intros run. unfold run, applyFileEdits.
  rewrite accesses_bind, outcome_bind. cbn [fs_readFile outcome accesses].
  destruct (readFile p filePath) as [raw|err]; [|split; reflexivity].
  rewrite accesses_bind, outcome_bind. cbn [pure outcome accesses].
  destruct (applyEdits (normalizeLineEndings raw) edits) as [modifiedContent|err];
    [|split; reflexivity].
  rewrite accesses_bind, outcome_bind.
  destruct dryRun.
  - cbn. split; [reflexivity | eauto].
  - cbn [fs_writeFile outcome accesses].
    destruct (writeFile p filePath modifiedContent) as [[]|err].
    + cbn. split; [reflexivity|]. split; [discriminate | eauto].
    + cbn. split; [reflexivity|]. split; [intros ? [= <-]; reflexivity | discriminate].
Qed.

Example failed_edit_writes_nothing :
  let run := applyFileEdits (oneFile "a.txt" "alpha beta") "a.txt"
               [edit "alpha" "ALPHA"; edit "gamma" "GAMMA"] false in
  accesses run = [Read "a.txt"]
  /\ outcome run = Throw (noMatch (edit "gamma" "GAMMA")).
Proof. split; reflexivity. Qed.

End EditOutcome.

Section Fence.
Import JsText FileEdits EditStatements.

Lemma fence_unfold (diff : string) (n : nat) :
  fence diff n = if Js.includes diff (backticks n) then fence diff (S n) else n.
Proof.
  funelim (fence diff n).
  - rewrite occurs. reflexivity.
  - rewrite e. reflexivity.
Qed.

Lemma includes_length (s t : string) :
  Js.includes s t = true -> (String.length t <= String.length s)%nat.
Proof.
  assert (forall t s, Js.startsWith s t = true
                      -> (String.length t <= String.length s)%nat) as prefix.
  { clear. induction t as [|a t IH]; intros [|c s] H; simpl in *;
      try lia; try discriminate.
    apply andb_prop in H as [_ H]. apply IH in H. lia. }
  revert t. induction s as [|c s IH]; intros t H; simpl in H;
    apply orb_prop in H as [H|H]; try discriminate.
  - apply prefix in H. exact H.
  - apply prefix in H. exact H.
  - apply IH in H. simpl. lia.
Qed.

Lemma backticks_length (n : nat) : String.length (backticks n) = n.
Proof.
  unfold backticks. induction n as [|n IH]; [reflexivity|].
  change (S (String.length (repeat "`" n)) = S n). f_equal. exact IH.
Qed.

(** From [n] on, the loop stops at the first length whose run of backticks
    does not occur in the diff. *)
Lemma fence_stops (diff : string) (m : nat) : forall n : nat,
  (S (String.length diff) - n = m)%nat ->
  (n <= fence diff n)%nat
  /\ Js.includes diff (backticks (fence diff n)) = false
  /\ (forall k, (n <= k < fence diff n)%nat -> Js.includes diff (backticks k) = true).
Proof.
  induction m as [|m IH]; intros n Hm; rewrite fence_unfold.
  - destruct (Js.includes diff (backticks n)) eqn:E.
    + apply includes_length in E. rewrite backticks_length in E. lia.
    + split; [lia|]. split; [exact E|]. intros k Hk. lia.
  - destruct (Js.includes diff (backticks n)) eqn:E.
    + destruct (IH (S n) ltac:(lia)) as (H1 & H2 & H3).
      split; [lia|]. split; [exact H2|].
      intros k Hk. destruct (Nat.eq_dec k n) as [->|Hne]; [exact E | apply H3; lia].
    + split; [lia|]. split; [exact E|]. intros k Hk. lia.
Qed.

(** X24.  What [applyFileEdits] returns is the diff between two equal
    fences of backticks, the opening one followed by "diff": the fence is
    the shortest run of at least three backticks that does not occur in
    the diff, so no line of the diff can close it. *)
Theorem applyFileEdits_fence_is_not_in_diff
    (p : Platform) (filePath : string) (edits : list EditOperation) (dryRun : bool)
    (text : string) :
  outcome (applyFileEdits p filePath edits dryRun) = Normal text ->
  exists (diff : string) (n : nat),
    text = backticks n ++ "diff" ++ newline ++ diff ++ newline ++ backticks n
    /\ (3 <= n)%nat
    /\ Js.includes diff (backticks n) = false
    /\ (forall k, (3 <= k < n)%nat -> Js.includes diff (backticks k) = true).
Proof.
  unfold applyFileEdits.
  rewrite outcome_bind. cbn [fs_readFile outcome].
  destruct (readFile p filePath) as [raw|err]; [|discriminate].
  rewrite outcome_bind. cbn [pure outcome].
  destruct (applyEdits (normalizeLineEndings raw) edits) as [modifiedContent|err];
    [|discriminate].
  rewrite outcome_bind.
  set (diff := createUnifiedDiff p (normalizeLineEndings raw) modifiedContent
                 (relative p (cwd p) filePath)).
  destruct (outcome (if dryRun then mret tt
                     else fs_writeFile p filePath modifiedContent)) as [[]|err];
    [|discriminate].
  cbn [mret IO_ret outcome]. intros [= <-].
  destruct (fence_stops diff _ 3 eq_refl) as (H1 & H2 & H3).
  exists diff, (fence diff 3). split; [reflexivity|]. auto.
Qed.

Lemma applyFileEdits_fence_is_not_in_diff_witness :
  exists (diff : string) (n : nat),
    "````diff" ++ newline ++ "--- a```b" ++ newline ++ "+++ a`b" ++ newline ++ "````"
    = backticks n ++ "diff" ++ newline ++ diff ++ newline ++ backticks n
    /\ (3 <= n)%nat
    /\ Js.includes diff (backticks n) = false
    /\ (forall k, (3 <= k < n)%nat -> Js.includes diff (backticks k) = true).
Proof.
  apply (applyFileEdits_fence_is_not_in_diff (oneFile "notes.md" "a```b") "notes.md"
           [edit "```" "`"] true).
  vm_compute. reflexivity.
Defined.

End Fence.

(* ===================================================================== *)
(** ** The single-SDK client *)
(* ===================================================================== *)

Section GenAIStart.
Import ConfigResolver Resolved GenAIClient GenAIStatements.

Lemma exit_with_line {A} (line : string) (err : list string) :
  (console_error line ≫= (fun _ => process_exit 1) : Proc A) err
  = ((err ++ [line])%list, Exits 1).
Proof. reflexivity. Qed.

Lemma chosenOptions_ignores_provider (env : Env) (v : string) :
  chosenOptions (<["AI_PROVIDER" := v]> env) = chosenOptions env.
Proof. unfold chosenOptions. rewrite !lookup_insert_ne by discriminate. reflexivity. Qed.

(** X25.  [initializeAI] chooses the backend by the credential that is
    present, not by [AI_PROVIDER]: with a non-empty [GEMINI_API_KEY] it
    constructs the client from the API key, otherwise with a non-empty
    [GOOGLE_CLOUD_PROJECT] it constructs the Vertex client for the project
    and the location (or "us-central1"), and with neither it writes "Error
    initializing GoogleGenAI: Missing ..." and ends the process with exit
    code 1, as it does with the message of the failure when the
    construction fails.  The warnings of the resolver come first. *)
Theorem initializeAI_chooses_by_credential (b : Builtins) (env : Env)
    (construct : GoogleGenAIOptions -> Completion GoogleGenAI) (err : list string) :
  (exists cfg,
     resolved b env = Some cfg
     /\ initializeAI b env construct err
        = match chosenOptions env with
          | None => ((err ++ warnings b env ++ [initFailed noCredentials])%list, Exits 1)
          | Some options =>
              match construct options with
              | Normal client =>
                  ((err ++ warnings b env)%list,
                   Returns {| ai := Some client; aiConfig := Some cfg |})
              | Throw e =>
                  ((err ++ warnings b env ++ [initFailed (Sdk.message e)])%list, Exits 1)
              end
          end)
  /\ (forall v, chosenOptions (<["AI_PROVIDER" := v]> env) = chosenOptions env).
Proof.
  split; [|intros v; apply chosenOptions_ignores_provider].
  unfold resolved. rewrite getAIConfig_reads. eexists. split; [reflexivity|].
  unfold initializeAI.
  rewrite (Proc_bind_returns _ _ _ _ _ (getAIConfig_reads b env err)).
  cbn [geminiApiKey gcpProjectId gcpLocation].
  unfold chosenOptions, initFailed, noCredentials.
  destruct (env !! "GEMINI_API_KEY") as [[|c k]|];
    cbn [Js.truthy GenerativeClient.interpolate].
  2: { destruct (construct (ApiKey (String c k))) as [client|e];
         [reflexivity | rewrite exit_with_line, <- List.app_assoc; reflexivity]. }
  all: destruct (env !! "GOOGLE_CLOUD_PROJECT") as [[|c2 p]|];
    cbn [Js.truthy GenerativeClient.interpolate andb].
  all: try (rewrite exit_with_line, <- List.app_assoc; reflexivity).
  all: destruct (env !! "GOOGLE_CLOUD_LOCATION") as [[|ch s]|]; cbn [Js.orElse].
  all: destruct (construct _) as [client|e];
    [reflexivity | rewrite exit_with_line, <- List.app_assoc; reflexivity].
Qed.

Example key_wins_over_vertex_provider :
  let env : Env := <["AI_PROVIDER" := "vertex"]> (<["GEMINI_API_KEY" := "k"]> ∅) in
  chosenOptions env = Some (ApiKey "k")
  /\ snd (validateConfig env []) = Exits 1.
Proof. split; vm_compute; reflexivity. Qed.

End GenAIStart.

Section GenAIAttempt.
Import GenAIClient GenAIStatements.

Lemma genai_events_bind {A B} (m : Run A) (k : A -> Run B) :
  events (m ≫= k)
  = match completion m with
    | Normal a => (events m ++ events (k a))%list
    | Throw _ => events m
    end.
Proof. unfold mbind, Run_bind. destruct (completion m); reflexivity. Qed.

Lemma genai_completion_bind {A B} (m : Run A) (k : A -> Run B) :
  completion (m ≫= k)
  = match completion m with
    | Normal a => completion (k a)
    | Throw e => Throw e
    end.
Proof. unfold mbind, Run_bind. destruct (completion m); reflexivity. Qed.

Variable client : GoogleGenAI.
Variable cfg : AIConfig.
Variable c : list Content.
Variable ts : option (list Tool).

Lemma chunkStep_events (state : string * option Response) (chunk : Response) :
  events (chunkStep state chunk) = [].
Proof.
  unfold chunkStep. rewrite genai_events_bind.
  unfold tryCatch, await. rewrite genai_completion_bind, genai_events_bind.
  cbn [completion events].
  destruct (text chunk) as [t|e]; cbn [completion events app mret Run_ret].
  - reflexivity.
  - destruct (GenerativeClient.messageIncludes e "safety"); reflexivity.
Qed.

Lemma forAwait_events (failure : option JsError) (xs : list Response) :
  forall state, events (forAwait chunkStep xs failure state) = [].
Proof.
  induction xs as [|x xs IH]; intros state; cbn [forAwait].
  - destruct failure; reflexivity.
  - rewrite genai_events_bind, chunkStep_events.
    destruct (completion (chunkStep state x)); [apply IH | reflexivity].
Qed.

Lemma streaming_events (a : Z) :
  events (streaming client cfg c ts a) = [GenerateStream a (parameters cfg c ts)].
Proof.
  unfold streaming. rewrite genai_events_bind. cbn [callGenerateContentStream completion events].
  destruct (generateContentStream client a) as [stream|e]; [|reflexivity].
  rewrite genai_events_bind, forAwait_events.
  destruct (completion (forAwait chunkStep _ _ _)) as [[acc lastChunk]|e]; [|reflexivity].
  cbv zeta.
  destruct (Js.truthy _); [reflexivity|].
  destruct (GenerativeClient.strictEq _ _); [reflexivity|].
  destruct acc; reflexivity.
Qed.

Lemma nonStreaming_events (a : Z) :
  events (nonStreaming client cfg c ts a) = [Generate a (parameters cfg c ts)].
Proof.
  unfold nonStreaming. rewrite genai_events_bind.
  unfold tryCatch, callGenerateContent. cbn [completion events].
  destruct (generateContent client a) as [result|e]; cbn [completion events].
  - cbv zeta.
    destruct (Js.truthy (blockReasonOf result)); [reflexivity|].
    destruct (GenerativeClient.strictEq _ _); [reflexivity|].
    destruct (Js.truthy _); reflexivity.
  - destruct (_ || _ || _)%bool; reflexivity.
Qed.

Lemma genai_executeAttempt_events (a : Z) :
  events (executeAttempt client cfg c ts a) = [genaiInvocationOf cfg c ts a].
Proof.
  unfold executeAttempt, genaiInvocationOf. rewrite genai_events_bind.
  destruct (useStreaming cfg).
  - rewrite streaming_events.
    destruct (completion (streaming client cfg c ts a)) as [[t|]|e]; reflexivity.
  - rewrite nonStreaming_events.
    destruct (completion (nonStreaming client cfg c ts a)) as [[t|]|e]; reflexivity.
Qed.

Variable rnd : Z -> Q.

Lemma genaiRetryLoop_step (a : Z) :
  genaiRetryLoop client cfg rnd c ts a =
  if a <=? maxRetries cfg then
    match completion (executeAttempt client cfg c ts a) with
    | Normal t => ([genaiInvocationOf cfg c ts a], Returned t)
    | Throw e =>
        if (GenerativeClient.isRetryable e && (a <? maxRetries cfg))%bool then
          (genaiInvocationOf cfg c ts a :: Sleep (retryDelay cfg rnd a)
             :: fst (genaiRetryLoop client cfg rnd c ts (a + 1)),
           snd (genaiRetryLoop client cfg rnd c ts (a + 1)))
        else ([genaiInvocationOf cfg c ts a], genaiOutcomeOf cfg (Throw e))
    end
  else ([], Raised (maxRetriesReached cfg)).
Proof.
  rewrite genaiRetryLoop_unfold_eq. unfold genaiRetryLoop_unfold.
  destruct (Z_le_gt_dec a (maxRetries cfg)) as [Hle|Hgt];
    destruct (Z.leb_spec a (maxRetries cfg)); try lia; simpl; [|reflexivity].
  pose proof (genai_executeAttempt_events a) as Hev.
  destruct (executeAttempt client cfg c ts a) as [evs [t|e]]; simpl in *; subst evs.
  - reflexivity.
  - destruct (GenerativeClient.isRetryable e && (a <? maxRetries cfg))%bool; simpl;
      reflexivity.
Qed.

(** From attempt [a] on, the loop stops at the first attempt that
    succeeds, or fails without a retryable signature, or is the last. *)
Lemma genaiRetryLoop_decisive (n : nat) : forall a : Z,
  a <= maxRetries cfg ->
  Z.to_nat (maxRetries cfg - a) = n ->
  exists k, a <= k <= maxRetries cfg
    /\ (forall i, a <= i < k -> genaiFailsRetryably client cfg c ts i)
    /\ (k < maxRetries cfg -> ~ genaiFailsRetryably client cfg c ts k)
    /\ genaiRetryLoop client cfg rnd c ts a
       = ((genaiRetried cfg rnd c ts a (Z.to_nat (k - a))
           ++ [genaiInvocationOf cfg c ts k])%list,
          genaiOutcomeOf cfg (completion (executeAttempt client cfg c ts k))).
Proof.
  induction n as [|n IH]; intros a Ha Hn.
  all: pose proof (genaiRetryLoop_step a) as Hstep.
  all: destruct (Z.leb_spec a (maxRetries cfg)); [|lia].
  all: destruct (completion (executeAttempt client cfg c ts a)) as [t|e] eqn:E.
  all: try (exists a; split; [lia|]; split; [intros i Hi; lia|]; split;
            [intros _ (e' & He' & _); congruence|];
            rewrite Hstep, E, Z.sub_diag; reflexivity).
  - exists a. split; [lia|]. split; [intros i Hi; lia|]. split; [lia|].
    destruct (Z.ltb_spec a (maxRetries cfg)); [lia|]. rewrite andb_false_r in Hstep.
    rewrite Hstep, E, Z.sub_diag. reflexivity.
  - destruct (GenerativeClient.isRetryable e && (a <? maxRetries cfg))%bool eqn:Hc.
    + apply andb_prop in Hc as [Hr Hlt]. apply Z.ltb_lt in Hlt.
      destruct (IH (a + 1) ltac:(lia) ltac:(lia)) as (k & Hk & Hbefore & Hdec & Hloop).
      exists k. split; [lia|]. split; [|split; [exact Hdec|]].
      * intros i Hi. destruct (Z.eq_dec i a) as [->|Hne].
        -- exists e. auto.
        -- apply Hbefore. lia.
      * rewrite Hstep, Hloop. cbn [fst snd].
        replace (Z.to_nat (k - a)) with (S (Z.to_nat (k - (a + 1)))) by lia.
        unfold genaiRetried. rewrite range_succ. reflexivity.
    + exists a. split; [lia|]. split; [intros i Hi; lia|]. split.
      * intros Hlt (e' & He' & Hr'). rewrite E in He'. injection He' as <-.
        rewrite Hr' in Hc. apply Z.ltb_lt in Hlt. rewrite Hlt in Hc. discriminate.
      * rewrite Hstep, E, Z.sub_diag. reflexivity.
Qed.

(** The loop over readable chunks: texts are appended, the last chunk is
    remembered. *)
Lemma forAwait_readable (xs : list Response) : forall (acc : string) (l : option Response),
  List.Forall readable xs ->
  completion (forAwait chunkStep xs None (acc, l))
  = Normal (acc ++ chunkTexts xs, lastChunkOf xs l).
Proof.
  induction xs as [|x xs IH]; intros acc l Hr; cbn [forAwait chunkTexts lastChunkOf].
  - cbn. rewrite append_nil_r. reflexivity.
  - apply List.Forall_cons_iff in Hr as [[t Ht] Hr].
    rewrite genai_completion_bind.
    assert (completion (chunkStep (acc, l) x)
            = Normal (match chunkText x with Some s => acc ++ s | None => acc end, Some x))
      as ->.
    { unfold chunkStep, chunkText. rewrite genai_completion_bind.
      unfold tryCatch, await. rewrite genai_completion_bind. cbn [completion fst].
      rewrite Ht. cbn [completion mret Run_ret].
      destruct t as [[|ch s]|]; reflexivity. }
    rewrite (IH _ _ Hr).
    destruct (chunkText x); [rewrite append_assoc|]; reflexivity.
Qed.

End GenAIAttempt.

Section GenAITheorems.
Import ConfigResolver Resolved GenAIClient GenAIStatements.

Lemma strictEq_decide (v : option string) (s : string) :
  GenerativeClient.strictEq v s = if decide (v = Some s) then true else false.
Proof.
  unfold GenerativeClient.strictEq, GenerativeClient.strictNe.
  destruct v as [x|]; [|destruct (decide (None = Some s)); [discriminate | reflexivity]].
  rewrite negb_involutive.
  destruct (String.eqb_spec x s) as [->|Hne];
    destruct (decide (_ = _)) as [Heq|Hneq]; try reflexivity.
  - exfalso. apply Hneq. reflexivity.
  - exfalso. apply Hne. congruence.
Qed.

(** X26.  In a streaming attempt of the single-SDK client whose chunks can
    all be read and whose stream ends normally, the accumulated text is
    the texts of the chunks appended in order, and the block checks look
    at the last chunk only: the attempt fails as blocked exactly when the
    last chunk carries a non-empty block reason or its first candidate
    the finish reason SAFETY, whatever the earlier chunks carry; otherwise
    it yields the accumulated text, or fails when that is empty. *)
Theorem genai_stream_last_chunk_decides (client : GoogleGenAI) (cfg : AIConfig)
    (c : list Content) (ts : option (list Tool)) (a : Z) (cs : list Response) :
  generateContentStream client a = Normal {| chunks := cs; streamFailure := None |} ->
  List.Forall readable cs ->
  completion (streaming client cfg c ts a)
  = afterStream (lastChunkOf cs None) (chunkTexts cs).
Proof.
  intros Hs Hr. unfold streaming.
  rewrite genai_completion_bind. cbn [callGenerateContentStream completion].
  rewrite Hs. cbn [chunks streamFailure].
  rewrite genai_completion_bind, (forAwait_readable cs "" None Hr).
  change ("" ++ chunkTexts cs) with (chunkTexts cs).
  cbv zeta. unfold afterStream.
  rewrite (strictEq_decide (finishReasonOf (lastChunkOf cs None)) "SAFETY").
  destruct (blockReasonOf (lastChunkOf cs None)) as [[|ch r]|]; cbn [Js.truthy];
    try reflexivity.
  all: destruct (decide (finishReasonOf (lastChunkOf cs None) = Some "SAFETY"));
    [reflexivity|].
  all: destruct (chunkTexts cs); reflexivity.
Qed.

Lemma genai_stream_last_chunk_decides_witness :
  completion (streaming (streamingClient [flaggedChunk "flagged " "SAFETY"; textChunk "text"])
                (sampleConfig true 3) [] None 0)
  = afterStream (lastChunkOf [flaggedChunk "flagged " "SAFETY"; textChunk "text"] None)
      (chunkTexts [flaggedChunk "flagged " "SAFETY"; textChunk "text"]).
Proof.
  apply (genai_stream_last_chunk_decides
           (streamingClient [flaggedChunk "flagged " "SAFETY"; textChunk "text"])
           (sampleConfig true 3) [] None 0
           [flaggedChunk "flagged " "SAFETY"; textChunk "text"]).
  - reflexivity.
  - repeat constructor; eexists; reflexivity.
Defined.

Example earlier_block_reason_is_ignored :
  completion (streaming (streamingClient [flaggedChunk "flagged " "SAFETY"; textChunk "text"])
                (sampleConfig true 3) [] None 0)
  = Normal (Some "flagged text")
  /\ completion (streaming (streamingClient [textChunk "text"; flaggedChunk "" "SAFETY"])
                   (sampleConfig true 3) [] None 0)
     = Throw (newError "Content generation blocked. Aggregated Reason: SAFETY").
Proof. split; reflexivity. Qed.

(** X27.  With [maxRetries >= 0], every call of the single-SDK
    [callGenerativeAI] on an initialised module has one shape: the
    attempts [0, ..., k-1] fail with a retryable signature and are each
    followed by their backoff sleep, then attempt [k <= maxRetries]
    decides the call.  Every invocation carries the same parameters: the
    model id, the contents, and the caller's tools as they were given
    when the list is not empty (they are not filtered on either provider,
    and the parameters hold no generation settings and no safety
    settings). *)
Theorem genai_call_ends_at_first_decisive_attempt (client : GoogleGenAI) (cfg : AIConfig)
    (rnd : Z -> Q) (c : list Content) (ts : option (list Tool)) :
  0 <= maxRetries cfg ->
  (exists k, 0 <= k <= maxRetries cfg
     /\ (forall i, 0 <= i < k -> genaiFailsRetryably client cfg c ts i)
     /\ (k < maxRetries cfg -> ~ genaiFailsRetryably client cfg c ts k)
     /\ callGenerativeAI (initialized client cfg) rnd c ts
        = ((genaiRetried cfg rnd c ts 0 (Z.to_nat k)
            ++ [genaiInvocationOf cfg c ts k])%list,
           genaiOutcomeOf cfg (completion (executeAttempt client cfg c ts k))))
  /\ parameters cfg c ts
     = {| model := modelId cfg;
          contents := c;
          config := match ts with
                    | Some [] => None
                    | _ => ts
                    end |}.
Proof.
  intros Hm. split.
  - destruct (genaiRetryLoop_decisive client cfg c ts rnd _ 0 Hm eq_refl)
      as (k & Hk & Hbefore & Hdec & Hloop).
    rewrite Z.sub_0_r in Hloop.
    exists k. split; [exact Hk|]. split; [exact Hbefore|]. split; [exact Hdec|].
    exact Hloop.
  - unfold parameters. destruct ts as [[|t r]|]; reflexivity.
Qed.

Lemma genai_call_ends_at_first_decisive_attempt_witness :
  (exists k, 0 <= k <= 3
     /\ (forall i, 0 <= i < k ->
           genaiFailsRetryably answersOnThirdCall (sampleConfig false 3) []
             (Some [Scenarios.functionTool; Scenarios.searchRetrievalTool]) i)
     /\ (k < 3 ->
           ~ genaiFailsRetryably answersOnThirdCall (sampleConfig false 3) []
               (Some [Scenarios.functionTool; Scenarios.searchRetrievalTool]) k)
     /\ callGenerativeAI (initialized answersOnThirdCall (sampleConfig false 3))
          Scenarios.half [] (Some [Scenarios.functionTool; Scenarios.searchRetrievalTool])
        = ((genaiRetried (sampleConfig false 3) Scenarios.half []
              (Some [Scenarios.functionTool; Scenarios.searchRetrievalTool]) 0 (Z.to_nat k)
            ++ [genaiInvocationOf (sampleConfig false 3) []
                  (Some [Scenarios.functionTool; Scenarios.searchRetrievalTool]) k])%list,
           genaiOutcomeOf (sampleConfig false 3)
             (completion (executeAttempt answersOnThirdCall (sampleConfig false 3) []
                            (Some [Scenarios.functionTool; Scenarios.searchRetrievalTool])
                            k))))
  /\ parameters (sampleConfig false 3) []
       (Some [Scenarios.functionTool; Scenarios.searchRetrievalTool])
     = {| model := modelId (sampleConfig false 3);
          contents := [];
          config := Some [Scenarios.functionTool; Scenarios.searchRetrievalTool] |}.
Proof.
  apply (genai_call_ends_at_first_decisive_attempt answersOnThirdCall (sampleConfig false 3)
           Scenarios.half [] (Some [Scenarios.functionTool; Scenarios.searchRetrievalTool])).
  simpl. lia.
Defined.

Example genai_two_failures_then_answer :
  callGenerativeAI (initialized answersOnThirdCall (sampleConfig true 3))
    Scenarios.half [] None
  = ([GenerateStream 0 (parameters (sampleConfig true 3) [] None); Sleep 1250;
      GenerateStream 1 (parameters (sampleConfig true 3) [] None); Sleep 2250;
      GenerateStream 2 (parameters (sampleConfig true 3) [] None)],
     Returned "third time lucky").
Proof. vm_compute. reflexivity. Qed.

(** [initializeAI] returns only an initialised module, under the resolved
    configuration. *)
Lemma initializeAI_outcome (b : Builtins) (env : Env)
    (construct : GoogleGenAIOptions -> Completion GoogleGenAI) (err : list string) :
  exists cfg,
    resolved b env = Some cfg
    /\ 0 <= maxRetries cfg
    /\ match initializeAI b env construct err with
       | (_, Returns state) => exists client, state = initialized client cfg
       | (_, Exits _) => True
       end.
Proof.
  destruct (resolved_ranges b env) as (cfg & Hcfg & Hm).
  exists cfg. split; [exact Hcfg|]. split; [exact Hm|].
  pose proof Hcfg as Hc. unfold resolved in Hc. rewrite getAIConfig_reads in Hc.
  injection Hc as Hc.
  unfold initializeAI.
  rewrite (Proc_bind_returns _ _ _ _ _ (getAIConfig_reads b env err)). rewrite Hc.
  match goal with
  | |- context [match ?x with Normal _ => _ | Throw _ => _ end] => destruct x as [client|e]
  end.
  - exists client. reflexivity.
  - rewrite exit_with_line. exact I.
Qed.

(** X28.  Before [initializeAI] the single-SDK [callGenerativeAI] throws
    the plain error "AI client not initialized. Call initializeAI()
    first." without invoking anything.  Once [initializeAI] has returned,
    it never does: every call invokes the SDK at least once, and ends
    with a text or with an [McpError] that is not "Max retries reached",
    under the configuration the resolver gave. *)
Theorem genai_call_after_initializeAI (b : Builtins) (env : Env)
    (construct : GoogleGenAIOptions -> Completion GoogleGenAI)
    (err err' : list string) (state : Module)
    (rnd : Z -> Q) (c : list Content) (ts : option (list Tool)) :
  initializeAI b env construct err = (err', Returns state) ->
  callGenerativeAI notInitialized rnd c ts
  = ([], Failed (newError "AI client not initialized. Call initializeAI() first."))
  /\ exists client cfg,
       state = initialized client cfg
       /\ resolved b env = Some cfg
       /\ fst (callGenerativeAI state rnd c ts) <> []
       /\ (forall e, snd (callGenerativeAI state rnd c ts) <> Failed e)
       /\ snd (callGenerativeAI state rnd c ts) <> Raised (maxRetriesReached cfg).
Proof.
  intros Hinit. split; [reflexivity|].
  destruct (initializeAI_outcome b env construct err) as (cfg & Hcfg & Hm & Hcase).
  rewrite Hinit in Hcase. destruct Hcase as (client & ->).
  exists client, cfg. split; [reflexivity|]. split; [exact Hcfg|].
  destruct (genaiRetryLoop_decisive client cfg c ts rnd _ 0 Hm eq_refl)
    as (k & _ & _ & _ & Hloop).
  unfold callGenerativeAI, initialized. cbn [ai aiConfig]. rewrite Hloop. cbn [fst snd].
  split; [|split].
  - intros H. apply List.app_eq_nil in H as [_ H]. discriminate.
  - intros e. destruct (completion (executeAttempt client cfg c ts k)); discriminate.
  - destruct (completion (executeAttempt client cfg c ts k)) as [t|e]; cbn;
      [discriminate|].
    intros H. injection H as H.
    apply (finalError_not_maxRetriesReached cfg e).
    unfold finalError, GenerativeClient.maxRetriesReached. f_equal. exact H.
Qed.

Lemma genai_call_after_initializeAI_witness :
  callGenerativeAI notInitialized Scenarios.half [] None
  = ([], Failed (newError "AI client not initialized. Call initializeAI() first."))
  /\ exists client cfg,
       initialized answersOnThirdCall
         {| provider := vertex; modelId := "gemini-2.5-pro-exp-03-25"; temperature := 0;
            useStreaming := true; maxOutputTokens := 8192; maxRetries := 3;
            retryDelayMs := 1000; gcpProjectId := None; gcpLocation := "us-central1";
            geminiApiKey := Some "k" |}
       = initialized client cfg
       /\ resolved deaf (<["GEMINI_API_KEY" := "k"]> ∅) = Some cfg
       /\ fst (callGenerativeAI (initialized answersOnThirdCall
                 {| provider := vertex; modelId := "gemini-2.5-pro-exp-03-25";
                    temperature := 0; useStreaming := true; maxOutputTokens := 8192;
                    maxRetries := 3; retryDelayMs := 1000; gcpProjectId := None;
                    gcpLocation := "us-central1"; geminiApiKey := Some "k" |})
                 Scenarios.half [] None) <> []
       /\ (forall e,
             snd (callGenerativeAI (initialized answersOnThirdCall
                    {| provider := vertex; modelId := "gemini-2.5-pro-exp-03-25";
                       temperature := 0; useStreaming := true; maxOutputTokens := 8192;
                       maxRetries := 3; retryDelayMs := 1000; gcpProjectId := None;
                       gcpLocation := "us-central1"; geminiApiKey := Some "k" |})
                    Scenarios.half [] None) <> Failed e)
       /\ snd (callGenerativeAI (initialized answersOnThirdCall
                 {| provider := vertex; modelId := "gemini-2.5-pro-exp-03-25";
                    temperature := 0; useStreaming := true; maxOutputTokens := 8192;
                    maxRetries := 3; retryDelayMs := 1000; gcpProjectId := None;
                    gcpLocation := "us-central1"; geminiApiKey := Some "k" |})
                 Scenarios.half [] None) <> Raised (maxRetriesReached cfg).
Proof.
  apply (genai_call_after_initializeAI deaf (<["GEMINI_API_KEY" := "k"]> ∅)
           (fun _ => Normal answersOnThirdCall) [] []).
  vm_compute. reflexivity.
Defined.

End GenAITheorems.

(* ===================================================================== *)
(** ** The request handler of the earlier [index.ts] *)
(* ===================================================================== *)

Section HandlerProperties.
Import VertexClient Outcomes Server ServerStatements.

Context {Args : Type}.
Variable toolMap : gmap string (ToolDefinition Args).
Variable config : VertexAIConfig.
Variable vertexAI : VertexAI.
Variable safety : list SafetySetting.

(** The call the handler makes of the client for a prompt. *)
Let clientCall (prompt : Prompt) : list Event * CallResult :=
  callVertexAIWithOptionalFunctionCalling vertexAI safety
    (buildInitialContent (systemInstructionText prompt) (userQueryText prompt))
    (getToolsForApi (enableFunctionCalling prompt) (useWebSearch prompt))
    (cfg_modelId config) (cfg_temperature config) (cfg_useStreaming config)
    (cfg_maxOutputTokens config) (cfg_maxRetries config) (cfg_retryDelayMs config).

Lemma vertex_attempts_retried (c : list Sdk.Content) (ts : option (list Tool))
    (a : Z) (n : nat) :
  attempts (vertexRetried vertexAI safety c ts (cfg_modelId config) (cfg_temperature config)
              (cfg_useStreaming config) (cfg_maxOutputTokens config)
              (cfg_retryDelayMs config) a n)
  = range a n.
Proof.
  unfold vertexRetried.
  induction (range a n) as [|i l IH]; [reflexivity|].
  cbn [List.flat_map].
  change ([?x; ?y] ++ ?r)%list with ([x] ++ [y] ++ r)%list.
  rewrite !attempts_app, IH.
  unfold vertexInvocationOf. destruct (cfg_useStreaming config); reflexivity.
Qed.

Lemma clientCall_shape (prompt : Prompt) :
  0 <= cfg_maxRetries config ->
  (1 <= List.length (attempts (fst (clientCall prompt)))
   <= Z.to_nat (cfg_maxRetries config + 1))%nat
  /\ ((exists t, snd (clientCall prompt) = Returned t /\ t <> "")
      \/ exists e, snd (clientCall prompt) = Raised e).
Proof.
  intros Hm. unfold clientCall, callVertexAIWithOptionalFunctionCalling.
  destruct (vertexRetryLoop_decisive vertexAI safety
              (buildInitialContent (systemInstructionText prompt) (userQueryText prompt))
              (getToolsForApi (enableFunctionCalling prompt) (useWebSearch prompt))
              (cfg_modelId config) (cfg_temperature config) (cfg_useStreaming config)
              (cfg_maxOutputTokens config) (cfg_maxRetries config) (cfg_retryDelayMs config)
              _ 0 Hm eq_refl) as (k & Hk & _ & _ & Hloop).
  rewrite Hloop. cbn [fst snd]. split.
  - rewrite attempts_app.
    change (List.flat_map _ (range 0 (Z.to_nat (k - 0))))
      with (vertexRetried vertexAI safety
              (buildInitialContent (systemInstructionText prompt) (userQueryText prompt))
              (getToolsForApi (enableFunctionCalling prompt) (useWebSearch prompt))
              (cfg_modelId config) (cfg_temperature config) (cfg_useStreaming config)
              (cfg_maxOutputTokens config) (cfg_retryDelayMs config) 0 (Z.to_nat (k - 0))).
    rewrite vertex_attempts_retried, List.length_app, range_length.
    unfold vertexInvocationOf. destruct (cfg_useStreaming config); cbn; lia.
  - destruct (completion (executeAttempt _ _ _ _ _ _ _ _ k)) as [t|e] eqn:E; cbn.
    + left. exists t. split; [reflexivity|].
      revert E. apply vertex_executeAttempt_nonempty; exact 0.
    + right. eauto.
Qed.

Lemma callTool_prompt (toolName : string) (args : Args)
    (toolDefinition : ToolDefinition Args) (prompt : Prompt) :
  toolMap !! toolName = Some toolDefinition ->
  buildPrompt toolDefinition args (cfg_modelId config) = inr prompt ->
  callTool toolMap config vertexAI safety toolName args
  = (fst (clientCall prompt),
     match snd (clientCall prompt) with
     | Returned responseText => Content [responseText]
     | Raised error => Error (ofClient error)
     end).
Proof.
  intros Ht Hp. unfold callTool. rewrite Ht, Hp. fold (clientCall prompt).
  destruct (clientCall prompt) as [evs [t|e]]; reflexivity.
Qed.

(** X29.  The handler invokes the model exactly when the tool is known and
    its prompt could be built (given [maxRetries >= 0]).  For an unknown
    tool it throws MethodNotFound "Unknown tool: name" without consulting
    anything; an [McpError] thrown by the tool's [buildPrompt] leaves the
    handler unchanged, with its own code; any other error of [buildPrompt]
    leaves as InternalError "Unexpected server error: " followed by its
    message, or "Unknown". *)
Theorem tool_call_invokes_iff_prompt_built (toolName : string) (args : Args) :
  0 <= cfg_maxRetries config ->
  let run := callTool toolMap config vertexAI safety toolName args in
  (fst run = [] <->
   toolMap !! toolName = None
   \/ exists toolDefinition thrown,
        toolMap !! toolName = Some toolDefinition
        /\ buildPrompt toolDefinition args (cfg_modelId config) = inl thrown)
  /\ (toolMap !! toolName = None ->
      run = ([], Error {| code := MethodNotFound;
                          message := "Unknown tool: " ++ toolName |}))
  /\ (forall toolDefinition thrown,
        toolMap !! toolName = Some toolDefinition ->
        buildPrompt toolDefinition args (cfg_modelId config) = inl thrown ->
        run = ([], Error match thrown with
                         | ThrownMcp error => error
                         | ThrownError error =>
                             {| code := InternalError;
                                message := "Unexpected server error: "
                                             ++ GenerativeClient.messageOr error "Unknown" |}
                         end)).
Proof.
  intros Hm run. unfold run.
  split; [|split].
  - destruct (toolMap !! toolName) as [toolDefinition|] eqn:Ht.
    + destruct (buildPrompt toolDefinition args (cfg_modelId config))
        as [thrown|prompt] eqn:Hp.
      * unfold callTool. rewrite Ht, Hp.
        split; [intros _; right; eauto|]. intros _. destruct thrown; reflexivity.
      * rewrite (callTool_prompt _ _ _ _ Ht Hp). cbn [fst].
        destruct (clientCall_shape prompt Hm) as [Hlen _].
        split.
        -- intros H. rewrite H in Hlen. cbn in Hlen. lia.
        -- intros [H | (d & thrown & Hd & Hthrown)]; [discriminate|].
           injection Hd as <-. congruence.
    + unfold callTool. rewrite Ht. split; [intros _; left; reflexivity | reflexivity].
  - intros Ht. unfold callTool. rewrite Ht. reflexivity.
  - intros toolDefinition thrown Ht Hp. unfold callTool. rewrite Ht, Hp.
    destruct thrown; reflexivity.
Qed.

(** X30.  For a known tool whose prompt is built, one request is one call
    of the client, made with the single user content "system instruction,
    empty line, user query" and with the search declaration exactly when
    the prompt asks for web search: the events of the request are the
    events of that call, every invocation goes through the preview entry
    point with the search declaration when the prompt asks for web search
    and through the default entry point without tools otherwise, and
    there are at least one and at most [maxRetries + 1] invocations.  The
    reply is fixed by the outcome of that call: one text item holding the
    text the call returned, which is not empty, or an InternalError whose
    message argument is the one of the [McpError] the call raised. *)
Theorem tool_call_is_one_client_call (toolName : string) (args : Args)
    (toolDefinition : ToolDefinition Args) (prompt : Prompt) :
  toolMap !! toolName = Some toolDefinition ->
  buildPrompt toolDefinition args (cfg_modelId config) = inr prompt ->
  0 <= cfg_maxRetries config ->
  let run := callTool toolMap config vertexAI safety toolName args in
  let call :=
    callVertexAIWithOptionalFunctionCalling vertexAI safety (promptContent prompt)
      (if useWebSearch prompt then Some [googleSearchTool] else None)
      (cfg_modelId config) (cfg_temperature config) (cfg_useStreaming config)
      (cfg_maxOutputTokens config) (cfg_maxRetries config) (cfg_retryDelayMs config) in
  fst run = fst call
  /\ List.Forall
       (fun ev => isSleep ev = true
                  \/ (entryOf ev = Some (if useWebSearch prompt then Preview else Default)
                      /\ toolsOf ev = (if useWebSearch prompt
                                       then Some [googleSearchTool] else None)
                      /\ contentsOf ev = Some (promptContent prompt)))
       (fst run)
  /\ (1 <= List.length (attempts (fst run)) <= Z.to_nat (cfg_maxRetries config + 1))%nat
  /\ ((exists t, snd call = Returned t /\ snd run = Content [t] /\ t <> "")
      \/ (exists e, snd call = Raised e
                    /\ snd run = Error {| code := InternalError;
                                          message := mcpMessage e |})).
Proof.
  intros Ht Hp Hm run call. unfold run. rewrite (callTool_prompt _ _ _ _ Ht Hp).
  cbn [fst snd].
  assert (clientCall prompt = call) as Hcall.
  { unfold clientCall, call, getToolsForApi, buildInitialContent, promptContent.
    reflexivity. }
  destruct (clientCall_shape prompt Hm) as [Hlen Hout].
  split; [rewrite Hcall; reflexivity|].
  split; [|split; [exact Hlen|]].
  - unfold clientCall.
    eapply List.Forall_impl;
      [|apply (vertexRetryLoop_events vertexAI safety _ _ (cfg_modelId config)
                 (cfg_temperature config) (cfg_useStreaming config)
                 (cfg_maxOutputTokens config) (cfg_maxRetries config)
                 (cfg_retryDelayMs config) _ 0 eq_refl)].
    intros ev [Hs | (i & ->)]; [left; exact Hs | right].
    unfold vertexInvocationOf, promptContent, buildInitialContent.
    destruct (useWebSearch prompt), (cfg_useStreaming config); repeat split.
  - rewrite <- Hcall.
    destruct Hout as [(t & Hret & Hne) | (e & Hraised)].
    + left. exists t. rewrite Hret. auto.
    + right. exists e. rewrite Hraised. split; [reflexivity|].
      unfold ofClient. destruct (mcpCode e). reflexivity.
Qed.

End HandlerProperties.

Section HandlerWitnesses.
Import VertexClient Outcomes Scenarios Server ServerStatements.

Lemma tool_call_invokes_iff_prompt_built_witness :
  let run := callTool sampleTools sampleVertexConfig (vertexOf answersOnThird)
               vertexSafetySettings "read_file_content" "{}" in
  (fst run = [] <->
   sampleTools !! "read_file_content" = None
   \/ exists toolDefinition thrown,
        sampleTools !! "read_file_content" = Some toolDefinition
        /\ buildPrompt toolDefinition "{}" (cfg_modelId sampleVertexConfig) = inl thrown)
  /\ (sampleTools !! "read_file_content" = None ->
      run = ([], Error {| code := MethodNotFound;
                          message := "Unknown tool: " ++ "read_file_content" |}))
  /\ (forall toolDefinition thrown,
        sampleTools !! "read_file_content" = Some toolDefinition ->
        buildPrompt toolDefinition "{}" (cfg_modelId sampleVertexConfig) = inl thrown ->
        run = ([], Error match thrown with
                         | ThrownMcp error => error
                         | ThrownError error =>
                             {| code := InternalError;
                                message := "Unexpected server error: "
                                             ++ GenerativeClient.messageOr error "Unknown" |}
                         end)).
Proof.
  apply (tool_call_invokes_iff_prompt_built sampleTools sampleVertexConfig
           (vertexOf answersOnThird) vertexSafetySettings "read_file_content" "{}").
  simpl. lia.
Defined.

Lemma tool_call_is_one_client_call_witness :
  let prompt := {| systemInstructionText := "You are gemini-2.5-pro-exp-03-25";
                   userQueryText := "what is new?";
                   useWebSearch := true;
                   enableFunctionCalling := false |} in
  let run := callTool sampleTools sampleVertexConfig (vertexOf answersOnThird)
               vertexSafetySettings "answer_query_websearch" "what is new?" in
  let call :=
    callVertexAIWithOptionalFunctionCalling (vertexOf answersOnThird) vertexSafetySettings
      (promptContent prompt)
      (if useWebSearch prompt then Some [googleSearchTool] else None)
      (cfg_modelId sampleVertexConfig) (cfg_temperature sampleVertexConfig)
      (cfg_useStreaming sampleVertexConfig) (cfg_maxOutputTokens sampleVertexConfig)
      (cfg_maxRetries sampleVertexConfig) (cfg_retryDelayMs sampleVertexConfig) in
  fst run = fst call
  /\ List.Forall
       (fun ev => isSleep ev = true
                  \/ (entryOf ev = Some (if useWebSearch prompt then Preview else Default)
                      /\ toolsOf ev = (if useWebSearch prompt
                                       then Some [googleSearchTool] else None)
                      /\ contentsOf ev = Some (promptContent prompt)))
       (fst run)
  /\ (1 <= List.length (attempts (fst run))
      <= Z.to_nat (cfg_maxRetries sampleVertexConfig + 1))%nat
  /\ ((exists t, snd call = Returned t /\ snd run = Content [t] /\ t <> "")
      \/ (exists e, snd call = Raised e
                    /\ snd run = Error {| code := InternalError;
                                          message := mcpMessage e |})).
Proof.
  apply (tool_call_is_one_client_call sampleTools sampleVertexConfig
           (vertexOf answersOnThird) vertexSafetySettings "answer_query_websearch"
           "what is new?" (promptTool "answer_query_websearch" true)).
  - reflexivity.
  - reflexivity.
  - simpl. lia.
Defined.

(** A failure of the client reaches the reply with its message. *)
Example client_error_reaches_the_reply :
  snd (callTool sampleTools sampleVertexConfig (vertexOf alwaysUnavailable)
         vertexSafetySettings "answer_query_websearch" "what is new?")
  = Error {| code := InternalError;
             message := "Vertex AI API error: [503 Service Unavailable] "
                          ++ "The model is overloaded. (Status Code: 503)" |}.
Proof. vm_compute. reflexivity. Qed.

Example unknown_tool_is_refused :
  callTool sampleTools sampleVertexConfig (vertexOf answersOnThird) vertexSafetySettings
    "no_such_tool" "{}"
  = ([], Error {| code := MethodNotFound; message := "Unknown tool: no_such_tool" |}).
Proof. vm_compute. reflexivity. Qed.

End HandlerWitnesses.
